(** * proptree: the Python binding of boost::property_tree

    A shallow embedding of [src/proptree/proptree.cpp].  The binding wraps a
    [boost::property_tree::ptree] in a Python object and forwards the Python
    protocol slots and methods to it.

    - [ptree] is the node type: a data string and the children, (key, child)
      pairs with keys that need not be unique, in their storage order and
      in the order of the index by key.
    - Modules [Ptree] and [PtreePath] model the member functions of
      [basic_ptree] the binding calls (the library itself is a dependency,
      not part of the repository); what depends on how the library and
      CPython were built is collected in the class [Platform].
    - The [PyPropertyTree_*] definitions follow the C++ functions of the
      binding one by one: a method that mutates [self->obj] returns the new
      contents of the node, a method that hands out a reference into the
      tree returns the position of the referenced node.
    - The functions that allocate a tree ([__copy__], [|]) run over a heap
      of owned trees, so that what they leave untouched can be stated.
    - An iterator object is the position it has reached in its container;
      [run_iterator] calls [tp_iternext] until it stops, as [list(...)]
      does. *)

From Stdlib Require Import ZArith String Ascii List Bool Lia.
From Stdlib Require Import Floats.PrimFloat Floats.SpecFloat Floats.FloatOps.
From Stdlib Require OrderedTypeEx.
From stdpp Require Import base option list sorting gmap strings pretty.

Local Open Scope Z_scope.

(** ** Data model *)

(** [boost::property_tree::ptree]: [m_data] and the children container with
    its two indices.  [children] is the sequenced index, the children in
    storage order.  [by_name] stands for the index ordered by key: it lists
    the positions of the children in the order in which they were linked,
    which is the order that index keeps children with equal keys in. *)
Local Unset Elimination Schemes.
Inductive ptree : Type :=
  Node {
    data : string;
    children : list (string * ptree);
    by_name : list nat
  }.
Local Set Elimination Schemes.

(** The exceptions the binding raises. *)
Inductive PyExc : Type :=
  | PyExc_ValueError | PyExc_KeyError | PyExc_IndexError | PyExc_TypeError
  | PyExc_AttributeError
  (** raised by CPython itself: an integer argument that does not fit a C
      [int], an item that is not a tuple where [PyArg_ParseTuple] wants
      one, a byte string that is not UTF-8 *)
  | PyExc_OverflowError | PyExc_SystemError | PyExc_UnicodeDecodeError
  | PyPropertyTreeBadDataError | PyPropertyTreeBadPathError
  | PyPropertyTreeJSONParserError.

(** Outcome of a C function of the binding: a result, a Python exception
    (the function returns NULL or -1 with the error indicator set), or a
    failed [BOOST_ASSERT] inside the library. *)
Inductive PyResult (A : Type) : Type :=
  | Return (a : A)
  | Raise (e : PyExc)
  | AssertionFailed.
Arguments Return {A} a.
Arguments Raise {A} e.
Arguments AssertionFailed {A}.

(** ** C integers *)

Definition INT_MIN : Z := - 2 ^ 31.
Definition INT_MAX : Z := 2 ^ 31 - 1.

(** The conversion of a wider integer to [int]: the value modulo 2^32. *)
Definition int_cast (z : Z) : Z := (z + 2 ^ 31) mod 2 ^ 32 - 2 ^ 31.

(** The format unit [i] of [PyArg_ParseTuple] for an integer argument that
    may be left out: the variable keeps the value it was preset with when
    the argument is not passed; [None] is the [OverflowError] for a Python
    integer that does not fit an [int]. *)
Definition PyArg_Parse_i (arg : option Z) (preset : Z) : option Z :=
  match arg with
  | None => Some preset
  | Some z => if (INT_MIN <=? z) && (z <=? INT_MAX) then Some z else None
  end.

(** A reference to a node inside [self->obj]: the positions to follow from
    the node, outermost first.  This is what a [PyPropertyTree] created with
    [PTREE_FLAG_OBJECT_NOT_OWNED] points to. *)
Definition node_ref : Type := list nat.

Fixpoint subtree_at (r : node_ref) (t : ptree) : option ptree :=
  match r with
  | [] => Some t
  | i :: r' =>
      match children t !! i with
      | Some (_, c) => subtree_at r' c
      | None => None
      end
  end.

(** ** The [basic_ptree] member functions used by the binding

    [boost/property_tree/detail/ptree_implementation.hpp]: the children are
    a multi-index container, sequenced for the storage order and ordered by
    key for [find], [count], [equal_range] and [erase(key)]. *)

Module Ptree.

Definition size (pt : ptree) : nat := length (children pt).

Definition empty (pt : ptree) : bool :=
  match children pt with [] => true | _ => false end.

(** [iter->first == key] for the child at a position. *)
Definition has_key (key : string) (pt : ptree) (i : nat) : Prop :=
  fst <$> children pt !! i = Some key.

#[global] Instance has_key_dec (key : string) (pt : ptree) (i : nat)
  : Decision (has_key key pt i) :=
  decide (fst <$> children pt !! i = Some key).

(** What holds of [by_name] in a container: it lists every position once.
    The operations of the container keep it so. *)
Definition well_linked (pt : ptree) : Prop :=
  by_name pt ≡ₚ seq 0 (size pt).

(** The positions of the children in the order in which they were linked:
    the positions [by_name] lists, each once, and behind them, in storage
    order, the positions it does not list.  For a [well_linked] node this
    is [by_name]; written like this [find] is a function on every value of
    the type. *)
Definition linked (pt : ptree) : list nat :=
  let listed := filter (λ i, (i < size pt)%nat) (remove_dups (by_name pt)) in
  listed ++ filter (λ i, i ∉ listed) (seq 0 (size pt)).

(** [find(key)]: the first element of the equal range of [key] in the
    index ordered by key, which is the child with this key that was linked
    first; [None] is [not_found()]. *)
Definition find (key : string) (pt : ptree) : option nat :=
  head (filter (has_key key pt) (linked pt)).

(** [count(key)]: length of the equal range of [key]. *)
Fixpoint count_in (key : string) (cs : list (string * ptree)) : nat :=
  match cs with
  | [] => 0%nat
  | (k, _) :: cs' =>
      if String.eqb k key then S (count_in key cs') else count_in key cs'
  end.

Definition count (key : string) (pt : ptree) : nat :=
  count_in key (children pt).

(** What the index ordered by key lists after a child was linked before
    the position [i] of the storage order: the children from [i] on have
    moved up by one, and the new child is the last one linked. *)
Definition link (i : nat) (by_name : list nat) : list nat :=
  ((λ p, if (p <? i)%nat then p else S p) <$> by_name) ++ [i].

(** ... and after the child at the position [i] was unlinked. *)
Definition unlink (i : nat) (by_name : list nat) : list nat :=
  (λ p, if (p <? i)%nat then p else pred p) <$> filter (λ p, p ≠ i) by_name.

(** The place of the old position [p] in the list [moved] of the old
    positions in their new order. *)
Definition index_of (p : nat) (moved : list nat) : option nat :=
  fst <$> list_find (λ x, x = p) moved.

(** ... and after the children were rearranged, [moved] giving for each
    new position the old position of the child there. *)
Definition renumber (moved : list nat) (by_name : list nat) : list nat :=
  omap (λ p, index_of p moved) by_name.

(** ... and after the storage order of [n] children was reversed. *)
Definition mirror (n : nat) (by_name : list nat) : list nat :=
  (λ p, if (p <? n)%nat then (n - 1 - p)%nat else p) <$> by_name.

(** [erase(key)]: unlinks every element of the equal range of [key], one
    after the other, and returns how many it unlinked. *)
Fixpoint erase_in (key : string) (cs : list (string * ptree))
  : nat * list (string * ptree) :=
  match cs with
  | [] => (0%nat, [])
  | (k, c) :: cs' =>
      let '(n, rest) := erase_in key cs' in
      if String.eqb k key then (S n, rest) else (n, (k, c) :: rest)
  end.

(** The children with the key are unlinked from both indices, the last
    one in storage order first. *)
Definition erase_key (key : string) (pt : ptree) : nat * ptree :=
  let '(n, cs) := erase_in key (children pt) in
  let erased := filter (has_key key pt) (seq 0 (size pt)) in
  (n, Node (data pt) cs
        (fold_left (λ by_name i, unlink i by_name) (reverse erased)
           (by_name pt))).

(** [erase(iterator)]: unlinks the child at one position. *)
Definition erase_at (i : nat) (pt : ptree) : ptree :=
  Node (data pt) (delete i (children pt)) (unlink i (by_name pt)).

(** [push_back(value_type(key, child))], which is [insert(end(), ...)]; the
    new child is the last one. *)
Definition push_back (key : string) (child : ptree) (pt : ptree)
  : nat * ptree :=
  (size pt,
   Node (data pt) (children pt ++ [(key, child)]) (link (size pt) (by_name pt))).

(** [insert(end(), first, last)]: the children of the range are linked one
    after the other. *)
Definition push_back_all (range : list (string * ptree)) (pt : ptree)
  : ptree :=
  fold_left (λ pt kc, (push_back kc.1 kc.2 pt).2) range pt.

End Ptree.

(** ** Methods matching children by key *)

(** A scan of the children from [begin()] for the first one whose key is
    [key], as the loops of the binding do it: the first position in storage
    order. *)
Fixpoint first_in (key : string) (cs : list (string * ptree)) : option nat :=
  match cs with
  | [] => None
  | (k, _) :: cs' =>
      if String.eqb k key then Some 0%nat else S <$> first_in key cs'
  end.

(** The [for] loop of [PyPropertyTree_remove] (lines 730-737): the iterator
    position at which [iter->first == key_std] first holds, counted from
    [i]. *)
Fixpoint remove_scan (key_std : string) (cs : list (string * ptree)) (i : nat)
  : option nat :=
  match cs with
  | [] => None
  | (first, _) :: cs' =>
      if String.eqb first key_std then Some i
      else remove_scan key_std cs' (S i)
  end.

(** [remove(key)], lines 716-741. *)
Definition PyPropertyTree_remove (self : ptree) (key : string)
  : PyResult unit * ptree :=
  match remove_scan key (children self) 0 with
  | Some i => (Return tt, Ptree.erase_at i self)
  | None => (Raise PyExc_ValueError, self)
  end.

(** First loop of [PyPropertyTree_index] (lines 467-473): advance to
    position [start]. *)
Fixpoint index_skip (cs : list (string * ptree)) (index start : Z)
  : option (list (string * ptree) * Z) :=
  if index <? start then
    match cs with
    | [] => None
    | _ :: cs' => index_skip cs' (index + 1) start
    end
  else Some (cs, index).

(** Second loop of [PyPropertyTree_index] (lines 475-483): scan up to
    position [end]. *)
Fixpoint index_scan (key_std : string) (cs : list (string * ptree))
    (index end_ : Z) : option Z :=
  if index <? end_ then
    match cs with
    | [] => None
    | (first, _) :: cs' =>
        if String.eqb first key_std then Some index
        else index_scan key_std cs' (index + 1) end_
    end
  else None.

(** [index(key, start, end)], lines 448-488.  [start] and [end] are the
    optional arguments, parsed into [int]s; [end] is preset with the number
    of children. *)
Definition PyPropertyTree_index (self : ptree) (key : string)
    (start end_ : option Z) : PyResult Z * ptree :=
  match PyArg_Parse_i start 0,
        PyArg_Parse_i end_ (int_cast (Z.of_nat (Ptree.size self))) with
  | Some start, Some end_ =>
      match index_skip (children self) 0 start with
      | None => (Raise PyExc_ValueError, self)
      | Some (cs, index) =>
          match index_scan key cs index end_ with
          | Some i => (Return i, self)
          | None => (Raise PyExc_ValueError, self)
          end
      end
  | _, _ => (Raise PyExc_OverflowError, self)
  end.

(** [count(key)], lines 283-296. *)
Definition PyPropertyTree_count (self : ptree) (key : string)
  : PyResult Z * ptree :=
  (Return (Z.of_nat (Ptree.count key self)), self).

(** [erase(key)], lines 312-325. *)
Definition PyPropertyTree_erase (self : ptree) (key : string)
  : PyResult Z * ptree :=
  let '(n, self') := Ptree.erase_key key self in
  (Return (Z.of_nat n), self').

(** ** Paths

    A [std::string] handed to [get_child], [put_child] or [add_child] is
    converted to a [string_path] ([boost/property_tree/string_path.hpp])
    with separator ['.'] and the identity translator: there is no escape
    syntax. *)

Definition separator : ascii := "."%char.

(** The fragments between separators; never the empty list. *)
Fixpoint path_split (p : string) : list string :=
  match p with
  | EmptyString => [EmptyString]
  | String c p' =>
      if Ascii.eqb c separator then EmptyString :: path_split p'
      else
        match path_split p' with
        | [] => [String c EmptyString]
        | k :: ks => String c k :: ks
        end
  end.

(** The fragments [reduce()] yields until [empty()] holds: after the last
    separator has been skipped the path is empty, so a trailing empty
    fragment is never produced. *)
Definition path_keys (p : string) : list string :=
  let ks := path_split p in
  if String.eqb (List.last ks EmptyString) EmptyString then removelast ks
  else ks.

(** [update_at r f t]: [t] with the node that [r] refers to replaced by its
    image under [f]. *)
Fixpoint update_at (r : node_ref) (f : ptree → ptree) (t : ptree) : ptree :=
  match r with
  | [] => f t
  | i :: r' =>
      Node (data t) (alter (λ kc, (kc.1, update_at r' f kc.2)) i (children t))
        (by_name t)
  end.

(** The runtime the binding is compiled against; none of it is code of the
    repository. *)
Class Platform : Type := {
  (** whether [BOOST_ASSERT] is compiled out *)
  NDEBUG : bool;
  (** [get_value<bool>], [get_value<long>] and [get_value<double>] of the
      stream translator on a data string; [None] is [ptree_bad_data] *)
  get_value_bool : string → option bool;
  get_value_long : string → option Z;
  get_value_double : string → option float;
  (** [str()] of a Python float *)
  float_repr : float → string;
  (** the text [write_json_helper] produces for a tree that passed
      [verify_json], with or without pretty printing *)
  write_json_helper : ptree → bool → string
}.

Module PtreePath.

(** [walk_path]: resolve the fragments one after the other, each time
    through [find]; [None] is the null pointer. *)
Fixpoint walk_path (ks : list string) (pt : ptree) : option node_ref :=
  match ks with
  | [] => Some []
  | k :: ks' =>
      match Ptree.find k pt with
      | None => None
      | Some i =>
          match children pt !! i with
          | Some (_, c) => cons i <$> walk_path ks' c
          | None => None
          end
      end
  end.

(** [get_child(path)]; [None] stands for throwing [ptree_bad_path]. *)
Definition get_child (path : string) (pt : ptree) : option node_ref :=
  walk_path (path_keys path) pt.

(** [force_path]: descend along the parent fragments, creating an empty
    child wherever [find] fails. *)
Fixpoint force_path (ks : list string) (pt : ptree) : node_ref * ptree :=
  match ks with
  | [] => ([], pt)
  | k :: ks' =>
      match Ptree.find k pt with
      | Some i =>
          match children pt !! i with
          | Some (k0, c) =>
              let '(r, c') := force_path ks' c in
              (i :: r,
               Node (data pt) (<[i := (k0, c')]> (children pt)) (by_name pt))
          | None => ([], pt)
          end
      | None =>
          let '(r, c') := force_path ks' (Node EmptyString [] []) in
          (Ptree.size pt :: r, (Ptree.push_back k c' pt).2)
      end
  end.

(** The last step of [put_child] on the parent: assign to the child
    [find] returns, else [push_back]. *)
Definition put_fragment (fragment : string) (value : ptree) (parent : ptree)
  : nat * ptree :=
  match Ptree.find fragment parent with
  | Some i =>
      (i, Node (data parent) (<[i := (fragment, value)]> (children parent))
            (by_name parent))
  | None => Ptree.push_back fragment value parent
  end.

(** [force_path] and the [reduce()] after it both assert that the path
    is not empty; that fails when the last fragment is empty. *)
Definition path_assert `{Platform} (fragment : string) : bool :=
  NDEBUG || negb (String.eqb fragment EmptyString).

(** What [put_child] and [add_child] share: split off the last fragment,
    force the parents, then link the value below the parent. *)
Definition link_child `{Platform}
    (link : string → ptree → ptree → nat * ptree)
    (path : string) (value : ptree) (pt : ptree)
  : PyResult (node_ref * ptree) :=
  let ks := path_split path in
  let fragment := List.last ks EmptyString in
  if path_assert fragment then
    let '(r, pt1) := force_path (removelast ks) pt in
    match subtree_at r pt1 with
    | Some parent =>
        let '(i, _) := link fragment value parent in
        Return (r ++ [i],
                update_at r (λ p, (link fragment value p).2) pt1)
    | None => AssertionFailed (* never: see [force_path_subtree] *)
    end
  else AssertionFailed.

Definition put_child `{Platform} := link_child put_fragment.
Definition add_child `{Platform} := link_child Ptree.push_back.

End PtreePath.

(** ** Python values *)

(** The Python objects the binding tells apart.  [T] is what a
    [proptree.Tree] object stands for: the contents of its node where a call
    only reads the argument, the object itself where the heap matters. *)
Inductive PyObject (T : Type) : Type :=
  | Py_None
  | PyBool (b : bool)
  | PyLong (z : Z)
  | PyFloat (f : float)
  (** another numeric object (complex, Decimal, ...) and its [str()] *)
  | PyNumber (str : string)
  (** a [str], as its UTF-8 encoding *)
  | PyUnicode (s : string)
  | PyTree (t : T)
  | Py_NotImplemented
  (** an object of any other type (list, dict, bytes, ...) and its [str()] *)
  | PyObject_other (str : string).
Arguments Py_None {T}.
Arguments PyBool {T} b.
Arguments PyLong {T} z.
Arguments PyFloat {T} f.
Arguments PyNumber {T} str.
Arguments PyUnicode {T} s.
Arguments PyTree {T} t.
Arguments Py_NotImplemented {T}.
Arguments PyObject_other {T} str.

Abbreviation PyValue := (PyObject ptree).

Definition Py_True {T} : PyObject T := PyBool true.
Definition Py_False {T} : PyObject T := PyBool false.

(** What a method returns to Python: a new [Tree] object that does not own
    its node and points into [self], [self] itself, or an object that was
    passed in. *)
Inductive PyReturn : Type :=
  | PyTree_NotOwned (r : node_ref)
  | PySelf
  | PyObject_Passed (o : PyValue).

(** [PyNumber_Check]: the type fills [nb_index], [nb_int] or [nb_float], or
    is complex.  [proptree.Tree] fills [nb_int] and [nb_float]. *)
Definition PyNumber_Check (value : PyValue) : bool :=
  match value with
  | PyBool _ | PyLong _ | PyFloat _ | PyNumber _ | PyTree _ => true
  | _ => false
  end.

Definition PyObject_Str `{Platform} (value : PyValue) : string :=
  match value with
  | Py_None => "None"
  | PyBool b => if b then "True" else "False"
  | PyLong z => pretty z
  | PyFloat f => float_repr f
  | PyNumber str => str
  | PyUnicode s => s
  | PyTree t => data t
  | Py_NotImplemented => "NotImplemented"
  | PyObject_other str => str
  end.

(** Lines 109-140; [None] is the return value -1. *)
Definition py_value_to_string `{Platform} (value : PyValue) : option string :=
  match value with
  | Py_None => Some "none"
  | PyBool b => Some (if b then "true" else "false")
  | _ =>
      if PyNumber_Check value then Some (PyObject_Str value)
      else
        match value with
        | PyUnicode s => Some s
        | _ => None
        end
  end.

(** The chain every assigning method runs on its value: a [Tree] is copied
    as it is, anything else goes through [py_value_to_string] into a fresh
    leaf; [None] is the branch that sets [ValueError]. *)
Definition value_to_tree `{Platform} (value : PyValue) : option ptree :=
  match value with
  | PyTree t => Some t
  | _ => (λ s, Node s [] []) <$> py_value_to_string value
  end.

(** ** Methods assigning a value *)

Definition returning {A B : Type} (r : PyResult (A * B)) (self : B)
  : PyResult A * B :=
  match r with
  | Return (a, self') => (Return a, self')
  | Raise e => (Raise e, self)
  | AssertionFailed => (AssertionFailed, self)
  end.

(** [put(path, value)], lines 671-704. *)
Definition PyPropertyTree_put `{Platform} (self : ptree) (path : string)
    (value : PyValue) : PyResult node_ref * ptree :=
  match value_to_tree value with
  | Some tree => returning (PtreePath.put_child path tree self) self
  | None => (Raise PyExc_ValueError, self)
  end.

(** [add(path, value)], lines 196-229. *)
Definition PyPropertyTree_add `{Platform} (self : ptree) (path : string)
    (value : PyValue) : PyResult node_ref * ptree :=
  match value_to_tree value with
  | Some tree => returning (PtreePath.add_child path tree self) self
  | None => (Raise PyExc_ValueError, self)
  end.

(** [append(key, value)], lines 235-266. *)
Definition PyPropertyTree_append `{Platform} (self : ptree) (key : string)
    (value : PyValue) : PyResult node_ref * ptree :=
  match value_to_tree value with
  | Some tree =>
      let '(i, self') := Ptree.push_back key tree self in (Return [i], self')
  | None => (Raise PyExc_ValueError, self)
  end.

(** [insert(iter, value_type(key, child))] of the container: link before the
    position. *)
Definition insert_before (i : nat) (key : string) (child : ptree)
    (pt : ptree) : ptree :=
  Node (data pt) (take i (children pt) ++ (key, child) :: drop i (children pt))
    (Ptree.link i (by_name pt)).

(** [insert(index, key, value)], lines 495-541; [index] is the Python
    integer passed, which is parsed into an [int]. *)
Definition PyPropertyTree_insert `{Platform} (self : ptree) (index : Z)
    (key : string) (value : PyValue) : PyResult node_ref * ptree :=
  match PyArg_Parse_i (Some index) 0 with
  | None => (Raise PyExc_OverflowError, self)
  | Some index =>
      let size := Z.of_nat (Ptree.size self) in
      let index := if index <? 0 then int_cast (index + (size + 1)) else index in
      if (index <? 0) || (size <? index) then (Raise PyExc_IndexError, self)
      else
        match value_to_tree value with
        | Some tree =>
            (Return [Z.to_nat index],
             insert_before (Z.to_nat index) key tree self)
        | None => (Raise PyExc_ValueError, self)
        end
  end.

(** [setdefault(path, default)], lines 798-838; [value] defaults to
    [Py_None]. *)
Definition PyPropertyTree_setdefault `{Platform} (self : ptree)
    (path : string) (value : option PyValue) : PyResult node_ref * ptree :=
  let value := default Py_None value in
  match PtreePath.get_child path self with
  | Some r => (Return r, self)
  | None =>
      match value_to_tree value with
      | Some tree => returning (PtreePath.put_child path tree self) self
      | None => (Raise PyExc_ValueError, self)
      end
  end.

(** [PyIndex_Check] followed by the conversion to the C integer. *)
Definition PyIndex_Check (key : PyValue) : option Z :=
  match key with
  | PyLong z => Some z
  | PyBool b => Some (Z.b2z b)
  | _ => None
  end.

(** The key of the child at a Python index (lines 1428-1441): the index
    is stored in an [int], and a negative one counts from the end.  [None]
    is the branch that sets [IndexError].  An index that does not fit a
    [Py_ssize_t], for which [PyLong_AsSsize_t] leaves [OverflowError]
    pending, is outside of the model. *)
Definition key_at_index (tree : ptree) (index : Z) : option string :=
  let size := Z.of_nat (Ptree.size tree) in
  let index := int_cast index in
  let index := if index <? 0 then int_cast (index + size) else index in
  if (0 <=? index) && (index <? size) then
    fst <$> children tree !! Z.to_nat index
  else None.

(** [self[key] = value], lines 1421-1494; [value] is [None] for
    [del self[key]]. *)
Definition PyPropertyTree_mp_ass_subscript `{Platform} (self : ptree)
    (key : PyValue) (value : option PyValue) : PyResult unit * ptree :=
  let path_std :=
    match PyIndex_Check key with
    | Some index =>
        match key_at_index self index with
        | Some k => Return k
        | None => Raise PyExc_IndexError
        end
    | None =>
        match key with
        | PyUnicode path => Return path
        | _ => Raise PyExc_KeyError
        end
    end in
  match path_std with
  | Return path_std =>
      match value with
      | None =>
          match remove_scan path_std (children self) 0 with
          | Some i => (Return tt, Ptree.erase_at i self)
          | None => (Raise PyExc_KeyError, self)
          end
      | Some value =>
          match value_to_tree value with
          | Some tree =>
              match PtreePath.put_child path_std tree self with
              | Return (_, self') => (Return tt, self')
              | Raise e => (Raise e, self)
              | AssertionFailed => (AssertionFailed, self)
              end
          | None => (Raise PyExc_ValueError, self)
          end
      end
  | Raise e => (Raise e, self)
  | AssertionFailed => (AssertionFailed, self)
  end.

(** The setter of the [value] entry of [PyPropertyTree__getsets], lines
    154-177. *)
Definition PyPropertyTree__set_value (self : ptree) (py_val : PyValue)
  : PyResult unit * ptree :=
  match py_val with
  | PyUnicode value => (Return tt, Node value (children self) (by_name self))
  | _ => (Raise PyExc_ValueError, self)
  end.

(** [PyObject_GenericSetAttr] on a [Tree]: the type has no instance
    dictionary, so only a data descriptor can take the assignment.  Those are
    [value] from the getset table and [__class__] inherited from [object],
    which wants a class; every other name ends in [AttributeError]. *)
Definition PyObject_GenericSetAttr (self : ptree) (name : string)
    (value : PyValue) : PyResult unit * ptree :=
  if String.eqb name "value" then PyPropertyTree__set_value self value
  else if String.eqb name "__class__" then (Raise PyExc_TypeError, self)
  else (Raise PyExc_AttributeError, self).

(** [self.name = value], lines 1707-1741. *)
Definition PyPropertyTree__tp_setattro `{Platform} (self : ptree)
    (name : string) (value : PyValue) : PyResult unit * ptree :=
  match PyObject_GenericSetAttr self name value with
  | (Return _, self') => (Return tt, self')
  | (Raise PyExc_AttributeError, _) =>
      match value_to_tree value with
      | Some tree =>
          match PtreePath.put_child name tree self with
          | Return (_, self') => (Return tt, self')
          | Raise e => (Raise e, self)
          | AssertionFailed => (AssertionFailed, self)
          end
      | None => (Raise PyExc_ValueError, self)
      end
  | (other, _) => (other, self)
  end.

(** ** Lookup *)

(** [get(path, default)], lines 408-441; [py_default] is [None] when the
    argument was not passed. *)
Definition PyPropertyTree_get (self : ptree) (path : string)
    (py_default : option PyValue) : PyResult PyReturn * ptree :=
  match PtreePath.get_child path self with
  | Some retval => (Return (PyTree_NotOwned retval), self)
  | None =>
      match py_default with
      | None => (Raise PyPropertyTreeBadPathError, self)
      | Some d => (Return (PyObject_Passed d), self)
      end
  end.

(** An iterator other than [not_found()], a position other than [npos]. *)
Definition is_found {A : Type} (o : option A) : bool :=
  match o with Some _ => true | None => false end.

(** [std::string::find(str)]: the first position at which [str] starts. *)
Fixpoint string_find (s str : string) : option nat :=
  if String.prefix str s then Some 0%nat
  else
    match s with
    | EmptyString => None
    | String _ s' => S <$> string_find s' str
    end.

(** [py_value in self], lines 1502-1530. *)
Definition PyPropertyTree__sq_contains (self : ptree) (py_value : PyValue)
  : bool :=
  match py_value with
  | PyUnicode str =>
      is_found (Ptree.find str self) || is_found (string_find (data self) str)
  | PyTree value => is_found (Ptree.find (data value) self)
  | _ => false
  end.

(** ** Copy and comparison *)

(** The copy constructor: the data and, element by element, the children. *)
Fixpoint ptree_copy (t : ptree) : ptree :=
  match t with
  | Node d cs bn =>
      Node d (map (λ kc, let '(k, c) := kc in (k, ptree_copy c)) cs) bn
  end.

(** [operator==] of [basic_ptree]: equal sizes, equal data, and the child
    sequences equal element by element, each element as a pair of key and
    subtree. *)
Fixpoint ptree_eqb (a b : ptree) : bool :=
  match a, b with
  | Node da ca _, Node db cb _ =>
      Nat.eqb (length ca) (length cb) && String.eqb da db
      && (fix equal (xs ys : list (string * ptree)) : bool :=
            match xs, ys with
            | [], [] => true
            | (k1, c1) :: xs', (k2, c2) :: ys' =>
                String.eqb k1 k2 && ptree_eqb c1 c2 && equal xs' ys'
            | _, _ => false
            end) ca cb
  end.

Inductive cmp_op : Type := Py_LT | Py_LE | Py_EQ | Py_NE | Py_GT | Py_GE.

(** The six C++ comparison operators on [long] (and on [bool], promoted). *)
Definition cmp_long (op : cmp_op) (x y : Z) : bool :=
  match op with
  | Py_LT => x <? y
  | Py_LE => x <=? y
  | Py_EQ => x =? y
  | Py_NE => negb (x =? y)
  | Py_GE => y <=? x
  | Py_GT => y <? x
  end.

(** ... on [double] ... *)
Definition cmp_double (op : cmp_op) (x y : float) : bool :=
  match op with
  | Py_LT => PrimFloat.ltb x y
  | Py_LE => PrimFloat.leb x y
  | Py_EQ => PrimFloat.eqb x y
  | Py_NE => negb (PrimFloat.eqb x y)
  | Py_GE => PrimFloat.leb y x
  | Py_GT => PrimFloat.ltb y x
  end.

(** ... and on [std::string]. *)
Definition cmp_string (op : cmp_op) (x y : string) : bool :=
  match op with
  | Py_LT => String.ltb x y
  | Py_LE => String.leb x y
  | Py_EQ => String.eqb x y
  | Py_NE => negb (String.eqb x y)
  | Py_GE => String.leb y x
  | Py_GT => String.ltb y x
  end.

Definition LONG_MIN : Z := - 2 ^ 63.
Definition LONG_MAX : Z := 2 ^ 63 - 1.

(** [PyLong_AsLong]: out of range it returns -1 (and leaves an
    [OverflowError] pending, which the caller never looks at). *)
Definition PyLong_AsLong (z : Z) : Z :=
  if (LONG_MIN <=? z) && (z <=? LONG_MAX) then z else -1.

(** A comparison that holds runs [Py_RETURN_TRUE]; otherwise control leaves
    the [switch] and reaches [Py_RETURN_FALSE]. *)
Definition Py_RETURN {T} (b : bool) : PyResult (PyObject T) :=
  Return (if b then Py_True else Py_False).

(** [get_value<T>()] throws [ptree_bad_data], which the [catch] turns into
    [BadDataError]. *)
Definition compare_parsed {A T : Type} (parsed : option A) (cmp : A → bool)
  : PyResult (PyObject T) :=
  match parsed with
  | Some x => Py_RETURN (cmp x)
  | None => Raise PyPropertyTreeBadDataError
  end.

(** Lines 1064-1234. *)
Definition PyPropertyTree__tp_richcompare `{Platform} (self : ptree)
    (other : PyValue) (op : cmp_op) : PyResult PyValue :=
  match other with
  | PyTree other_obj =>
      match op with
      | Py_EQ => Py_RETURN (ptree_eqb self other_obj)
      | Py_NE => Py_RETURN (negb (ptree_eqb self other_obj))
      | _ => Return Py_NotImplemented
      end
  | Py_None =>
      match op with
      | Py_EQ => Py_RETURN (String.eqb (data self) "none")
      | Py_NE => Py_RETURN (negb (String.eqb (data self) "none"))
      | _ => Return Py_NotImplemented
      end
  | PyBool value =>
      compare_parsed (get_value_bool (data self))
        (λ x, cmp_long op (Z.b2z x) (Z.b2z value))
  | PyLong other =>
      let value := PyLong_AsLong other in
      compare_parsed (get_value_long (data self)) (λ x, cmp_long op x value)
  | PyFloat value =>
      compare_parsed (get_value_double (data self))
        (λ x, cmp_double op x value)
  | PyUnicode value => Py_RETURN (cmp_string op (data self) value)
  | _ => Py_RETURN false
  end.

(** ** Merging *)

(** The loop of [nb_or] and [nb_inplace_or]: every child of the right
    operand, in storage order, is put into the target with its key taken as
    the path.  The iterator runs over the children the right operand has
    when the loop starts; a right operand that is a node of the target
    itself is outside this model. *)
Fixpoint or_loop `{Platform} (iter : list (string * ptree)) (target : ptree)
  : PyResult ptree :=
  match iter with
  | [] => Return target
  | (first, second) :: iter' =>
      match PtreePath.put_child first second target with
      | Return (_, target') => or_loop iter' target'
      | Raise e => Raise e
      | AssertionFailed => AssertionFailed
      end
  end.

(** [self |= py_right], lines 1305-1325; the result is [self] itself. *)
Definition PyPropertyTree__nb_inplace_or `{Platform} (self : ptree)
    (py_right : PyValue) : PyResult PyReturn * ptree :=
  match py_right with
  | PyTree right_obj =>
      match or_loop (children right_obj) self with
      | Return self' => (Return PySelf, self')
      | Raise e => (Raise e, self)
      | AssertionFailed => (AssertionFailed, self)
      end
  | _ => (Return (PyObject_Passed Py_NotImplemented), self)
  end.

(** ** Objects on the heap

    The functions that build a new tree object ([new ptree(...)] with
    [PTREE_FLAG_NONE]) are modelled over the store of owned trees. *)

Inductive PyPropertyTree_Flags : Type :=
  | PTREE_FLAG_NONE
  | PTREE_FLAG_OBJECT_NOT_OWNED.

(** A [PyPropertyTree]: [obj] points to the node at [obj_path] inside the
    tree allocated at [obj_root]. *)
Record PyPropertyTree : Type := PyPropertyTree_New {
  obj_root : nat;
  obj_path : node_ref;
  flags : PyPropertyTree_Flags
}.

Abbreviation heap := (gmap nat ptree).

(** [*self->obj] *)
Definition deref (h : heap) (self : PyPropertyTree) : option ptree :=
  h !! obj_root self ≫= subtree_at (obj_path self).

(** Writing through [self->obj]. *)
Definition store (h : heap) (self : PyPropertyTree) (f : ptree → ptree)
  : heap :=
  alter (update_at (obj_path self) f) (obj_root self) h.

(** [new boost::property_tree::ptree(t)] *)
Definition new_ptree (h : heap) (t : ptree) : nat * heap :=
  let a := fresh (dom h) in (a, <[a := ptree_copy t]> h).

(** A method of the binding called on a tree object: it runs on the node
    [self->obj] points to and leaves its new contents there.  [None] when
    [self->obj] does not point to a node of the heap. *)
Definition call_method {A : Type} (h : heap) (self : PyPropertyTree)
    (method : ptree → A * ptree) : option (A * heap) :=
  match deref h self with
  | Some t => let '(a, t') := method t in Some (a, store h self (λ _, t'))
  | None => None
  end.

(** Lines 922-926. *)
Definition PyPropertyTree__copy__ (h : heap) (self : PyPropertyTree)
  : option (PyPropertyTree * heap) :=
  match deref h self with
  | Some t =>
      let '(a, h') := new_ptree h t in
      Some (PyPropertyTree_New a [] PTREE_FLAG_NONE, h')
  | None => None
  end.

(** [left | right], lines 1278-1303: the loop runs on a fresh copy of the
    left operand.  An operand that is not a tree gives [NotImplemented]. *)
Definition PyPropertyTree__nb_or `{Platform} (h : heap)
    (py_left py_right : PyObject PyPropertyTree)
  : option (PyResult (PyObject PyPropertyTree) * heap) :=
  match py_left, py_right with
  | PyTree left_obj, PyTree right_obj =>
      match deref h left_obj, deref h right_obj with
      | Some l, Some r =>
          let '(a, h') := new_ptree h l in
          match or_loop (children r) (ptree_copy l) with
          | Return merged =>
              Some (Return (PyTree (PyPropertyTree_New a [] PTREE_FLAG_NONE)),
                    <[a := merged]> h')
          | Raise e => Some (Raise e, h')
          | AssertionFailed => Some (AssertionFailed, h')
          end
      | _, _ => None
      end
  | _, _ => Some (Return Py_NotImplemented, h)
  end.

(** ** JSON output *)

(** [verify_json] of the library's JSON writer
    ([boost/property_tree/json_parser/detail/write.hpp]), which [write_json]
    runs before it writes anything.  The comments are the library's. *)
Fixpoint verify_json (pt : ptree) (depth : nat) : bool :=
  match pt with
  | Node d cs _ =>
      (* Root ptree cannot have data *)
      if Nat.eqb depth 0 && negb (String.eqb d EmptyString) then false
      (* Ptree cannot have both children and data *)
      else if negb (String.eqb d EmptyString) && negb (Ptree.empty pt)
      then false
      (* Check children *)
      else forallb (λ kc, let '(_, c) := kc in verify_json c (S depth)) cs
  end.

(** [write_json(stream, pt, pretty)] of the library: [verify_json], then
    the text and a line end; [None] is [json_parser_error]. *)
Definition write_json `{Platform} (pt : ptree) (pretty : bool)
  : option string :=
  if verify_json pt 0 then
    Some (write_json_helper pt pretty +:+ String "010"%char EmptyString)
  else None.

(** The decoder of [PyUnicode_DecodeUTF8] with [errors = NULL], as the
    automaton over the bytes: at the start of a character, or waiting for a
    byte between [lo] and [hi] after which [more] continuation bytes are
    still to come.  The ranges are those of the well-formed UTF-8 byte
    sequences (no overlong forms, no surrogates, nothing above U+10FFFF). *)
Inductive utf8_state : Type :=
  | Utf8_start
  | Utf8_next (lo hi : Z) (more : nat).

Definition utf8_step (state : utf8_state) (b : Z) : option utf8_state :=
  match state with
  | Utf8_start =>
      if b <=? 127 then Some Utf8_start
      else if (194 <=? b) && (b <=? 223) then Some (Utf8_next 128 191 0)
      else if b =? 224 then Some (Utf8_next 160 191 1)
      else if b =? 237 then Some (Utf8_next 128 159 1)
      else if (225 <=? b) && (b <=? 239) then Some (Utf8_next 128 191 1)
      else if b =? 240 then Some (Utf8_next 144 191 2)
      else if (241 <=? b) && (b <=? 243) then Some (Utf8_next 128 191 2)
      else if b =? 244 then Some (Utf8_next 128 143 2)
      else None
  | Utf8_next lo hi more =>
      if (lo <=? b) && (b <=? hi) then
        Some (match more with
              | O => Utf8_start
              | S more' => Utf8_next 128 191 more'
              end)
      else None
  end.

Fixpoint utf8_run (state : utf8_state) (s : string) : bool :=
  match s with
  | EmptyString =>
      match state with Utf8_start => true | Utf8_next _ _ _ => false end
  | String b s' =>
      match utf8_step state (Z.of_N (N_of_ascii b)) with
      | Some state' => utf8_run state' s'
      | None => false
      end
  end.

(** [PyUnicode_DecodeUTF8(s, size, NULL)]; a Python [str] is represented by
    its UTF-8 encoding. *)
Definition PyUnicode_DecodeUTF8 (s : string) : PyResult string :=
  if utf8_run Utf8_start s then Return s else Raise PyExc_UnicodeDecodeError.

(** [dumps(tree, pretty_print=True)], lines 2109-2137. *)
Definition property_tree_write_json `{Platform} (tree : ptree)
    (pretty_print : option bool) : PyResult string :=
  let pretty_print := default true pretty_print in
  match write_json tree pretty_print with
  | Some stream_std => PyUnicode_DecodeUTF8 stream_std
  | None => Raise PyPropertyTreeJSONParserError
  end.

(** ** A reference platform

    One concrete runtime, on which the definitions above can be run.  The
    theorems below hold for every [Platform]; this one backs the examples. *)

Module Reference.

(** Modelled from the spec: the stream translator for [bool] is not part of
    the repository; "boolean parses only "true"/"false"" (section 4.4). *)
Definition stream_bool (s : string) : option bool :=
  if String.eqb s "true" then Some true
  else if String.eqb s "false" then Some false
  else None.

Definition digit_of (c : ascii) : option Z :=
  let n := Z.of_N (N_of_ascii c) in
  if (48 <=? n) && (n <=? 57) then Some (n - 48) else None.

Fixpoint digits_value (s : string) (acc : Z) : option Z :=
  match s with
  | EmptyString => Some acc
  | String c s' =>
      match digit_of c with
      | Some d => digits_value s' (10 * acc + d)
      | None => None
      end
  end.

(** A non-empty run of decimal digits. *)
Definition decimal (s : string) : option Z :=
  match s with
  | EmptyString => None
  | _ => digits_value s 0
  end.

Definition signed (s : string) (magnitude : string → option Z) : option Z :=
  match s with
  | String "-"%char s' => Z.opp <$> magnitude s'
  | String "+"%char s' => magnitude s'
  | _ => magnitude s
  end.

(** Modelled from the spec: the stream translator for [long] is not part
    of the repository; "integer and floating parses follow the target
    type's overflow/format rules and raise BadData on failure; no implicit
    truncation" (section 4.4).  Here: an optionally signed run of decimal
    digits whose value fits a [long]. *)
Definition stream_long (s : string) : option Z :=
  z ← signed s decimal;
  if (LONG_MIN <=? z) && (z <=? LONG_MAX) then Some z else None.

Definition float_of_Z (z : Z) : float :=
  SF2Prim (binary_normalize prec emax z 0 false).

(** The text before the first ['.'] and, if there is one, the text after. *)
Fixpoint split_point (s : string) : string * option string :=
  match s with
  | EmptyString => (EmptyString, None)
  | String c s' =>
      if Ascii.eqb c "."%char then (EmptyString, Some s')
      else let '(i, f) := split_point s' in (String c i, f)
  end.

(** Modelled from the spec: the stream translator for [double] is not part
    of the repository (section 4.4, as above).  Here: an optionally signed
    decimal numeral with an optional fraction and no exponent; the value is
    the quotient of the nearest doubles of numerator and denominator. *)
Definition stream_double (s : string) : option float :=
  let '(negative, s) :=
    match s with
    | String "-"%char s' => (true, s')
    | String "+"%char s' => (false, s')
    | _ => (false, s)
    end in
  let '(int_part, frac_part) := split_point s in
  let frac_part := default EmptyString frac_part in
  n ← decimal (int_part +:+ frac_part);
  let x := PrimFloat.div (float_of_Z n)
             (float_of_Z (10 ^ Z.of_nat (String.length frac_part))) in
  Some (if negative : bool then PrimFloat.opp x else x).

(** [digits] as a decimal fraction of [width] places, without trailing
    zeros. *)
Fixpoint fraction_digits (width : nat) (digits : Z) : string :=
  match width with
  | O => EmptyString
  | S width' =>
      let unit := 10 ^ Z.of_nat width' in
      if digits =? 0 then EmptyString
      else String (ascii_of_N (Z.to_N (48 + digits / unit)))
             (fraction_digits width' (digits mod unit))
  end.

(** [str()] of a float, written as its exact decimal expansion.  CPython
    prints the shortest numeral that reads back as the same double, which
    is the same text for doubles such as 0.5 or 2.0. *)
Definition exact_repr (f : float) : string :=
  match Prim2SF f with
  | S754_zero s => if s then "-0.0" else "0.0"
  | S754_infinity s => if s then "-inf" else "inf"
  | S754_nan => "nan"
  | S754_finite s m e =>
      let sign := if s then "-" else "" in
      if 0 <=? e then sign +:+ pretty (Z.pos m * 2 ^ e) +:+ ".0"
      else
        let den := 2 ^ (- e) in
        let frac := fraction_digits (Z.to_nat (- e))
                      ((Z.pos m mod den) * 5 ^ (- e)) in
        sign +:+ pretty (Z.pos m / den) +:+ "."
        +:+ (if String.eqb frac "" then "0" else frac)
  end.

Definition hexdigit (n : Z) : ascii :=
  ascii_of_N (Z.to_N (if n <? 10 then 48 + n else 55 + n)).

Definition quote : ascii := ascii_of_nat 34.
Definition backslash : ascii := ascii_of_nat 92.

(** [create_escapes] of the JSON writer. *)
Fixpoint create_escapes (s : string) : string :=
  match s with
  | EmptyString => EmptyString
  | String b s' =>
      let c := Z.of_N (N_of_ascii b) in
      let escaped (e : ascii) := String backslash (String e EmptyString) in
      (if (c =? 32) || (c =? 33) || ((35 <=? c) && (c <=? 46))
          || ((48 <=? c) && (c <=? 91)) || ((93 <=? c) && (c <=? 255))
       then String b EmptyString
       else if c =? 8 then escaped "b"%char
       else if c =? 12 then escaped "f"%char
       else if c =? 10 then escaped "n"%char
       else if c =? 13 then escaped "r"%char
       else if c =? 9 then escaped "t"%char
       else if c =? 47 then escaped "/"%char
       else if c =? 34 then escaped quote
       else if c =? 92 then escaped backslash
       else
         String backslash
           (String "u"%char
              (String "0"%char
                 (String "0"%char
                    (String (hexdigit (c / 16))
                       (String (hexdigit (c mod 16)) EmptyString))))))
      +:+ create_escapes s'
  end.

Definition spaces (n : nat) : string :=
  string_of_list_ascii (replicate n " "%char).

Definition newline : string := String (ascii_of_nat 10) EmptyString.

Definition quoted (s : string) : string :=
  String quote (create_escapes s) +:+ String quote EmptyString.

(** [write_json_helper(stream, pt, indent, pretty)] as the text it
    appends to the stream. *)
Fixpoint write_json_at (pt : ptree) (indent : nat) (pretty : bool)
  : string :=
  match pt with
  | Node d cs _ =>
      let opt (s : string) := if pretty then s else EmptyString in
      let is_array :=
        Nat.eqb (Ptree.count EmptyString pt) (Ptree.size pt) in
      let members :=
        (fix each (cs : list (string * ptree)) : string :=
           match cs with
           | [] => EmptyString
           | (k, c) :: cs' =>
               opt (spaces (4 * (indent + 1)))
               +:+ (if negb (Nat.eqb indent 0) && is_array then EmptyString
                    else quoted k +:+ ":" +:+ opt " ")
               +:+ write_json_at c (S indent) pretty
               +:+ (match cs' with [] => EmptyString | _ => "," end)
               +:+ opt newline
               +:+ each cs'
           end) cs in
      if negb (Nat.eqb indent 0) && Ptree.empty pt then quoted d
      else if negb (Nat.eqb indent 0) && is_array then
        "[" +:+ opt newline +:+ members +:+ opt (spaces (4 * indent)) +:+ "]"
      else
        "{" +:+ opt newline +:+ members +:+ opt (spaces (4 * indent)) +:+ "}"
  end.

Definition platform : Platform := {|
  NDEBUG := true;
  get_value_bool := stream_bool;
  get_value_long := stream_long;
  get_value_double := stream_double;
  float_repr := exact_repr;
  write_json_helper := λ pt pretty, write_json_at pt 0 pretty
|}.

(** The same runtime built with assertions. *)
Definition platform_debug : Platform := {|
  NDEBUG := false;
  get_value_bool := stream_bool;
  get_value_long := stream_long;
  get_value_double := stream_double;
  float_repr := exact_repr;
  write_json_helper := λ pt pretty, write_json_at pt 0 pretty
|}.

End Reference.

(** Some trees to run the definitions on. *)
Definition leaf (value : string) : ptree := Node value [] [].

(** [{a: 1, b: 2, b: 3}] of the specification's example. *)
Definition tree_abb : ptree :=
  Node "" [("a", leaf "1"); ("b", leaf "2"); ("b", leaf "3")] [0; 1; 2]%nat.

(** A child named [a] holding ["x"], then a child named [x] holding ["y"]. *)
Definition tree_ax : ptree :=
  Node "" [("a", leaf "x"); ("x", leaf "y")] [0; 1]%nat.

(** ** The vocabulary of the statements *)

(** The child the documentation of [remove] and [index] speaks of: the
    first one, in storage order, whose value equals the argument. *)
Fixpoint find_value (value : string) (cs : list (string * ptree))
  : option nat :=
  match cs with
  | [] => None
  | (_, c) :: cs' =>
      if String.eqb (data c) value then Some 0%nat
      else S <$> find_value value cs'
  end.

(** The child [find] selects, in the words of the library: a child with
    the key before which no child with the key was linked. *)
Definition first_linked (key : string) (t : ptree) (i : nat) : Prop :=
  ∃ before after,
    Ptree.linked t = before ++ i :: after
    ∧ Ptree.has_key key t i
    ∧ Forall (λ j, ¬ Ptree.has_key key t j) before.


(** A fragment of a path: a string without the separator. *)
Definition is_fragment (k : string) : Prop :=
  existsb (Ascii.eqb separator) (list_ascii_of_string k) = false.


(** A decimal numeral, as the specification speaks of decimal text: an
    optional minus sign, then digits with at most one point among them and
    at least one digit. *)
Definition is_digit (c : ascii) : bool :=
  (48 <=? N_of_ascii c)%N && (N_of_ascii c <=? 57)%N.

Definition decimal_numeral (s : string) : bool :=
  let unsigned :=
    match s with
    | String c s' => if Ascii.eqb c "-"%char then s' else s
    | EmptyString => s
    end in
  let chars := list_ascii_of_string unsigned in
  forallb (λ c, is_digit c || Ascii.eqb c "."%char) chars
  && existsb is_digit chars
  && (length (filter (λ c, c = "."%char) chars) <=? 1)%nat.

(** The nodes [verify_json] objects to. *)
Definition value_and_children (n : ptree) : Prop :=
  data n ≠ "" ∧ children n ≠ [].

(** The paths [put_child] and [add_child] accept without tripping the
    assertion on an empty path. *)
Definition valid_path `{Platform} (path : string) : Prop :=
  PtreePath.path_assert (List.last (path_split path) "") = true.

(** A call that returns a reference to a child holding exactly the leaf
    [s]. *)
Definition stores_leaf (call : PyResult node_ref * ptree) (s : string) : Prop :=
  ∃ r self', call = (Return r, self') ∧ subtree_at r self' = Some (leaf s).

(** An item or attribute assignment that put the leaf [s] at [path]. *)
Definition puts_leaf `{Platform} (call : PyResult unit * ptree) (self : ptree)
    (path s : string) : Prop :=
  ∃ r self', call = (Return tt, self')
             ∧ PtreePath.put_child path (leaf s) self = Return (r, self')
             ∧ subtree_at r self' = Some (leaf s).

(** A key that, taken as a path, is a single fragment the library accepts:
    it holds no separator and passes the assertion on empty paths. *)
Definition plain_key `{Platform} (key : string) : bool :=
  negb (existsb (Ascii.eqb separator) (list_ascii_of_string key))
  && PtreePath.path_assert key.

(** Putting by key, as the specification words the merge: the value
    replaces that of an existing child with the key, the one [find] gives,
    and becomes a new last child when there is none. *)
Inductive puts_key (key : string) (value : ptree) (t : ptree)
  : ptree → Prop :=
  | puts_key_replace i c :
      children t !! i = Some (key, c) →
      first_linked key t i →
      puts_key key value t
        (Node (data t) (<[i := (key, value)]> (children t)) (by_name t))
  | puts_key_create :
      (∀ k c, (k, c) ∈ children t → k ≠ key) →
      puts_key key value t
        (Node (data t) (children t ++ [(key, value)])
           (Ptree.link (Ptree.size t) (by_name t))).

(** [a] with every child of the list, one after the other, put over it by
    key. *)
Inductive merges : list (string * ptree) → ptree → ptree → Prop :=
  | merges_nil a : merges [] a a
  | merges_cons k c cs a a' merged :
      puts_key k c a a' → merges cs a' merged →
      merges ((k, c) :: cs) a merged.

(** A tree as [==] between trees looks at it: the data and the children
    in storage order, each key with its subtree, all the way down; the
    index ordered by key is left out.  Two trees are structurally equal
    when this is the same for both. *)
Fixpoint sequenced (t : ptree) : ptree :=
  match t with
  | Node d cs _ =>
      Node d (map (λ kc, let '(k, c) := kc in (k, sequenced c)) cs) []
  end.

(** ** More trees and a heap to run the definitions on *)

(** A heap with one owned tree, and the object owning it. *)
Definition heap_abb : heap := {[ 0%nat := tree_abb ]}.
Definition object_abb : PyPropertyTree :=
  PyPropertyTree_New 0 [] PTREE_FLAG_NONE.

(** A second owned tree, with plain keys. *)
Definition tree_bc : ptree :=
  Node "" [("b", leaf "9"); ("c", leaf "4")] [0; 1]%nat.
Definition heap_abb_bc : heap := {[ 0%nat := tree_abb; 1%nat := tree_bc ]}.
Definition object_bc : PyPropertyTree :=
  PyPropertyTree_New 1 [] PTREE_FLAG_NONE.

(** Two trees whose only child has a key with a separator in it. *)
Definition tree_dotted_old : ptree := Node "" [("x.y", leaf "old")] [0%nat].
Definition tree_dotted_new : ptree := Node "" [("x.y", leaf "new")] [0%nat].

(** The complex number [1+2j], a number whose [str()] is ["(1+2j)"]. *)
Definition complex_1_2j : PyValue := PyNumber "(1+2j)".

(** A tree whose only child has a key passed as a [bytes] object that
    holds the one byte [0xff]. *)
Definition tree_latin1 : ptree :=
  Node "" [(String (ascii_of_nat 255) "", leaf "1")] [0%nat].

(** ** Sequence and mapping methods *)

(** [clear()], lines 272-277: the data and the children go. *)
Definition PyPropertyTree_clear (self : ptree) : PyResult unit * ptree :=
  (Return tt, Node "" [] []).

(** [empty()], lines 302-306. *)
Definition PyPropertyTree_empty (self : ptree) : PyResult bool * ptree :=
  (Return (Ptree.empty self), self).

(** [len(self)], lines 1366-1370. *)
Definition PyPropertyTree_mp_length (self : ptree) : Z :=
  Z.of_nat (Ptree.size self).



(** [values()], lines 908-920: one reference per child, in storage order. *)
Definition PyPropertyTree_values (self : ptree)
  : PyResult (list node_ref) * ptree :=
  (Return ((λ i, [i]) <$> seq 0 (Ptree.size self)), self).

(** What [pop] returns: a new tree object owning a copy of the child, or
    the default that was passed. *)
Inductive PyPopped : Type :=
  | PyTree_Owned (t : ptree)
  | PyPopped_default (o : PyValue).

(** [pop(key, default)], lines 588-623. *)
Definition PyPropertyTree_pop (self : ptree) (key : string)
    (py_default : option PyValue) : PyResult PyPopped * ptree :=
  match Ptree.find key self with
  | None =>
      match py_default with
      | None => (Raise PyExc_KeyError, self)
      | Some d => (Return (PyPopped_default d), self)
      end
  | Some iter =>
      match children self !! iter with
      | Some (_, second) =>
          (Return (PyTree_Owned (ptree_copy second)), Ptree.erase_at iter self)
      | None => (AssertionFailed, self) (* never: see [find_lookup] *)
      end
  end.

(** [popitem(index)], lines 630-662; [index] is the Python integer passed,
    if one was, which is parsed into an [int] that is preset with the last
    position.  The key comes back as a [str]; a key that is not UTF-8, for
    which building the result fails after the child was unlinked, is
    outside of the model. *)
Definition PyPropertyTree_popitem (self : ptree) (index : option Z)
  : PyResult (string * ptree) * ptree :=
  let size := Z.of_nat (Ptree.size self) in
  match PyArg_Parse_i index (int_cast (size - 1)) with
  | None => (Raise PyExc_OverflowError, self)
  | Some index =>
      let index := if index <? 0 then int_cast (index + size) else index in
      if (index <? 0) || (size <=? index) then (Raise PyExc_IndexError, self)
      else
        match children self !! Z.to_nat index with
        | Some (key, second) =>
            (Return (key, ptree_copy second),
             Ptree.erase_at (Z.to_nat index) self)
        | None => (AssertionFailed, self) (* never: the index is in range *)
        end
  end.

(** An element of the iterable handed to [extend]: a 2-tuple of a [str] and
    a value, which is what the format ["s#O"] accepts, a tuple of another
    shape, or something that is no tuple. *)
Inductive PyItem : Type :=
  | PyTuple_KeyValue (key : string) (value : PyValue)
  | PyTuple_other
  | PyItem_other.

(** The [while] loop of [PyPropertyTree_extend], lines 341-371, over the
    items the iterator yields. *)
Fixpoint extend_loop `{Platform} (items : list PyItem) (self : ptree)
  : PyResult unit * ptree :=
  match items with
  | [] => (Return tt, self)
  (* [PyArg_ParseTuple]: "argument is not a tuple" is a [SystemError] *)
  | PyItem_other :: _ => (Raise PyExc_SystemError, self)
  | PyTuple_other :: _ => (Raise PyExc_TypeError, self)
  | PyTuple_KeyValue key value :: items' =>
      match value_to_tree value with
      | Some tree => extend_loop items' (Ptree.push_back key tree self).2
      | None => (Raise PyExc_ValueError, self)
      end
  end.

(** [extend(iterator)], lines 331-375. *)
Definition PyPropertyTree_extend `{Platform} (self : ptree)
    (items : list PyItem) : PyResult unit * ptree :=
  extend_loop items self.

(** [reverse()], lines 747-752. *)
Definition PyPropertyTree_reverse (self : ptree) : PyResult unit * ptree :=
  (Return tt,
   Node (data self) (reverse (children self))
     (Ptree.mirror (Ptree.size self) (by_name self))).

(** [self[key]], lines 1372-1419.  The index is stored in an [int].  An
    index that does not fit a [Py_ssize_t], for which [PyLong_AsSsize_t]
    leaves [OverflowError] pending, is outside of the model. *)
Definition PyPropertyTree_mp_subscript (self : ptree) (key : PyValue)
  : PyResult node_ref * ptree :=
  match PyIndex_Check key with
  | Some index =>
      let size := Z.of_nat (Ptree.size self) in
      let index := int_cast index in
      let index := if index <? 0 then int_cast (index + size) else index in
      if (0 <=? index) && (index <? size) then
        (Return [Z.to_nat index], self)
      else (Raise PyExc_IndexError, self)
  | None =>
      match key with
      | PyUnicode path =>
          match PtreePath.get_child path self with
          | Some retval => (Return retval, self)
          | None => (Raise PyExc_KeyError, self)
          end
      | _ => (Raise PyExc_KeyError, self)
      end
  end.


(** The constructor [Tree(...)], lines 1584-1657, on the positional
    arguments and the keyword arguments; [kwargs] is [None] for the
    null pointer, and its keys are strings.  The result is the new
    [self->obj]. *)
Definition PyPropertyTree__tp_init `{Platform} (args : list PyValue)
    (kwargs : option (list (string * PyValue))) : PyResult ptree :=
  match kwargs, args with
  | Some kw, [] =>
      (* dict style keyword constructor *)
      match extend_loop (uncurry PyTuple_KeyValue <$> kw) (Node "" [] []) with
      | (Return _, obj) => Return obj
      | (Raise e, _) => Raise e
      | (AssertionFailed, _) => AssertionFailed
      end
  | Some _, _ => Raise PyExc_TypeError
  | None, [] => Return (Node "" [] [])
  | None, [value] =>
      match value with
      | PyTree t => Return (ptree_copy t)
      | _ =>
          match py_value_to_string value with
          | Some value_std => Return (Node value_std [] [])
          | None => Raise PyExc_TypeError
          end
      end
  | None, _ => Raise PyExc_TypeError
  end.

(** [bool(self)] and [float(self)], lines 1236-1276. *)
Definition PyPropertyTree__nb_bool `{Platform} (self : ptree) : PyResult bool :=
  match get_value_bool (data self) with
  | Some b => Return b
  | None => Raise PyPropertyTreeBadDataError
  end.

Definition PyPropertyTree__nb_float `{Platform} (self : ptree)
  : PyResult float :=
  match get_value_double (data self) with
  | Some x => Return x
  | None => Raise PyPropertyTreeBadDataError
  end.

(** ** Sorting

    [sort()] without an argument sorts the sequenced index with the
    library's [by_first] predicate, [lhs.first < rhs.first]; the sort of a
    sequenced index is stable. *)

(** One child put into a sorted sequence, after the children that are not
    greater. *)
Fixpoint sort_insert {A : Type} (x : string * A) (sorted : list (string * A))
  : list (string * A) :=
  match sorted with
  | [] => [x]
  | y :: ys =>
      if String.ltb x.1 y.1 then x :: y :: ys else y :: sort_insert x ys
  end.

(** The stable sort by key: every child, from the first to the last, is
    put after those of the children before it that are not greater. *)
Definition sort_by_key {A : Type} (cs : list (string * A))
  : list (string * A) :=
  fold_left (λ sorted x, sort_insert x sorted) cs [].

(** [sort()], lines 844-859, without a callable.  The index ordered by key
    keeps its order; its positions are those after the sort. *)
Definition PyPropertyTree_sort (self : ptree) : PyResult unit * ptree :=
  (Return tt,
   Node (data self) (sort_by_key (children self))
     (Ptree.renumber
        (sort_by_key (imap (λ i kc, (kc.1, i)) (children self))).*2
        (by_name self))).

(** ** Iterators *)

(** What a Python callable handed to [search] does with a key and a child:
    it returns something true or false, or raises.  The callable does not
    touch the tree. *)
Inductive PyCalled : Type :=
  | Py_Truthy
  | Py_Falsy
  | Py_Raised (e : PyExc).

(** [PyPropertyTree_Iter]: the position of [iterator] in the sequence of the
    container's children, and the callable or the null pointer. *)
Record PyPropertyTree_Iter : Type := {
  iterator : nat;
  callable : option (string → ptree → PyCalled)
}.

(** What [tp_iternext] gives: an item, [StopIteration], or the exception of
    the callable. *)
Inductive PyIterNext (A : Type) : Type :=
  | Py_Yield (a : A)
  | PyExc_StopIteration
  | Py_IterRaised (e : PyExc).
Arguments Py_Yield {A} a.
Arguments PyExc_StopIteration {A}.
Arguments Py_IterRaised {A} e.




(** [PyPropertyTree_AssocIter]: the positions, in the sequence of the
    container's children, of the elements of the ordered index from
    [iterator.first] up to [iterator.second]. *)
Record PyPropertyTree_AssocIter : Type := { assoc_range : list nat }.

(** The index ordered by key: the positions of the children in key order,
    children with one key in the order in which they were linked. *)
Definition ordered_index (pt : ptree) : list nat :=
  snd <$> sort_by_key
            ((λ i, (default "" (fst <$> children pt !! i), i))
               <$> Ptree.linked pt).

(** [equal_range(key)] *)
Definition equal_range (key : string) (pt : ptree) : list nat :=
  filter (Ptree.has_key key pt) (ordered_index pt).

(** [PyPropertyTree_AssocIter__tp_iternext], lines 1950-1968. *)
Definition PyPropertyTree_AssocIter__tp_iternext (container : ptree)
    (self : PyPropertyTree_AssocIter)
  : PyIterNext (string * node_ref) * PyPropertyTree_AssocIter :=
  match assoc_range self with
  | [] => (PyExc_StopIteration, self)
  | iter :: range =>
      match children container !! iter with
      | Some (key, _) => (Py_Yield (key, [iter]), {| assoc_range := range |})
      | None => (PyExc_StopIteration, self) (* never: a valid position *)
      end
  end.


(** The argument of [search]: a [str], a callable, or another object. *)
Inductive PySearchArg : Type :=
  | PySearch_key (key : string)
  | PySearch_callable (f : string → ptree → PyCalled)
  | PySearch_other.

(** [search(arg)], lines 759-796. *)
Definition PyPropertyTree_search (self : ptree) (arg : PySearchArg)
  : PyResult (PyPropertyTree_AssocIter + PyPropertyTree_Iter) :=
  match arg with
  | PySearch_key key => Return (inl {| assoc_range := equal_range key self |})
  | PySearch_callable f => Return (inr {| iterator := 0; callable := Some f |})
  | PySearch_other => Raise PyExc_TypeError
  end.

(** Running an iterator to its end, as [list(iterator)] does: the items it
    yielded, and [Some e] when the exception [e] ended the run.  [fuel]
    bounds the number of calls. *)
Fixpoint run_iterator {I A : Type} (next : I → PyIterNext A * I) (fuel : nat)
    (it : I) : option (list A * option PyExc) :=
  match fuel with
  | O => None
  | S fuel' =>
      match next it with
      | (Py_Yield a, it') =>
          '(items, e) ← run_iterator next fuel' it'; Some (a :: items, e)
      | (PyExc_StopIteration, _) => Some ([], None)
      | (Py_IterRaised e, _) => Some ([], Some e)
      end
  end.




(** ** Vocabulary for the sequence methods and the iterators *)

(** What [extend] makes of one item: the child to link, or the exception
    that ends the call. *)
Definition convert_item `{Platform} (item : PyItem)
  : PyExc + (string * ptree) :=
  match item with
  | PyItem_other => inl PyExc_SystemError
  | PyTuple_other => inl PyExc_TypeError
  | PyTuple_KeyValue key value =>
      match value_to_tree value with
      | Some tree => inr (key, tree)
      | None => inl PyExc_ValueError
      end
  end.

(** What Python does with the fifth element of a reduce value when it
    builds the object again (the unpickler, [copy]): every pair of a key
    and a value that the iterator yields is stored with
    [obj[key] = value]. *)
Fixpoint store_items `{Platform} (items : list (string * PyValue))
    (obj : ptree) : PyResult unit * ptree :=
  match items with
  | [] => (Return tt, obj)
  | (key, value) :: items' =>
      match PyPropertyTree_mp_ass_subscript obj (PyUnicode key) (Some value)
      with
      | (Return _, obj') => store_items items' obj'
      | failed => failed
      end
  end.




(** The order [sort()] leaves two neighbours in: [by_first] does not put
    the second before the first. *)
Definition by_first_le {A : Type} (x y : string * A) : Prop :=
  String.ltb y.1 x.1 = false.

(** * Properties *)

(** ** Trees *)

(** Induction over the nested occurrence of [ptree] in the child list. *)
Lemma ptree_nested_ind (P : ptree → Prop) :
  (∀ d cs bn, Forall (λ kc, P kc.2) cs → P (Node d cs bn)) → ∀ t, P t.
Proof.
  intros step. fix IH 1. intros [d cs bn]. apply step.
  induction cs as [|[k c] cs IHcs]; constructor; [apply IH | exact IHcs].
Qed.

Lemma filter_Forall_id {A : Type} (P : A → Prop) `{∀ x, Decision (P x)}
    (l : list A) :
  Forall P l → filter P l = l.
Proof.
  induction 1 as [|x l Hx _ IH]; [done|].
  by rewrite filter_cons, decide_True, IH.
Qed.

Lemma filter_nil_Forall_not {A : Type} (P : A → Prop) `{∀ x, Decision (P x)}
    (l : list A) :
  Forall (λ x, ¬ P x) l → filter P l = [].
Proof.
  induction 1 as [|x l Hx _ IH]; [done|].
  by rewrite filter_cons, decide_False, IH.
Qed.

(** ** Scanning the children for a key *)

(** ** C integers *)

Lemma int_cast_fits (z : Z) : INT_MIN ≤ z ≤ INT_MAX → int_cast z = z.
Proof.
  unfold INT_MIN, INT_MAX, int_cast. intros Hfits.
  rewrite Z.mod_small; lia.
Qed.

Lemma int_cast_small (z : Z) : - 2 ^ 31 ≤ z < 2 ^ 31 → int_cast z = z.
Proof. intros Hz. unfold int_cast. rewrite Z.mod_small; lia. Qed.

Lemma int_cast_range (z : Z) : INT_MIN ≤ int_cast z ≤ INT_MAX.
Proof.
  unfold INT_MIN, INT_MAX, int_cast.
  pose proof (Z.mod_pos_bound (z + 2 ^ 31) (2 ^ 32)). lia.
Qed.

Lemma PyArg_Parse_i_fits (z preset : Z) :
  INT_MIN ≤ z ≤ INT_MAX → PyArg_Parse_i (Some z) preset = Some z.
Proof.
  intros Hfits. unfold PyArg_Parse_i.
  destruct (Z.leb_spec INT_MIN z), (Z.leb_spec z INT_MAX); simpl;
    done || lia.
Qed.

Lemma PyArg_Parse_i_overflow (z preset : Z) :
  ¬ (INT_MIN ≤ z ≤ INT_MAX) → PyArg_Parse_i (Some z) preset = None.
Proof.
  intros Hfits. unfold PyArg_Parse_i.
  destruct (Z.leb_spec INT_MIN z), (Z.leb_spec z INT_MAX); simpl;
    done || lia.
Qed.

Section find.
Implicit Types (key k : string) (cs : list (string * ptree)) (i j : nat).

Lemma first_in_Some key cs i :
  first_in key cs = Some i ↔
    (∃ c, cs !! i = Some (key, c)) ∧
    ∀ j k c, (j < i)%nat → cs !! j = Some (k, c) → k ≠ key.
Proof.
  revert i. induction cs as [|[k0 c0] cs IH]; intros i; simpl.
  { split; [done | by intros [[c ?] _]]. }
  destruct (String.eqb_spec k0 key) as [->|Hne].
  - split.
    + intros [= <-]. split; [by exists c0 | intros; lia].
    + intros [[c Hc] Hfirst]. destruct i as [|i]; [done|].
      by destruct (Hfirst 0%nat key c0); [lia | |].
  - destruct i as [|i].
    { split; [by destruct (first_in key cs)|].
      by intros [[c [= ? ?]] _]. }
    transitivity (first_in key cs = Some i).
    { destruct (first_in key cs); simpl; [|done].
      split; intros [= ->]; done. }
    rewrite IH. simpl. split; intros [Hc Hfirst]; (split; [done|]).
    + intros [|j] k c' Hj Hl; simplify_eq/=; [done|].
      eapply Hfirst; [|done]. lia.
    + intros j k c' Hj Hl. apply (Hfirst (S j) k c'); [lia | done].
Qed.

Lemma first_in_None key cs :
  first_in key cs = None ↔ ∀ k c, (k, c) ∈ cs → k ≠ key.
Proof.
  induction cs as [|[k0 c0] cs IH]; simpl.
  { split; [by intros _ ?? ?%elem_of_nil | done]. }
  destruct (String.eqb_spec k0 key) as [->|Hne].
  - split; [done|]. intros Hall. destruct (Hall key c0); [left | done].
  - destruct (first_in key cs) as [i|]; simpl.
    + split; [done|]. intros Hall.
      assert (Some i = None) as [=].
      apply IH. intros k c Hin. apply (Hall k c). by right.
    + split; [|done]. intros _ k c [[= -> ->]|Hin]%elem_of_cons; [done|].
      by eapply IH.
Qed.


Lemma remove_scan_find key cs i :
  remove_scan key cs i = (λ j, (i + j)%nat) <$> first_in key cs.
Proof.
  revert i. induction cs as [|[k0 c0] cs IH]; intros i; simpl; [done|].
  destruct (String.eqb k0 key); simpl; [f_equal; lia|].
  rewrite IH. destruct (first_in key cs); simpl; [f_equal; lia | done].
Qed.

Lemma count_in_filter key cs :
  Ptree.count_in key cs = length (filter (λ kc, kc.1 = key) cs).
Proof.
  induction cs as [|[k0 c0] cs IH]; simpl; [done|].
  rewrite filter_cons. simpl.
  destruct (String.eqb_spec k0 key); case_decide; simpl; congruence.
Qed.

Lemma erase_in_spec key cs :
  Ptree.erase_in key cs =
    (Ptree.count_in key cs, filter (λ kc, kc.1 ≠ key) cs).
Proof.
  induction cs as [|[k0 c0] cs IH]; simpl; [done|].
  rewrite IH, filter_cons. simpl.
  destruct (String.eqb_spec k0 key); case_decide; simpl; congruence.
Qed.

Lemma count_in_erased key cs :
  Ptree.count_in key (filter (λ kc, kc.1 ≠ key) cs) = 0%nat.
Proof.
  induction cs as [|[k0 c0] cs IH]; simpl; [done|].
  rewrite filter_cons. simpl. case_decide; simpl; [|done].
  by destruct (String.eqb_spec k0 key).
Qed.

End find.

(** ** The child [find] returns *)

Section linked.
Implicit Types (key k : string) (pt : ptree) (i j : nat).

Lemma linked_elem_of pt i : i ∈ Ptree.linked pt ↔ (i < Ptree.size pt)%nat.
Proof.
  unfold Ptree.linked. rewrite elem_of_app, !list_elem_of_filter.
  rewrite elem_of_seq. split; [intros [[? _]|[_ ?]]; lia|]. intros Hi.
  destruct (decide ((i < Ptree.size pt)%nat ∧ i ∈ remove_dups (by_name pt)))
    as [Hin|Hout]; [by left|].
  right. split; [done | lia].
Qed.

Lemma linked_NoDup pt : NoDup (Ptree.linked pt).
Proof.
  unfold Ptree.linked. apply NoDup_app. split_and!.
  - apply NoDup_filter, NoDup_remove_dups.
  - intros i Hi [Hout _]%list_elem_of_filter. done.
  - apply NoDup_filter, NoDup_seq.
Qed.

Lemma linked_seq pt : Ptree.linked pt ≡ₚ seq 0 (Ptree.size pt).
Proof.
  apply NoDup_Permutation; [apply linked_NoDup | apply NoDup_seq|].
  intros i. rewrite linked_elem_of, elem_of_seq. lia.
Qed.

Lemma has_key_lookup key pt i :
  Ptree.has_key key pt i ↔ ∃ c, children pt !! i = Some (key, c).
Proof.
  unfold Ptree.has_key. destruct (children pt !! i) as [[k c]|]; simpl.
  - split; [intros [= ->]; by exists c | by intros [c' [= -> _]]].
  - split; [done | by intros [c ?]].
Qed.

Lemma has_key_keys key pt pt' i :
  (children pt).*1 = (children pt').*1 →
  Ptree.has_key key pt i ↔ Ptree.has_key key pt' i.
Proof.
  intros Hkeys. unfold Ptree.has_key.
  by rewrite <-!list_lookup_fmap, Hkeys.
Qed.

(** [find] sees the keys, in storage order, and the order of linking, and
    nothing else of the children. *)
Lemma find_keys key pt pt' :
  (children pt).*1 = (children pt').*1 → by_name pt = by_name pt' →
  Ptree.find key pt = Ptree.find key pt'.
Proof.
  intros Hkeys Hby_name. unfold Ptree.find.
  assert (Ptree.linked pt = Ptree.linked pt') as ->.
  { unfold Ptree.linked, Ptree.size. rewrite Hby_name.
    by rewrite <-(length_fmap fst (children pt)), Hkeys, length_fmap. }
  f_equal. apply list_filter_iff. intros i. by apply has_key_keys.
Qed.

Lemma find_first_linked key pt i :
  Ptree.find key pt = Some i ↔ first_linked key pt i.
Proof.
  unfold Ptree.find, first_linked. split.
  - intros Hhead.
    destruct (head_filter_Some _ _ _ Hhead) as (before & after & Hl & Hb).
    exists before, after. split_and!; [done | | done].
    apply head_Some_elem_of, list_elem_of_filter in Hhead. by destruct Hhead.
  - intros (before & after & -> & Hi & Hbefore).
    rewrite filter_app, filter_cons, decide_True by done.
    rewrite (filter_nil_Forall_not _ before) by done. done.
Qed.

Lemma find_lookup key pt i :
  Ptree.find key pt = Some i → ∃ c, children pt !! i = Some (key, c).
Proof.
  intros (_ & _ & _ & Hi & _)%find_first_linked. by apply has_key_lookup.
Qed.

Lemma find_None key pt :
  Ptree.find key pt = None ↔ ∀ k c, (k, c) ∈ children pt → k ≠ key.
Proof.
  unfold Ptree.find. rewrite head_None. split.
  - intros Hnil k c Hkc ->.
    apply list_elem_of_lookup in Hkc as [i Hi].
    apply (filter_nil_not_elem_of _ _ i Hnil).
    + apply has_key_lookup. by exists c.
    + apply linked_elem_of. by eapply lookup_lt_Some.
  - intros Hne. apply filter_nil_Forall_not, Forall_forall.
    intros i _ [c Hc]%has_key_lookup.
    apply (Hne key c); [|done]. by eapply list_elem_of_lookup_2.
Qed.

Lemma find_found key pt :
  is_found (Ptree.find key pt) = true ↔ ∃ c, (key, c) ∈ children pt.
Proof.
  destruct (Ptree.find key pt) as [i|] eqn:Hf; simpl.
  - split; [intros _ | done].
    apply find_lookup in Hf as [c Hc]. exists c.
    by eapply list_elem_of_lookup_2.
  - split; [done|]. intros [c Hin]. exfalso.
    rewrite find_None in Hf. by eapply Hf.
Qed.

Lemma find_None_first_in key pt :
  Ptree.find key pt = None ↔ first_in key (children pt) = None.
Proof. by rewrite find_None, first_in_None. Qed.

Lemma find_single key pt i :
  (∀ j, Ptree.has_key key pt j → j = i) →
  Ptree.has_key key pt i →
  Ptree.find key pt = Some i.
Proof.
  intros Hsingle Hi.
  destruct (Ptree.find key pt) as [j|] eqn:Hfind.
  - f_equal. apply Hsingle. apply has_key_lookup. by eapply find_lookup.
  - rewrite find_None in Hfind. apply has_key_lookup in Hi as [c Hc].
    destruct (Hfind key c); [|done]. by eapply list_elem_of_lookup_2.
Qed.

(** A child linked under a key that no child has is what [find] returns
    for the key from then on. *)
Lemma find_push_back key child pt :
  Ptree.find key pt = None →
  Ptree.find key (Ptree.push_back key child pt).2 = Some (Ptree.size pt).
Proof.
  intros Hnone. rewrite find_None in Hnone. apply find_single.
  - intros j [c Hc]%has_key_lookup. simpl in Hc.
    apply lookup_app_Some in Hc as [Hc|[Hj Hc]].
    + destruct (Hnone key c); [|done]. by eapply list_elem_of_lookup_2.
    + unfold Ptree.size. apply list_lookup_singleton_Some in Hc. lia.
  - apply has_key_lookup. exists child. simpl.
    by apply list_lookup_middle.
Qed.

(** *** The index by key under the operations on the children *)

Lemma linked_well_linked pt : Ptree.well_linked pt → Ptree.linked pt = by_name pt.
Proof.
  unfold Ptree.well_linked, Ptree.linked. intros Hperm.
  assert (NoDup (by_name pt)) as Hnodup
    by (rewrite Hperm; apply NoDup_seq).
  assert (∀ i, i ∈ by_name pt ↔ (i < Ptree.size pt)%nat) as Hin.
  { intros i. rewrite Hperm, elem_of_seq. lia. }
  assert (remove_dups (by_name pt) = by_name pt) as ->.
  { clear Hin Hperm. induction Hnodup as [|p l Hp _ IH]; [done|].
    simpl. case_decide; [done|]. by rewrite IH. }
  assert (filter (λ i, (i < Ptree.size pt)%nat) (by_name pt) = by_name pt)
    as ->.
  { apply filter_Forall_id, Forall_forall. intros i Hi. by apply Hin. }
  rewrite (filter_nil_Forall_not (λ i, i ∉ by_name pt)), app_nil_r; [done|].
  apply Forall_forall. intros i [_ Hi]%elem_of_seq Hnot.
  apply Hnot, Hin. lia.
Qed.

Lemma link_well_linked (i n : nat) (by_name : list nat) :
  (i ≤ n)%nat → by_name ≡ₚ seq 0 n → Ptree.link i by_name ≡ₚ seq 0 (S n).
Proof.
  intros Hi Hperm.
  assert (NoDup by_name) as Hnodup by (rewrite Hperm; apply NoDup_seq).
  assert (∀ p, p ∈ by_name ↔ (p < n)%nat) as Hin.
  { intros p. rewrite Hperm, elem_of_seq. lia. }
  unfold Ptree.link. apply NoDup_Permutation.
  - apply NoDup_app. split_and!.
    + apply NoDup_fmap_2_strong; [|done]. intros p q _ _ Hpq.
      destruct (Nat.ltb_spec p i), (Nat.ltb_spec q i); lia.
    + intros x (p & -> & _)%list_elem_of_fmap Hx%list_elem_of_singleton.
      destruct (Nat.ltb_spec p i); lia.
    + apply NoDup_singleton.
  - apply NoDup_seq.
  - intros x. rewrite elem_of_app, list_elem_of_fmap, list_elem_of_singleton.
    rewrite elem_of_seq. setoid_rewrite Hin. split.
    + intros [(p & -> & Hp)| ->]; [destruct (Nat.ltb_spec p i)|]; lia.
    + intros [_ Hx]. destruct (decide (x = i)) as [|Hxi]; [by right|left].
      destruct (decide (x < i)%nat).
      * exists x. split; [|lia]. by apply Nat.ltb_lt in l as ->.
      * exists (pred x). split; [|lia].
        destruct (Nat.ltb_spec (pred x) i); lia.
Qed.

Lemma unlink_well_linked (i n : nat) (by_name : list nat) :
  (i ≤ n)%nat → by_name ≡ₚ seq 0 (S n) → Ptree.unlink i by_name ≡ₚ seq 0 n.
Proof.
  intros Hi Hperm.
  assert (NoDup by_name) as Hnodup by (rewrite Hperm; apply NoDup_seq).
  assert (∀ p, p ∈ by_name ↔ (p < S n)%nat) as Hin.
  { intros p. rewrite Hperm, elem_of_seq. lia. }
  unfold Ptree.unlink. apply NoDup_Permutation.
  - apply NoDup_fmap_2_strong; [|by apply NoDup_filter].
    intros p q [Hp _]%list_elem_of_filter [Hq _]%list_elem_of_filter Hpq.
    destruct (Nat.ltb_spec p i), (Nat.ltb_spec q i); lia.
  - apply NoDup_seq.
  - intros x. rewrite list_elem_of_fmap, elem_of_seq.
    setoid_rewrite list_elem_of_filter. setoid_rewrite Hin. split.
    + intros (p & -> & Hp & Hlt). destruct (Nat.ltb_spec p i); lia.
    + intros [_ Hx]. destruct (decide (x < i)%nat).
      * exists x. split; [|lia]. by apply Nat.ltb_lt in l as ->.
      * exists (S x). split; [|lia]. destruct (Nat.ltb_spec (S x) i); lia.
Qed.

Lemma mirror_well_linked (n : nat) (by_name : list nat) :
  by_name ≡ₚ seq 0 n → Ptree.mirror n by_name ≡ₚ seq 0 n.
Proof.
  intros Hperm.
  assert (NoDup by_name) as Hnodup by (rewrite Hperm; apply NoDup_seq).
  assert (∀ p, p ∈ by_name ↔ (p < n)%nat) as Hin.
  { intros p. rewrite Hperm, elem_of_seq. lia. }
  unfold Ptree.mirror. apply NoDup_Permutation.
  - apply NoDup_fmap_2_strong; [|done].
    intros p q Hp%Hin Hq%Hin Hpq.
    apply Nat.ltb_lt in Hp as Hp', Hq as Hq'. rewrite Hp', Hq' in Hpq. lia.
  - apply NoDup_seq.
  - intros x. rewrite list_elem_of_fmap, elem_of_seq.
    setoid_rewrite Hin. split.
    + intros (p & -> & Hp). destruct (Nat.ltb_spec p n); lia.
    + intros [_ Hx]. exists (n - 1 - x)%nat. split; [|lia].
      assert ((n - 1 - x <? n)%nat = true) as -> by (apply Nat.ltb_lt; lia).
      lia.
Qed.

(** The operations of the container on a [well_linked] node leave a
    [well_linked] node. *)
Lemma push_back_well_linked key child pt :
  Ptree.well_linked pt → Ptree.well_linked (Ptree.push_back key child pt).2.
Proof.
  unfold Ptree.well_linked, Ptree.size. simpl. intros Hperm.
  rewrite length_app, Nat.add_1_r. by apply link_well_linked.
Qed.

Lemma insert_before_well_linked (i : nat) key child pt :
  (i ≤ Ptree.size pt)%nat →
  Ptree.well_linked pt → Ptree.well_linked (insert_before i key child pt).
Proof.
  unfold Ptree.well_linked, Ptree.size. simpl. intros Hi Hperm.
  rewrite length_app, length_take. simpl. rewrite length_drop.
  replace (i `min` length (children pt) + S (length (children pt) - i))%nat
    with (S (length (children pt))) by lia.
  by apply link_well_linked.
Qed.

Lemma erase_at_well_linked (i : nat) pt :
  (i < Ptree.size pt)%nat →
  Ptree.well_linked pt → Ptree.well_linked (Ptree.erase_at i pt).
Proof.
  unfold Ptree.well_linked, Ptree.size. simpl. intros Hi Hperm.
  rewrite length_delete by (by apply lookup_lt_is_Some_2).
  apply unlink_well_linked; [lia|].
  by replace (S (length (children pt) - 1)) with (length (children pt))
    by lia.
Qed.

Lemma reverse_well_linked pt :
  Ptree.well_linked pt → Ptree.well_linked (PyPropertyTree_reverse pt).2.
Proof.
  unfold Ptree.well_linked, Ptree.size. simpl. intros Hperm.
  rewrite length_reverse. by apply mirror_well_linked.
Qed.

Lemma head_filter_fmap {A B : Type} (f : A → B) (P : A → Prop)
    (Q : B → Prop) `{∀ x, Decision (P x)} `{∀ y, Decision (Q y)}
    (l : list A) :
  (∀ x, x ∈ l → Q (f x) ↔ P x) →
  head (filter Q (f <$> l)) = f <$> head (filter P l).
Proof.
  induction l as [|x l IH]; intros HPQ; [done|].
  rewrite fmap_cons, !filter_cons.
  destruct (decide (P x)) as [HP|HP].
  - rewrite decide_True; [done|]. apply HPQ; [by left | done].
  - rewrite decide_False by (rewrite HPQ; [done | by left]).
    apply IH. intros y Hy. apply HPQ. by right.
Qed.

(** [reverse()] turns the storage order round and leaves the index by key
    alone: [find] gives the child it gave before, at its new position. *)
Lemma find_reverse key pt :
  Ptree.well_linked pt →
  Ptree.find key (PyPropertyTree_reverse pt).2
  = (λ i, (Ptree.size pt - 1 - i)%nat) <$> Ptree.find key pt.
Proof.
  intros Hwell. pose proof (reverse_well_linked pt Hwell) as Hwell'.
  unfold Ptree.find.
  rewrite (linked_well_linked _ Hwell), (linked_well_linked _ Hwell').
  cbn [PyPropertyTree_reverse snd by_name].
  assert (∀ p, p ∈ by_name pt → (p < Ptree.size pt)%nat) as Hin.
  { intros p. unfold Ptree.well_linked in Hwell.
    rewrite Hwell, elem_of_seq. lia. }
  rewrite <-(head_filter_fmap _ (Ptree.has_key key pt)
              (Ptree.has_key key (PyPropertyTree_reverse pt).2)).
  - unfold Ptree.mirror. f_equal. f_equal. apply list_fmap_ext.
    intros _ p Hp%list_elem_of_lookup_2%Hin.
    by apply Nat.ltb_lt in Hp as ->.
  - intros p Hp%Hin. unfold Ptree.has_key, Ptree.size in *.
    cbn [PyPropertyTree_reverse snd children].
    rewrite reverse_lookup by lia.
    by replace (length (children pt) - S (length (children pt) - 1 - p))%nat
      with p by lia.
Qed.

(** [insert] before a position leaves the index by key alone, too: for a
    key that a child has, [find] gives the child it gave before, whatever
    the key of the new child is and wherever it was put. *)
Lemma find_insert_before key (i j : nat) key' child pt :
  Ptree.well_linked pt → (i ≤ Ptree.size pt)%nat →
  Ptree.find key pt = Some j →
  Ptree.find key (insert_before i key' child pt)
  = Some (if (j <? i)%nat then j else S j).
Proof.
  intros Hwell Hi Hfind.
  pose proof (insert_before_well_linked i key' child pt Hi Hwell) as Hwell'.
  unfold Ptree.find in *.
  rewrite (linked_well_linked _ Hwell) in Hfind.
  rewrite (linked_well_linked _ Hwell').
  cbn [insert_before by_name]. unfold Ptree.link.
  assert (∀ p, p ∈ by_name pt → (p < Ptree.size pt)%nat) as Hin.
  { intros p. unfold Ptree.well_linked in Hwell.
    rewrite Hwell, elem_of_seq. lia. }
  rewrite filter_app.
  assert (head (filter (Ptree.has_key key (insert_before i key' child pt))
                  ((λ p, if (p <? i)%nat then p else S p) <$> by_name pt))
          = Some (if (j <? i)%nat then j else S j)) as Hhead.
  { rewrite (head_filter_fmap _ (Ptree.has_key key pt)
               (Ptree.has_key key (insert_before i key' child pt))), Hfind;
      [done|].
    intros p Hp%Hin. unfold Ptree.has_key, Ptree.size in *.
    cbn [insert_before children].
    destruct (Nat.ltb_spec p i).
    - rewrite lookup_app_l by (rewrite length_take; lia).
      by rewrite lookup_take_lt.
    - rewrite lookup_app_r by (rewrite length_take; lia).
      rewrite length_take.
      replace (S p - i `min` length (children pt))%nat with (S (p - i))
        by lia.
      rewrite lookup_cons_ne_0 by lia. cbn [pred]. rewrite lookup_drop.
      by replace (i + (p - i))%nat with p by lia. }
  destruct (filter _ (_ <$> by_name pt)); [done|]. done.
Qed.

End linked.

(** ** remove, index, count and erase *)

(** What [remove(key)] does: it unlinks the first child whose KEY is [key]
    and raises [ValueError], changing nothing, when no child has that key. *)
Theorem PyPropertyTree_remove_by_key (self : ptree) (key : string) :
  match first_in key (children self) with
  | Some i =>
      PyPropertyTree_remove self key
        = (Return tt,
           Node (data self) (delete i (children self))
             (Ptree.unlink i (by_name self)))
      ∧ (∃ c, children self !! i = Some (key, c))
      ∧ ∀ j k c, (j < i)%nat → children self !! j = Some (k, c) → k ≠ key
  | None =>
      PyPropertyTree_remove self key = (Raise PyExc_ValueError, self)
      ∧ ∀ k c, (k, c) ∈ children self → k ≠ key
  end.
Proof.
  unfold PyPropertyTree_remove. rewrite remove_scan_find.
  destruct (first_in key (children self)) as [i|] eqn:Hf; simpl.
  - apply first_in_Some in Hf as [? ?]. done.
  - split; [done|]. by apply first_in_None.
Qed.

(** C1, on the tree [{a: "x", x: "y"}]: the first child whose value equals
    ["x"] is the one at position 0, but [remove("x")] unlinks the child at
    position 1, whose key is ["x"] and whose value is ["y"]; once only the
    child with the value ["x"] is left, [remove("x")] raises [ValueError]
    although that child is there. *)
Theorem PyPropertyTree_remove_ignores_values :
  find_value "x" (children tree_ax) = Some 0%nat
  ∧ PyPropertyTree_remove tree_ax "x" = (Return tt, Ptree.erase_at 1 tree_ax)
  ∧ (PyPropertyTree_remove tree_ax "x").2 ≠ Ptree.erase_at 0 tree_ax
  ∧ find_value "x" [("a", leaf "x")] = Some 0%nat
  ∧ PyPropertyTree_remove (Node "" [("a", leaf "x")] [0%nat]) "x"
    = (Raise PyExc_ValueError, Node "" [("a", leaf "x")] [0%nat]).
Proof. split_and!; (reflexivity || discriminate). Qed.

Section index.
Implicit Types (key k : string) (cs : list (string * ptree)).

Lemma index_skip_spec cs (index start : Z) :
  index_skip cs index start =
    if decide (start ≤ index) then Some (cs, index)
    else if decide (start - index ≤ Z.of_nat (length cs))
    then Some (drop (Z.to_nat (start - index)) cs, start)
    else None.
Proof.
  revert index. induction cs as [|kc cs IH]; intros index; simpl.
  - destruct (Z.ltb_spec index start); repeat case_decide; try done; lia.
  - destruct (Z.ltb_spec index start); [|by case_decide; [|lia]].
    rewrite IH. repeat case_decide; try lia.
    + replace (Z.to_nat (start - index)) with 1%nat by lia.
      simpl. rewrite drop_0. do 2 f_equal. lia.
    + replace (Z.to_nat (start - index))
        with (S (Z.to_nat (start - (index + 1)))) by lia. done.
    + done.
Qed.

Lemma index_scan_Some key cs (index end_ i : Z) :
  index_scan key cs index end_ = Some i ↔
    index ≤ i < end_ ∧
    first_in key cs = Some (Z.to_nat (i - index)).
Proof.
  revert index. induction cs as [|[k0 c0] cs IH]; intros index; simpl.
  { destruct (index <? end_); (split; [done | by intros [_ ?]]). }
  destruct (Z.ltb_spec index end_) as [Hlt|Hge].
  - destruct (String.eqb_spec k0 key) as [->|Hne].
    + split.
      * intros [= ->]. split; [lia|]. by rewrite Z.sub_diag.
      * intros [Hi [= Hz]]. f_equal. lia.
    + rewrite IH. destruct (first_in key cs) as [j|]; simpl.
      * split.
        -- intros [Hi [= ->]]. split; [lia|]. f_equal. lia.
        -- intros [Hi [= Hj]]. split; [lia|]. f_equal. lia.
      * split; by intros [_ ?].
  - split; [done|]. intros [Hi _]. lia.
Qed.

Lemma first_in_drop key cs (n i : nat) :
  first_in key (drop n cs) = Some i ↔
    (∃ c, cs !! (n + i)%nat = Some (key, c)) ∧
    ∀ j k c, (n ≤ j < n + i)%nat → cs !! j = Some (k, c) → k ≠ key.
Proof.
  rewrite first_in_Some. setoid_rewrite lookup_drop. split.
  - intros [Hc Hfirst]. split; [done|]. intros j k c Hj Hl.
    apply (Hfirst (j - n)%nat k c); [lia|].
    by replace (n + (j - n))%nat with j by lia.
  - intros [Hc Hfirst]. split; [done|]. intros j k c Hj Hl.
    apply (Hfirst (n + j)%nat k c); [lia | done].
Qed.

End index.

Lemma index_loops (self : ptree) (key : string) (start end_ : Z) :
  let lo := Z.max 0 start in
  let loops :=
    match index_skip (children self) 0 start with
    | None => (Raise PyExc_ValueError, self)
    | Some (cs, index) =>
        match index_scan key cs index end_ with
        | Some i => (Return i, self)
        | None => (Raise PyExc_ValueError, self)
        end
    end in
  loops.2 = self ∧
  (∀ i : Z,
     loops.1 = Return i ↔
       lo ≤ i < end_ ∧
       (∃ c, children self !! Z.to_nat i = Some (key, c)) ∧
       ∀ (j : nat) k c, lo ≤ Z.of_nat j < i →
         children self !! j = Some (k, c) → k ≠ key) ∧
  (loops.1 = Raise PyExc_ValueError ∨ ∃ i, loops.1 = Return i).
Proof.
  intros lo loops. unfold loops. clear loops.
  set (s := start) in *. set (hi := end_) in *. rewrite index_skip_spec.
  split_and!.
  - repeat case_decide; simpl; try done;
      by destruct (index_scan _ _ _ _).
  - intros i. case_decide as Hs.
    + (* start <= 0: the scan begins at the first child *)
      assert (lo = 0) as Hlo by lia.
      destruct (index_scan key (children self) 0 hi) as [i'|] eqn:Hscan; simpl.
      * apply index_scan_Some in Hscan as [Hi Hf].
        rewrite Z.sub_0_r in Hf. apply first_in_Some in Hf as [Hc Hfirst].
        split.
        -- intros [= <-]. split; [lia|]. split; [done|].
           intros j k c Hj. apply Hfirst. lia.
        -- intros (Hi' & [c Hc'] & Hfirst'). f_equal.
           destruct Hc as [c0 Hc].
           destruct (Z.lt_trichotomy i i') as [Hlt|[->|Hgt]]; [|done|].
           ++ exfalso. apply (Hfirst (Z.to_nat i) key c); [lia | done | done].
           ++ exfalso. apply (Hfirst' (Z.to_nat i') key c0);
                [lia | done | done].
      * split; [done|]. intros (Hi & [c Hc] & Hfirst). exfalso.
        assert (index_scan key (children self) 0 hi = Some i) as Heq;
          [|congruence].
        apply index_scan_Some. split; [lia|]. rewrite Z.sub_0_r.
        apply first_in_Some. split; [by exists c|].
        intros j k c' Hj. apply Hfirst. lia.
    + assert (lo = s) as Hlo by lia. case_decide as Hlen; simpl.
      * replace (s - 0) with s in * by lia.
        destruct (index_scan key (drop (Z.to_nat s) (children self)) s hi)
          as [i'|] eqn:Hscan; simpl.
        -- apply index_scan_Some in Hscan as [Hi Hf].
           apply first_in_drop in Hf as [Hc Hfirst].
           replace (Z.to_nat s + Z.to_nat (i' - s))%nat
             with (Z.to_nat i') in * by lia.
           split.
           ++ intros [= <-]. split; [lia|]. split; [done|].
              intros j k c Hj. apply Hfirst. lia.
           ++ intros (Hi' & [c Hc'] & Hfirst'). f_equal.
              destruct Hc as [c0 Hc].
              destruct (Z.lt_trichotomy i i') as [Hlt|[->|Hgt]]; [|done|].
              ** exfalso.
                 apply (Hfirst (Z.to_nat i) key c); [lia | done | done].
              ** exfalso. apply (Hfirst' (Z.to_nat i') key c0);
                   [lia | done | done].
        -- split; [done|]. intros (Hi & [c Hc] & Hfirst). exfalso.
           assert (index_scan key (drop (Z.to_nat s) (children self)) s hi
                   = Some i) as Heq; [|congruence].
           apply index_scan_Some. split; [lia|].
           apply first_in_drop.
           replace (Z.to_nat s + Z.to_nat (i - s))%nat
             with (Z.to_nat i) by lia.
           split; [by exists c|].
           intros j k c' Hj. apply Hfirst. lia.
      * split; [done|]. intros (Hi & [c Hc] & _). exfalso.
        apply lookup_lt_Some in Hc. lia.
  - repeat case_decide; simpl; try (by left);
      destruct (index_scan _ _ _ _); simpl; eauto.
Qed.


(** What [index(key, start, end)] does.  [start] and [end] are parsed into
    [int]s, and the call raises [OverflowError] exactly when one of them is
    passed and does not fit.  Otherwise it returns the least position [i]
    with [start <= i < end] whose child has the KEY [key], and raises
    [ValueError] when there is none; [end], when it is not passed, is the
    number of children as an [int].  The tree stays as it is. *)
Theorem PyPropertyTree_index_by_key (self : ptree) (key : string)
    (start end_ : option Z) :
  let fits (arg : option Z) := ∀ z, arg = Some z → INT_MIN ≤ z ≤ INT_MAX in
  let lo := Z.max 0 (default 0 start) in
  let hi := default (int_cast (Z.of_nat (Ptree.size self))) end_ in
  (PyPropertyTree_index self key start end_).2 = self
  ∧ ((PyPropertyTree_index self key start end_).1 = Raise PyExc_OverflowError
     ↔ ¬ (fits start ∧ fits end_))
  ∧ (fits start ∧ fits end_ →
     (∀ i : Z,
        (PyPropertyTree_index self key start end_).1 = Return i ↔
          lo ≤ i < hi ∧
          (∃ c, children self !! Z.to_nat i = Some (key, c)) ∧
          ∀ (j : nat) k c, lo ≤ Z.of_nat j < i →
            children self !! j = Some (k, c) → k ≠ key)
     ∧ ((PyPropertyTree_index self key start end_).1 = Raise PyExc_ValueError
        ∨ ∃ i, (PyPropertyTree_index self key start end_).1 = Return i))
  ∧ (Z.of_nat (Ptree.size self) < 2 ^ 31 → end_ = None →
     hi = Z.of_nat (Ptree.size self)).
Proof.
  intros fits lo hi.
  assert (∀ arg preset,
            (fits arg ∧ PyArg_Parse_i arg preset = Some (default preset arg))
            ∨ (¬ fits arg ∧ PyArg_Parse_i arg preset = None)) as Hparse.
  { intros [z|] preset; simpl; [|left; split; [by intros ? [=] | done]].
    unfold INT_MIN, INT_MAX in *.
    destruct (Z.leb_spec (- 2 ^ 31) z); simpl;
      [destruct (Z.leb_spec z (2 ^ 31 - 1)); simpl|].
    - left. split; [|done]. intros ? [= <-]. unfold INT_MIN, INT_MAX. lia.
    - right. split; [|done]. intros Hfits.
      specialize (Hfits z eq_refl). unfold INT_MIN, INT_MAX in Hfits. lia.
    - right. split; [|done]. intros Hfits.
      specialize (Hfits z eq_refl). unfold INT_MIN, INT_MAX in Hfits. lia. }
  pose proof (index_loops self key (default 0 start) hi) as Hloops.
  cbv zeta in Hloops. fold lo in Hloops.
  unfold PyPropertyTree_index. fold hi.
  destruct (Hparse start 0) as [[Hstart ->]|[Hstart ->]];
    [destruct (Hparse end_ (int_cast (Z.of_nat (Ptree.size self))))
       as [[Hend ->]|[Hend ->]]|].
  - fold hi. destruct Hloops as (Hself & Hiff & Hcases).
    split_and!; [done | | done |].
    + split; [|by intros []].
      intros Hraise. rewrite Hraise in Hcases.
      by destruct Hcases as [?|[? ?]].
    + intros Hsize ->. unfold hi. simpl. unfold int_cast.
      rewrite Z.mod_small; lia.
  - split_and!; [done | | by intros [_ ?] |].
    + split; [by intros _ [_ ?] | done].
    + intros Hsize ->. by destruct Hend.
  - split_and!; [done | | by intros [? _] |].
    + split; [by intros _ [? _] | done].
    + intros Hsize ->. unfold hi. simpl. unfold int_cast.
      rewrite Z.mod_small; lia.
Qed.

(** C2, on the tree [{a: "x", x: "y"}]: the first child whose value equals
    ["x"] is the one at position 0, but [index("x")] is 1, the position of
    the child whose key is ["x"]; restricted to the range [0, 1) it raises
    [ValueError] although the child in that range has the value ["x"]. *)
Theorem PyPropertyTree_index_ignores_values :
  find_value "x" (children tree_ax) = Some 0%nat
  ∧ PyPropertyTree_index tree_ax "x" None None = (Return 1, tree_ax)
  ∧ PyPropertyTree_index tree_ax "x" (Some 0) (Some 1)
    = (Raise PyExc_ValueError, tree_ax).
Proof. split_and!; reflexivity. Qed.

(** C6: [erase(key)] returns the number of children that had the key, which
    is what [count(key)] gave before the call; it leaves [count(key)] at
    zero and keeps exactly the children with another key, in their order;
    the data of the node is not touched. *)
Theorem PyPropertyTree_erase_all (self : ptree) (key : string) :
  (PyPropertyTree_erase self key).1
    = Return (Z.of_nat (length (filter (λ kc, kc.1 = key) (children self))))
  ∧ (PyPropertyTree_erase self key).1 = (PyPropertyTree_count self key).1
  ∧ (PyPropertyTree_count (PyPropertyTree_erase self key).2 key).1 = Return 0
  ∧ children (PyPropertyTree_erase self key).2
    = filter (λ kc, kc.1 ≠ key) (children self)
  ∧ data (PyPropertyTree_erase self key).2 = data self.
Proof.
  unfold PyPropertyTree_erase, PyPropertyTree_count, Ptree.erase_key,
    Ptree.count.
  rewrite erase_in_spec. simpl. split_and!; try done.
  - by rewrite count_in_filter.
  - by rewrite count_in_erased.
Qed.

(** ** Membership *)

Section contains.
Implicit Types (s str pre post : string).

Lemma prefix_app str s :
  String.prefix str s = true ↔ ∃ post, s = str +:+ post.
Proof.
  revert s. induction str as [|a str IH]; intros [|b s]; simpl.
  - split; [by exists "" | done].
  - split; [by eexists | done].
  - split; [done | by intros [? ?]].
  - destruct (ascii_dec a b) as [->|Hne].
    + rewrite IH. split; intros [post Hp]; exists post.
      * by subst.
      * change (String b s = String b (str +:+ post)) in Hp. congruence.
    + split; [done | intros [post [= ? ?]]; done].
Qed.

Lemma string_find_unfold s str :
  string_find s str =
    if String.prefix str s then Some 0%nat
    else
      match s with
      | EmptyString => None
      | String _ s' => S <$> string_find s' str
      end.
Proof. by destruct s. Qed.

Lemma string_find_found s str :
  is_found (string_find s str) = true ↔ ∃ pre post, s = pre +:+ str +:+ post.
Proof.
  split.
  - induction s as [|a s IH]; rewrite string_find_unfold;
      destruct (String.prefix str _) eqn:Hp.
    + intros _. apply prefix_app in Hp as [post ->]. by exists "", post.
    + done.
    + intros _. apply prefix_app in Hp as [post ->]. by exists "", post.
    + destruct (string_find s str); [|done]. intros _.
      destruct IH as (pre & post & ->); [done|].
      by exists (String a pre), post.
  - intros (pre & post & ->).
    induction pre as [|a pre IH]; rewrite string_find_unfold.
    + assert (String.prefix str ("" +:+ str +:+ post) = true) as ->; [|done].
      apply prefix_app. by exists post.
    + destruct (String.prefix str _); [done|].
      change (String a pre +:+ str +:+ post)
        with (String a (pre +:+ str +:+ post)).
      cbv beta iota. by destruct (string_find _ str).
Qed.

End contains.

(** C10: [s in node] holds exactly when a direct child has the key [s] or
    [s] occurs somewhere inside the data string of the node; for a tree
    operand it holds exactly when the operand's data string is the key of a
    direct child. *)
Theorem PyPropertyTree__sq_contains_spec (self : ptree) :
  (∀ s : string,
     PyPropertyTree__sq_contains self (PyUnicode s) = true ↔
       (∃ c, (s, c) ∈ children self)
       ∨ ∃ pre post : string, data self = pre +:+ s +:+ post)
  ∧ (∀ other : ptree,
       PyPropertyTree__sq_contains self (PyTree other) = true ↔
         ∃ c, (data other, c) ∈ children self).
Proof.
  split.
  - intros s. simpl. by rewrite orb_true_iff, find_found, string_find_found.
  - intros other. simpl. by rewrite find_found.
Qed.

(** ** Path lookup *)



Lemma path_keys_empty : path_keys "" = [].
Proof. reflexivity. Qed.

Lemma is_fragment_cons c k :
  is_fragment (String c k) ↔ c ≠ separator ∧ is_fragment k.
Proof.
  unfold is_fragment. cbn [list_ascii_of_string existsb].
  rewrite orb_false_iff.
  destruct (Ascii.eqb_spec separator c) as [Heq|Hne].
  - split; [by intros [? _] | by intros [[] _]].
  - split; (intros [_ ?]; split; [congruence | done]).
Qed.

Lemma path_split_not_nil p : path_split p ≠ [].
Proof.
  destruct p as [|c p]; simpl; [done|].
  destruct (Ascii.eqb c separator); [done|]. by destruct (path_split p).
Qed.




Lemma concat_path_split p :
  String.concat "." (path_split p) = p ∧ Forall is_fragment (path_split p).
Proof.
  induction p as [|c p [IHc IHf]]; [by split; [|repeat constructor]|].
  pose proof (path_split_not_nil p) as Hnil. cbn [path_split].
  destruct (Ascii.eqb_spec c separator) as [->|Hc].
  - split; [|by constructor].
    destruct (path_split p) as [|k ks]; [done|].
    change (String.concat "." ("" :: k :: ks))
      with (String separator (String.concat "." (k :: ks))).
    by rewrite IHc.
  - destruct (path_split p) as [|k ks]; [done|].
    apply Forall_cons in IHf as [Hk Hks]. split.
    + destruct ks as [|k' ks]; [simpl in *; by subst|].
      change (String.concat "." (String c k :: k' :: ks))
        with (String c (String.concat "." (k :: k' :: ks))).
      by rewrite IHc.
    + constructor; [by apply is_fragment_cons | done].
Qed.



(** ** Comparison with scalars *)

Lemma PyLong_AsLong_fits (z : Z) :
  LONG_MIN ≤ z ≤ LONG_MAX → PyLong_AsLong z = z.
Proof.
  intros Hfits. unfold PyLong_AsLong.
  destruct (Z.leb_spec LONG_MIN z), (Z.leb_spec z LONG_MAX); simpl; lia.
Qed.

Section richcompare.
Context `{Platform}.

Lemma compare_parsed_raises {A T : Type} (parsed : option A) (cmp : A → bool) :
  compare_parsed (T := T) parsed cmp = Raise PyPropertyTreeBadDataError
  ↔ parsed = None.
Proof.
  destruct parsed as [x|]; simpl; [|done].
  unfold Py_RETURN. by destruct (cmp x).
Qed.

(** C3, as the code has it: against a boolean, an integer or a float,
    each of the six comparisons, [==] and [!=] included, raises
    [BadDataError] exactly when the data string of the node does not
    parse as the type of the operand; when it parses, the result is the
    boolean the C++ comparison of the parsed value with the operand gives,
    for an integer operand as long as it fits a C [long]. *)
Theorem PyPropertyTree__tp_richcompare_bad_data (self : ptree) (op : cmp_op) :
  (∀ b : bool,
     (PyPropertyTree__tp_richcompare self (PyBool b) op
        = Raise PyPropertyTreeBadDataError
      ↔ get_value_bool (data self) = None)
     ∧ ∀ x, get_value_bool (data self) = Some x →
         PyPropertyTree__tp_richcompare self (PyBool b) op
           = Return (PyBool (cmp_long op (Z.b2z x) (Z.b2z b))))
  ∧ (∀ z : Z,
       (PyPropertyTree__tp_richcompare self (PyLong z) op
          = Raise PyPropertyTreeBadDataError
        ↔ get_value_long (data self) = None)
       ∧ ∀ x, get_value_long (data self) = Some x →
           LONG_MIN ≤ z ≤ LONG_MAX →
           PyPropertyTree__tp_richcompare self (PyLong z) op
             = Return (PyBool (cmp_long op x z)))
  ∧ (∀ f : float,
       (PyPropertyTree__tp_richcompare self (PyFloat f) op
          = Raise PyPropertyTreeBadDataError
        ↔ get_value_double (data self) = None)
       ∧ ∀ x, get_value_double (data self) = Some x →
           PyPropertyTree__tp_richcompare self (PyFloat f) op
             = Return (PyBool (cmp_double op x f))).
Proof.
  split_and!; intros v; simpl; (split; [apply compare_parsed_raises|]);
    intros x ->; [|intros Hfits; rewrite (PyLong_AsLong_fits v Hfits)|];
    simpl; unfold Py_RETURN, Py_True, Py_False;
    by destruct (_ op _ _).
Qed.

End richcompare.

(** C3 as the specification has it fails: the data string ["abc"] does not
    parse as a boolean, and [node == True] raises [BadDataError] instead of
    evaluating to false. *)
Lemma PyPropertyTree__tp_richcompare_eq_raises :
  @get_value_bool Reference.platform (data (leaf "abc")) = None
  ∧ @PyPropertyTree__tp_richcompare Reference.platform
      (leaf "abc") (PyBool true) Py_EQ
    = Raise PyPropertyTreeBadDataError
  ∧ @PyPropertyTree__tp_richcompare Reference.platform
      (leaf "abc") (PyBool true) Py_EQ
    ≠ Return Py_False.
Proof. split_and!; [reflexivity | reflexivity | discriminate]. Qed.

(** ** JSON output *)

Section json.
Context `{Platform}.

Lemma children_verify_false (cs : list (string * ptree)) (depth : nat) :
  Forall (λ kc, ∀ depth,
            verify_json kc.2 depth = false ↔
              (depth = 0%nat ∧ data kc.2 ≠ "")
              ∨ ∃ r n, subtree_at r kc.2 = Some n ∧ value_and_children n)
         cs →
  forallb (λ kc, let '(_, c) := kc in verify_json c (S depth)) cs = false ↔
    ∃ i k c r n, cs !! i = Some (k, c)
                 ∧ subtree_at r c = Some n ∧ value_and_children n.
Proof.
  induction 1 as [|[k c] cs IHc _ IHcs]; simpl.
  { split; [done | by intros (i & ? & ? & ? & ? & ? & _)]. }
  rewrite andb_false_iff, IHc, IHcs. simpl. split.
  - intros [[[? _]|(r & n & ? & ?)]|(i & k' & c' & r & n & ? & ? & ?)].
    + done.
    + by exists 0%nat, k, c, r, n.
    + by exists (S i), k', c', r, n.
  - intros ([|i] & k' & c' & r & n & Hl & ? & ?); simplify_eq/=.
    + left. right. eauto.
    + right. by exists i, k', c', r, n.
Qed.

Lemma verify_json_false (pt : ptree) (depth : nat) :
  verify_json pt depth = false ↔
    (depth = 0%nat ∧ data pt ≠ "")
    ∨ ∃ r n, subtree_at r pt = Some n ∧ value_and_children n.
Proof.
  revert depth. induction pt as [d cs bn IH] using ptree_nested_ind.
  intros depth. cbn [verify_json data].
  pose proof (children_verify_false cs depth IH) as Hcs.
  destruct (String.eqb_spec d "") as [->|Hd]; cbn [andb negb].
  - (* no data: only a child can fail *)
    rewrite andb_false_r. cbn [andb]. rewrite Hcs. split.
    + intros (i & k & c & r & n & Hl & ? & ?). right.
      exists (i :: r), n. simpl. by rewrite Hl.
    + intros [[_ ?]|([|i r] & n & Hr & Hn)]; [done | |]; simplify_eq/=.
      * by destruct Hn.
      * destruct (cs !! i) as [[k c]|] eqn:Hl; [|done].
        by exists i, k, c, r, n.
  - rewrite andb_true_r.
    destruct (Nat.eqb_spec depth 0) as [->|Hdepth]; [by split; [left|]|].
    destruct cs as [|kc cs]; simpl.
    + split; [done|].
      intros [[? _]|([|i r] & n & Hr & Hn)]; simplify_eq/=.
      by destruct Hn as [_ ?].
    + split; [|done]. intros _. right. by exists [], (Node d (kc :: cs) bn).
Qed.

(** C7, as the code has it: [dumps] raises [JSONParserError] exactly
    when the root carries data or some node carries both data and
    children.  For every other tree the writer produces its text, and
    [dumps] returns it when it is well-formed UTF-8 and raises
    [UnicodeDecodeError] when it is not. *)
Theorem property_tree_write_json_fails (tree : ptree)
    (pretty_print : option bool) :
  let text :=
    write_json_helper tree (default true pretty_print)
    +:+ String "010"%char "" in
  (property_tree_write_json tree pretty_print
     = Raise PyPropertyTreeJSONParserError
   ↔ data tree ≠ ""
     ∨ ∃ r n, subtree_at r tree = Some n ∧ value_and_children n)
  ∧ (property_tree_write_json tree pretty_print
       = Raise PyPropertyTreeJSONParserError
     ∨ (utf8_run Utf8_start text = true
        ∧ property_tree_write_json tree pretty_print = Return text)
     ∨ (utf8_run Utf8_start text = false
        ∧ property_tree_write_json tree pretty_print
          = Raise PyExc_UnicodeDecodeError)).
Proof.
  intros text.
  unfold property_tree_write_json, write_json, PyUnicode_DecodeUTF8.
  fold text.
  pose proof (verify_json_false tree 0) as Hv.
  destruct (verify_json tree 0); split.
  - split; [by destruct (utf8_run _ _)|]. intros Hbad.
    assert (true = false) as [=]. apply Hv.
    destruct Hbad as [?|?]; [by left | by right].
  - right. destruct (utf8_run _ _); [by left | by right].
  - split; [intros _ | done].
    destruct Hv as [Hv _]. by destruct Hv as [[_ ?]|?]; [|left|right].
  - by left.
Qed.

End json.

(** C7 as the specification has it fails, in two ways.  No node of the
    lone leaf ["foo"] has both data and children, and still [dumps] raises
    [JSONParserError], for the data at the root.  And no node of the tree
    with the one child keyed by the byte [0xff] has data and children, nor
    has its root data, and [dumps] raises [UnicodeDecodeError]. *)
Lemma property_tree_write_json_root_data :
  ((∀ r n, subtree_at r (leaf "foo") = Some n → ¬ value_and_children n)
   ∧ @property_tree_write_json Reference.platform (leaf "foo") None
     = Raise PyPropertyTreeJSONParserError)
  ∧ ((∀ r n, subtree_at r tree_latin1 = Some n → ¬ value_and_children n)
     ∧ data tree_latin1 = ""
     ∧ @property_tree_write_json Reference.platform tree_latin1 None
       = Raise PyExc_UnicodeDecodeError).
Proof.
  split_and!; [|reflexivity| |reflexivity|reflexivity].
  - intros [|i r] n Hr [_ Hn]; simplify_eq/=.
  - intros [|[|i] [|j r]] n Hr [Hd Hn]; simplify_eq/=.
Qed.

(** ** Copies *)

Lemma ptree_copy_id (t : ptree) : ptree_copy t = t.
Proof.
  induction t as [d cs bn IH] using ptree_nested_ind. simpl. f_equal.
  induction IH as [|[k c] cs Hc _ IHcs]; simpl in *; [done|].
  by rewrite Hc, IHcs.
Qed.

(** [operator==] is structural equality: the same data and the same
    children, in the same order, under the same keys. *)
Lemma ptree_eqb_eq (a b : ptree) :
  ptree_eqb a b = true ↔ sequenced a = sequenced b.
Proof.
  revert b. induction a as [da ca bna IH] using ptree_nested_ind.
  intros [db cb bnb]. simpl.
  rewrite !andb_true_iff, Nat.eqb_eq, String.eqb_eq.
  assert ((fix equal (xs ys : list (string * ptree)) : bool :=
             match xs, ys with
             | [], [] => true
             | (k1, c1) :: xs', (k2, c2) :: ys' =>
                 String.eqb k1 k2 && ptree_eqb c1 c2 && equal xs' ys'
             | _, _ => false
             end) ca cb = true
          ↔ map (λ kc, let '(k, c) := kc in (k, sequenced c)) ca
            = map (λ kc, let '(k, c) := kc in (k, sequenced c)) cb) as ->.
  { clear da db. revert cb.
    induction IH as [|[k c] ca Hc _ IHca]; intros [|[k' c'] cb]; try done.
    rewrite !andb_true_iff, String.eqb_eq, Hc, IHca. simpl.
    split; [by intros [[-> ->] ->] | by intros [= -> -> ->]]. }
  split.
  - by intros [[_ ->] ->].
  - intros [= -> Hcs]. split_and!; [|done..].
    apply (f_equal length) in Hcs. by rewrite !length_map in Hcs.
Qed.

Lemma ptree_eqb_refl (t : ptree) : ptree_eqb t t = true.
Proof. by apply ptree_eqb_eq. Qed.

Section node_refs.
Implicit Types (r : node_ref) (t n : ptree) (f : ptree → ptree).

Lemma subtree_at_app r1 r2 t :
  subtree_at (r1 ++ r2) t = subtree_at r1 t ≫= subtree_at r2.
Proof.
  revert t. induction r1 as [|i r1 IH]; intros t; simpl; [done|].
  destruct (children t !! i) as [[k c]|]; [apply IH | done].
Qed.

Lemma subtree_at_update_at r f t n :
  subtree_at r t = Some n → subtree_at r (update_at r f t) = Some (f n).
Proof.
  revert t. induction r as [|i r IH]; intros t; simpl; [by intros [= ->]|].
  destruct (children t !! i) as [[k c]|] eqn:Hl; [|done]. intros Hr.
  rewrite list_lookup_alter_eq, Hl. simpl. by apply IH.
Qed.

Lemma update_at_id r t n :
  subtree_at r t = Some n → update_at r (λ _, n) t = t.
Proof.
  revert t. induction r as [|i r IH]; intros [d cs]; simpl;
    [by intros [= ->]|].
  destruct (cs !! i) as [[k c]|] eqn:Hl; [|done]. intros Hr.
  f_equal. apply list_eq. intros j. destruct (decide (i = j)) as [<-|Hne].
  - rewrite list_lookup_alter_eq, Hl. simpl. by rewrite IH.
  - by rewrite list_lookup_alter_ne.
Qed.

End node_refs.

Section heap.
Implicit Types (h : heap) (self o : PyPropertyTree) (t : ptree).

Lemma new_ptree_fresh h t : h !! (new_ptree h t).1 = None.
Proof. apply not_elem_of_dom, is_fresh. Qed.

Lemma deref_new_ptree h t o :
  is_Some (deref h o) → deref (new_ptree h t).2 o = deref h o.
Proof.
  unfold deref. simpl. intros [n Hn].
  destruct (h !! obj_root o) as [root|] eqn:Hroot; [|done].
  rewrite lookup_insert_ne; [by rewrite Hroot|].
  intros Heq. pose proof (new_ptree_fresh h t) as Hfresh. simpl in Hfresh.
  congruence.
Qed.

Lemma deref_store_other h self o f :
  obj_root self ≠ obj_root o → deref (store h self f) o = deref h o.
Proof. intros Hne. unfold deref, store. by rewrite lookup_alter_ne. Qed.

Lemma deref_store h self f t :
  deref h self = Some t → deref (store h self f) self = Some (f t).
Proof.
  unfold deref, store. rewrite lookup_alter_eq.
  destruct (h !! obj_root self) as [root|]; simpl; [|done].
  apply subtree_at_update_at.
Qed.

End heap.

(** C8: [copy(t)] is a new tree object that owns its node and compares
    equal to [t], [==] between trees being structural equality (the same
    data and the same children in storage order, recursively); whatever a
    method then does to the copy, [t] and every other tree object that was
    there before keep their contents. *)
Theorem PyPropertyTree__copy__independent `{Platform} (h : heap)
    (self : PyPropertyTree) (t : ptree) :
  deref h self = Some t →
  ∃ copy h',
    PyPropertyTree__copy__ h self = Some (copy, h')
    ∧ flags copy = PTREE_FLAG_NONE
    ∧ (∃ t', deref h' copy = Some t'
             ∧ PyPropertyTree__tp_richcompare t' (PyTree t) Py_EQ
               = Return Py_True)
    ∧ (∀ a b : ptree,
         PyPropertyTree__tp_richcompare a (PyTree b) Py_EQ = Return Py_True
         ↔ sequenced a = sequenced b)
    ∧ (∀ o, is_Some (deref h o) → deref h' o = deref h o)
    ∧ ∀ (A : Type) (method : ptree → A * ptree) (a : A) (h'' : heap),
        call_method h' copy method = Some (a, h'') →
        ∀ o, is_Some (deref h o) → deref h'' o = deref h o.
Proof.
  intros Hself. unfold PyPropertyTree__copy__. rewrite Hself.
  pose proof (new_ptree_fresh h t) as Hfresh.
  destruct (new_ptree h t) as [a h'] eqn:Hnew.
  assert (h' = <[a := ptree_copy t]> h) as Hh'.
  { unfold new_ptree in Hnew. by simplify_eq. }
  assert (∀ o, is_Some (deref h o) → deref h' o = deref h o) as Hkeep.
  { intros o Ho. pose proof (deref_new_ptree h t o Ho) as Hd.
    by rewrite Hnew in Hd. }
  simpl in Hfresh.
  eexists _, _. split_and!; [done | done | | | done |].
  - exists (ptree_copy t). split.
    + unfold deref. simpl. by rewrite Hh', lookup_insert_eq.
    + simpl. rewrite ptree_copy_id.
      by rewrite ptree_eqb_refl.
  - intros x y. simpl. rewrite <-ptree_eqb_eq.
    unfold Py_RETURN, Py_True, Py_False. destruct (ptree_eqb x y); naive_solver.
  - intros A method res h'' Hcall o Ho.
    unfold call_method in Hcall.
    destruct (deref h' _) as [t'|]; [|done].
    destruct (method t') as [res' t'']. simplify_eq.
    rewrite deref_store_other; [by apply Hkeep|]. simpl.
    intros Heq. destruct Ho as [n Hn]. unfold deref in Hn.
    by rewrite <-Heq, Hfresh in Hn.
Qed.

Lemma PyPropertyTree__copy__witness :
  deref heap_abb object_abb = Some tree_abb
  ∧ ∃ copy h',
      PyPropertyTree__copy__ heap_abb object_abb = Some (copy, h')
      ∧ flags copy = PTREE_FLAG_NONE
      ∧ ∀ result h'',
          call_method h' copy (λ t, PyPropertyTree_remove t "a")
            = Some (result, h'') →
          deref h'' object_abb = Some tree_abb.
Proof.
  split; [reflexivity|].
  destruct (@PyPropertyTree__copy__independent Reference.platform
              heap_abb object_abb tree_abb eq_refl)
    as (copy & h' & Hcopy & Hflags & _ & _ & _ & Hindependent).
  exists copy, h'. split; [exact Hcopy|]. split; [exact Hflags|].
  intros result h'' Hcall.
  apply (Hindependent _ _ _ _ Hcall object_abb). by eexists.
Defined.

(** ** Linking a child at a path *)

Section link.
Context `{Platform}.
Implicit Types (pt parent value : ptree) (path key : string).

Lemma force_path_subtree ks pt :
  is_Some (subtree_at (PtreePath.force_path ks pt).1
                      (PtreePath.force_path ks pt).2).
Proof.
  revert pt. induction ks as [|k ks IH]; intros pt; simpl; [done|].
  destruct (Ptree.find k pt) as [i|] eqn:Hf.
  - destruct (children pt !! i) as [[k0 c]|] eqn:Hl; simpl; [|done].
    specialize (IH c). destruct (PtreePath.force_path ks c) as [r c'].
    simpl in *. rewrite list_lookup_insert_eq; [done|].
    by eapply lookup_lt_Some.
  - specialize (IH (Node "" [] [])).
    destruct (PtreePath.force_path ks (Node "" [] [])) as [r c'].
    simpl in *. by rewrite list_lookup_middle.
Qed.

Lemma put_fragment_lookup key value parent :
  children (PtreePath.put_fragment key value parent).2
    !! (PtreePath.put_fragment key value parent).1 = Some (key, value).
Proof.
  unfold PtreePath.put_fragment.
  destruct (Ptree.find key parent) as [i|] eqn:Hf; simpl.
  - apply find_lookup in Hf as [c Hc].
    apply list_lookup_insert_eq. by eapply lookup_lt_Some.
  - by apply list_lookup_middle.
Qed.

Lemma push_back_lookup key value parent :
  children (Ptree.push_back key value parent).2
    !! (Ptree.push_back key value parent).1 = Some (key, value).
Proof. simpl. by apply list_lookup_middle. Qed.

Lemma link_child_stores link path value pt :
  (∀ fragment parent,
     children (link fragment value parent).2
       !! (link fragment value parent).1 = Some (fragment, value)) →
  valid_path path →
  ∃ r pt', PtreePath.link_child link path value pt = Return (r, pt')
           ∧ subtree_at r pt' = Some value.
Proof.
  intros Hlink Hvalid. unfold PtreePath.link_child. rewrite Hvalid.
  pose proof (force_path_subtree (removelast (path_split path)) pt)
    as [parent Hparent].
  destruct (PtreePath.force_path _ pt) as [r pt1]. simpl in Hparent.
  rewrite Hparent.
  specialize (Hlink (List.last (path_split path) "") parent).
  destruct (link _ value parent) as [i parent'] eqn:Hl. simpl in Hlink.
  eexists _, _. split; [done|].
  rewrite subtree_at_app.
  rewrite (subtree_at_update_at _ _ _ parent) by done.
  simpl. rewrite Hl. simpl. by rewrite Hlink.
Qed.

Lemma link_child_asserts link path value pt :
  ¬ valid_path path →
  PtreePath.link_child link path value pt = AssertionFailed.
Proof.
  unfold valid_path, PtreePath.link_child.
  by destruct (PtreePath.path_assert _).
Qed.

Lemma put_child_stores path value pt :
  valid_path path →
  ∃ r pt', PtreePath.put_child path value pt = Return (r, pt')
           ∧ subtree_at r pt' = Some value.
Proof. apply link_child_stores. intros. apply put_fragment_lookup. Qed.

Lemma add_child_stores path value pt :
  valid_path path →
  ∃ r pt', PtreePath.add_child path value pt = Return (r, pt')
           ∧ subtree_at r pt' = Some value.
Proof. apply link_child_stores. intros. apply push_back_lookup. Qed.

Lemma insert_before_lookup (i : nat) key value pt :
  (i ≤ length (children pt))%nat →
  children (insert_before i key value pt) !! i = Some (key, value).
Proof.
  intros Hi. simpl. apply list_lookup_middle.
  rewrite length_take. lia.
Qed.

End link.

(** ** Decimal numerals *)

Lemma pretty_N_char_digit (x : N) : is_digit (pretty_N_char x) = true.
Proof. unfold pretty_N_char. by repeat case_match. Qed.

Lemma pretty_N_go_digits (x : N) (s : string) :
  forallb is_digit (list_ascii_of_string s) = true →
  forallb is_digit (list_ascii_of_string (pretty_N_go x s)) = true.
Proof.
  revert s. induction (N.lt_wf_0 x) as [x _ IH]; intros s Hs.
  assert (x = 0 ∨ 0 < x)%N as [->|Hx] by lia.
  - by rewrite pretty_N_go_0.
  - rewrite pretty_N_go_step by done. apply IH; [by apply N.div_lt|].
    cbn [list_ascii_of_string forallb]. by rewrite pretty_N_char_digit.
Qed.

Lemma pretty_N_go_not_empty (x : N) (s : string) :
  s ≠ "" → pretty_N_go x s ≠ "".
Proof.
  revert s. induction (N.lt_wf_0 x) as [x _ IH]; intros s Hs.
  assert (x = 0 ∨ 0 < x)%N as [->|Hx] by lia.
  - by rewrite pretty_N_go_0.
  - rewrite pretty_N_go_step by done. by apply IH; [apply N.div_lt|].
Qed.

Lemma pretty_N_digits (x : N) :
  pretty x ≠ ""
  ∧ forallb is_digit (list_ascii_of_string (pretty x)) = true.
Proof.
  unfold pretty, pretty_N. destruct (decide (x = 0%N)) as [->|Hx]; [done|].
  split; [|by apply pretty_N_go_digits].
  rewrite pretty_N_go_step by lia. by apply pretty_N_go_not_empty.
Qed.

Lemma digits_decimal_numeral (s : string) :
  s ≠ "" → forallb is_digit (list_ascii_of_string s) = true →
  decimal_numeral s = true ∧ decimal_numeral ("-" +:+ s) = true.
Proof.
  intros Hs Hdigits.
  assert (forallb (λ c, is_digit c || Ascii.eqb c ".")
            (list_ascii_of_string s)
          && existsb is_digit (list_ascii_of_string s)
          && (length (filter (λ c, c = "."%char) (list_ascii_of_string s))
              <=? 1)%nat = true) as Hunsigned.
  { rewrite !andb_true_iff. split_and!.
    - rewrite forallb_forall in Hdigits. apply forallb_forall.
      intros c Hc. by rewrite (Hdigits c Hc).
    - destruct s as [|c s]; [done|]. simpl in *.
      apply andb_true_iff in Hdigits as [-> _]. done.
    - rewrite (filter_nil_Forall_not (λ c, c = "."%char)); [done|].
      apply Forall_forall. intros c Hc ->.
      rewrite forallb_forall in Hdigits.
      apply list_elem_of_In, Hdigits in Hc. done. }
  split; [|done].
  unfold decimal_numeral. destruct s as [|c s]; [done|].
  destruct (Ascii.eqb_spec c "-"%char) as [->|_]; [|done].
  simpl in Hdigits. done.
Qed.

(** The text [pretty] gives for an integer is a decimal numeral. *)
Lemma pretty_Z_decimal_numeral (z : Z) : decimal_numeral (pretty z) = true.
Proof.
  destruct z as [|x|x]; [done| |].
  - change (pretty (Z.pos x)) with (pretty (N.pos x)).
    destruct (pretty_N_digits (N.pos x)) as [Hne Hdigits].
    by destruct (digits_decimal_numeral _ Hne Hdigits).
  - change (pretty (Z.neg x)) with ("-" +:+ pretty (N.pos x)).
    destruct (pretty_N_digits (N.pos x)) as [Hne Hdigits].
    by destruct (digits_decimal_numeral _ Hne Hdigits).
Qed.

(** ** Assigning scalars *)

Section assign.
Context `{Platform}.
Implicit Types (self tree : ptree) (value : PyValue) (path key s : string).

Lemma value_to_tree_scalar value :
  (∀ t, value ≠ PyTree t) →
  value_to_tree value = leaf <$> py_value_to_string value.
Proof. intros Hscalar. destruct value; try done. by destruct (Hscalar t). Qed.

Lemma PyPropertyTree_put_stores self path value s :
  valid_path path → value_to_tree value = Some (leaf s) →
  stores_leaf (PyPropertyTree_put self path value) s.
Proof.
  intros Hpath Hvalue. unfold PyPropertyTree_put. rewrite Hvalue.
  destruct (put_child_stores path (leaf s) self Hpath)
    as (r & self' & -> & Hr).
  by exists r, self'.
Qed.

Lemma PyPropertyTree_add_stores self path value s :
  valid_path path → value_to_tree value = Some (leaf s) →
  stores_leaf (PyPropertyTree_add self path value) s.
Proof.
  intros Hpath Hvalue. unfold PyPropertyTree_add. rewrite Hvalue.
  destruct (add_child_stores path (leaf s) self Hpath)
    as (r & self' & -> & Hr).
  by exists r, self'.
Qed.

Lemma PyPropertyTree_append_stores self key value s :
  value_to_tree value = Some (leaf s) →
  stores_leaf (PyPropertyTree_append self key value) s.
Proof.
  intros Hvalue. unfold PyPropertyTree_append. rewrite Hvalue. simpl.
  eexists _, _. split; [done|]. simpl. by rewrite list_lookup_middle.
Qed.

(** [insert] with an index in range, on a tree whose size an [int]
    holds. *)
Lemma PyPropertyTree_insert_in_range self (index : Z) key value :
  Z.of_nat (Ptree.size self) < 2 ^ 31 →
  - (Z.of_nat (Ptree.size self) + 1) ≤ index ≤ Z.of_nat (Ptree.size self) →
  ∃ i : nat,
    Z.of_nat i = (if index <? 0
                  then index + (Z.of_nat (Ptree.size self) + 1) else index)
    ∧ (i ≤ Ptree.size self)%nat
    ∧ PyPropertyTree_insert self index key value
      = match value_to_tree value with
        | Some tree => (Return [i], insert_before i key tree self)
        | None => (Raise PyExc_ValueError, self)
        end.
Proof.
  intros Hsize Hindex. unfold PyPropertyTree_insert.
  rewrite PyArg_Parse_i_fits by (unfold INT_MIN, INT_MAX; lia).
  cbv zeta.
  set (size := Z.of_nat (Ptree.size self)) in *.
  assert ((if index <? 0 then int_cast (index + (size + 1)) else index)
          = (if index <? 0 then index + (size + 1) else index)) as ->.
  { destruct (Z.ltb_spec index 0); [|done].
    apply int_cast_fits. unfold INT_MIN, INT_MAX. lia. }
  set (index' := if index <? 0 then index + (size + 1) else index).
  assert (0 ≤ index' ≤ size) as Hrange.
  { unfold index'. destruct (Z.ltb_spec index 0); lia. }
  destruct (Z.ltb_spec index' 0); [lia|].
  destruct (Z.ltb_spec size index'); [lia|]. simpl.
  exists (Z.to_nat index'). split_and!; [lia | lia | done].
Qed.

Lemma PyPropertyTree_insert_stores self (index : Z) key value s :
  Z.of_nat (Ptree.size self) < 2 ^ 31 →
  - (Z.of_nat (Ptree.size self) + 1) ≤ index ≤ Z.of_nat (Ptree.size self) →
  value_to_tree value = Some (leaf s) →
  stores_leaf (PyPropertyTree_insert self index key value) s.
Proof.
  intros Hsize Hindex Hvalue.
  destruct (PyPropertyTree_insert_in_range self index key value Hsize Hindex)
    as (i & _ & Hi & ->).
  rewrite Hvalue.
  eexists _, _. split; [done|]. cbn [subtree_at].
  by rewrite insert_before_lookup.
Qed.

Lemma PyPropertyTree_setdefault_stores self path (value : option PyValue) s :
  valid_path path → PtreePath.get_child path self = None →
  value_to_tree (default Py_None value) = Some (leaf s) →
  stores_leaf (PyPropertyTree_setdefault self path value) s.
Proof.
  intros Hpath Hget Hvalue. unfold PyPropertyTree_setdefault.
  rewrite Hget, Hvalue.
  destruct (put_child_stores path (leaf s) self Hpath)
    as (r & self' & -> & Hr).
  by exists r, self'.
Qed.

Lemma PyPropertyTree_mp_ass_subscript_puts self key_obj path value s :
  (key_obj = PyUnicode path
   ∨ ∃ index, PyIndex_Check key_obj = Some index
              ∧ LONG_MIN ≤ index ≤ LONG_MAX
              ∧ key_at_index self index = Some path) →
  valid_path path → value_to_tree value = Some (leaf s) →
  puts_leaf (PyPropertyTree_mp_ass_subscript self key_obj (Some value))
    self path s.
Proof.
  intros Hkey Hpath Hvalue. unfold PyPropertyTree_mp_ass_subscript.
  destruct (put_child_stores path (leaf s) self Hpath)
    as (r & self' & Hput & Hr).
  destruct Hkey as [->|(index & -> & _ & ->)]; simpl;
    rewrite Hvalue, Hput; by exists r, self'.
Qed.

Lemma PyPropertyTree__tp_setattro_puts self name value s :
  name ≠ "value" → name ≠ "__class__" →
  valid_path name → value_to_tree value = Some (leaf s) →
  puts_leaf (PyPropertyTree__tp_setattro self name value) self name s.
Proof.
  intros Hname1 Hname2 Hpath Hvalue.
  unfold PyPropertyTree__tp_setattro, PyObject_GenericSetAttr.
  apply String.eqb_neq in Hname1, Hname2. rewrite Hname1, Hname2.
  destruct (put_child_stores name (leaf s) self Hpath)
    as (r & self' & Hput & Hr).
  rewrite Hvalue, Hput. by exists r, self'.
Qed.

(** C9, as the code has it.  The table of [py_value_to_string]: [None]
    gives ["none"], a boolean ["true"] or ["false"], a number its [str()]
    (the decimal numeral for an integer, the text the runtime prints for a
    float, and whatever text [str()] gives for any other number), a string
    itself, any other object is refused.  Every method that assigns a
    scalar stores a leaf with that text once the call gets to the
    assignment ([insert] with an index in range on a tree whose size an
    [int] holds, an item assignment with a string or with an integer that
    fits a [Py_ssize_t] and names a child, [setdefault] with a path that is
    not there), and raises [ValueError] there, leaving the tree as it was,
    for a refused object.  The attribute [value] is the exception: it takes
    a string and refuses everything else, numbers, booleans and [None]
    included. *)
Theorem py_value_to_string_assignment self :
  (py_value_to_string Py_None = Some "none"
   ∧ py_value_to_string (PyBool true) = Some "true"
   ∧ py_value_to_string (PyBool false) = Some "false"
   ∧ (∀ z, py_value_to_string (PyLong z) = Some (pretty z)
           ∧ decimal_numeral (pretty z) = true)
   ∧ (∀ f, py_value_to_string (PyFloat f) = Some (float_repr f))
   ∧ (∀ str, py_value_to_string (PyNumber str) = Some str)
   ∧ (∀ s, py_value_to_string (PyUnicode s) = Some s)
   ∧ py_value_to_string Py_NotImplemented = None
   ∧ (∀ str, py_value_to_string (PyObject_other str) = None))
  ∧ (∀ value s,
       (∀ t, value ≠ PyTree t) → py_value_to_string value = Some s →
       (∀ path, valid_path path →
          stores_leaf (PyPropertyTree_put self path value) s)
       ∧ (∀ path, valid_path path →
            stores_leaf (PyPropertyTree_add self path value) s)
       ∧ (∀ key, stores_leaf (PyPropertyTree_append self key value) s)
       ∧ (∀ index key,
            Z.of_nat (Ptree.size self) < 2 ^ 31 →
            - (Z.of_nat (Ptree.size self) + 1) ≤ index
              ≤ Z.of_nat (Ptree.size self) →
            stores_leaf (PyPropertyTree_insert self index key value) s)
       ∧ (∀ path, valid_path path →
            PtreePath.get_child path self = None →
            stores_leaf (PyPropertyTree_setdefault self path (Some value)) s)
       ∧ (∀ key_obj path,
            key_obj = PyUnicode path
            ∨ (∃ index, PyIndex_Check key_obj = Some index
                        ∧ LONG_MIN ≤ index ≤ LONG_MAX
                        ∧ key_at_index self index = Some path) →
            valid_path path →
            puts_leaf
              (PyPropertyTree_mp_ass_subscript self key_obj (Some value))
              self path s)
       ∧ (∀ name, name ≠ "value" → name ≠ "__class__" → valid_path name →
            puts_leaf (PyPropertyTree__tp_setattro self name value)
              self name s))
  ∧ (∀ path, valid_path path → PtreePath.get_child path self = None →
       stores_leaf (PyPropertyTree_setdefault self path None) "none")
  ∧ (∀ value,
       (∀ t, value ≠ PyTree t) → py_value_to_string value = None →
       (∀ path, PyPropertyTree_put self path value
                = (Raise PyExc_ValueError, self))
       ∧ (∀ path, PyPropertyTree_add self path value
                  = (Raise PyExc_ValueError, self))
       ∧ (∀ key, PyPropertyTree_append self key value
                 = (Raise PyExc_ValueError, self))
       ∧ (∀ index key,
            Z.of_nat (Ptree.size self) < 2 ^ 31 →
            - (Z.of_nat (Ptree.size self) + 1) ≤ index
              ≤ Z.of_nat (Ptree.size self) →
            PyPropertyTree_insert self index key value
            = (Raise PyExc_ValueError, self))
       ∧ (∀ path, PtreePath.get_child path self = None →
            PyPropertyTree_setdefault self path (Some value)
            = (Raise PyExc_ValueError, self))
       ∧ (∀ key_obj path,
            key_obj = PyUnicode path
            ∨ (∃ index, PyIndex_Check key_obj = Some index
                        ∧ LONG_MIN ≤ index ≤ LONG_MAX
                        ∧ key_at_index self index = Some path) →
            PyPropertyTree_mp_ass_subscript self key_obj (Some value)
            = (Raise PyExc_ValueError, self))
       ∧ (∀ name, name ≠ "value" → name ≠ "__class__" →
            PyPropertyTree__tp_setattro self name value
            = (Raise PyExc_ValueError, self)))
  ∧ (∀ value,
       PyPropertyTree__tp_setattro self "value" value
       = match value with
         | PyUnicode s => (Return tt, Node s (children self) (by_name self))
         | _ => (Raise PyExc_ValueError, self)
         end).
Proof.
  split_and!; try done.
  - intros z. split; [done | apply pretty_Z_decimal_numeral].
  - intros value s Hscalar Hs.
    assert (value_to_tree value = Some (leaf s)) as Hvalue.
    { by rewrite value_to_tree_scalar, Hs. }
    split_and!; intros.
    + by apply PyPropertyTree_put_stores.
    + by apply PyPropertyTree_add_stores.
    + by apply PyPropertyTree_append_stores.
    + by apply PyPropertyTree_insert_stores.
    + by apply PyPropertyTree_setdefault_stores.
    + by apply PyPropertyTree_mp_ass_subscript_puts.
    + by apply PyPropertyTree__tp_setattro_puts.
  - intros path Hpath Hget.
    by apply PyPropertyTree_setdefault_stores.
  - intros value Hscalar Hnone.
    assert (value_to_tree value = None) as Hvalue.
    { by rewrite value_to_tree_scalar, Hnone. }
    split_and!.
    + intros path. unfold PyPropertyTree_put. by rewrite Hvalue.
    + intros path. unfold PyPropertyTree_add. by rewrite Hvalue.
    + intros key. unfold PyPropertyTree_append. by rewrite Hvalue.
    + intros index key Hsize Hindex.
      destruct (PyPropertyTree_insert_in_range self index key value
                  Hsize Hindex) as (i & _ & _ & ->).
      by rewrite Hvalue.
    + intros path Hget. unfold PyPropertyTree_setdefault. simpl.
      by rewrite Hget, Hvalue.
    + intros key_obj path [->|(index & Hindex & _ & Hkey)];
        unfold PyPropertyTree_mp_ass_subscript; simpl.
      * by rewrite Hvalue.
      * by rewrite Hindex, Hkey, Hvalue.
    + intros name Hname1 Hname2.
      unfold PyPropertyTree__tp_setattro, PyObject_GenericSetAttr.
      apply String.eqb_neq in Hname1, Hname2.
      by rewrite Hname1, Hname2, Hvalue.
  - intros value. by destruct value.
Qed.

End assign.

(** C9 as the specification has it fails in two places.  For the
    attribute [value]: the number 5 converts to ["5"] and the boolean
    [True] to ["true"], yet assigning either to [node.value] raises
    [ValueError] and stores nothing.  And for numbers: the complex number
    [1+2j], whose [str()] is ["(1+2j)"], is stored by [put] as the leaf
    ["(1+2j)"], which is no decimal numeral. *)
Lemma PyPropertyTree__tp_setattro_value_rejects_scalars :
  (@py_value_to_string Reference.platform (PyLong 5) = Some "5"
   ∧ @PyPropertyTree__tp_setattro Reference.platform tree_abb "value"
       (PyLong 5)
     = (Raise PyExc_ValueError, tree_abb)
   ∧ @py_value_to_string Reference.platform (PyBool true) = Some "true"
   ∧ @PyPropertyTree__tp_setattro Reference.platform tree_abb "value"
       (PyBool true)
     = (Raise PyExc_ValueError, tree_abb))
  ∧ (PyNumber_Check complex_1_2j = true
     ∧ @PyPropertyTree_put Reference.platform (leaf "") "z" complex_1_2j
       = (Return [0%nat], Node "" [("z", leaf "(1+2j)")] [0%nat])
     ∧ decimal_numeral "(1+2j)" = false
     ∧ decimal_numeral "-12.5" = true).
Proof. split_and!; reflexivity. Qed.

(** ** Merging *)

Section merge.
Context `{Platform}.
Implicit Types (key : string) (value t a b : ptree).

Lemma path_split_plain key :
  existsb (Ascii.eqb separator) (list_ascii_of_string key) = false →
  path_split key = [key].
Proof.
  induction key as [|c key IH];
    cbn [list_ascii_of_string existsb path_split]; [done|].
  rewrite orb_false_iff. intros [Hc Hkey].
  rewrite Ascii.eqb_sym in Hc. by rewrite Hc, (IH Hkey).
Qed.

Lemma first_linked_unique key t i j :
  first_linked key t i → first_linked key t j → i = j.
Proof. rewrite <-!find_first_linked. congruence. Qed.

Lemma puts_key_unique key value t t1 t2 :
  puts_key key value t t1 → puts_key key value t t2 → t1 = t2.
Proof.
  destruct 1 as [i c Hi Hfirst|Hnone]; destruct 1 as [j c' Hj Hfirst'|Hnone'].
  - by rewrite (first_linked_unique _ _ _ _ Hfirst Hfirst').
  - destruct (Hnone' key c); [|done]. by eapply list_elem_of_lookup_2.
  - destruct (Hnone key c'); [|done]. by eapply list_elem_of_lookup_2.
  - done.
Qed.

Lemma merges_unique cs a merged1 merged2 :
  merges cs a merged1 → merges cs a merged2 → merged1 = merged2.
Proof.
  intros Hm1. revert merged2.
  induction Hm1 as [a|k c cs a a1 merged1 Hput1 _ IH]; intros merged2 Hm2.
  - by inversion Hm2.
  - inversion Hm2 as [|? ? ? ? a2 ? Hput2 Hrest]; subst.
    rewrite <-(puts_key_unique _ _ _ _ _ Hput1 Hput2) in Hrest. by apply IH.
Qed.

Lemma put_fragment_puts_key key value t :
  puts_key key value t (PtreePath.put_fragment key value t).2.
Proof.
  unfold PtreePath.put_fragment.
  destruct (Ptree.find key t) as [i|] eqn:Hf; simpl.
  - pose proof (find_lookup _ _ _ Hf) as [c Hc].
    apply find_first_linked in Hf. by econstructor.
  - rewrite find_None in Hf. by constructor.
Qed.

Lemma put_child_plain key value t :
  plain_key key = true →
  ∃ r, PtreePath.put_child key value t
       = Return (r, (PtreePath.put_fragment key value t).2).
Proof.
  unfold plain_key. rewrite andb_true_iff, negb_true_iff.
  intros [Hsplit Hassert].
  unfold PtreePath.put_child, PtreePath.link_child.
  rewrite (path_split_plain key Hsplit). simpl. rewrite Hassert.
  destruct (PtreePath.put_fragment key value t) as [i t']. simpl. eauto.
Qed.

Lemma or_loop_plain (cs : list (string * ptree)) t :
  Forall (λ kc, plain_key kc.1 = true) cs →
  ∃ merged, or_loop cs t = Return merged ∧ merges cs t merged.
Proof.
  intros Hplain. revert t.
  induction Hplain as [|[k c] cs Hk _ IH]; intros t; simpl.
  { exists t. split; [done | constructor]. }
  destruct (put_child_plain k c t Hk) as [r ->].
  destruct (IH (PtreePath.put_fragment k c t).2) as (merged & -> & Hmerged).
  exists merged. split; [done|].
  econstructor; [apply put_fragment_puts_key | done].
Qed.

(** C4, as the code has it: when no key of [b] holds the path separator
    (nor is empty, where assertions are compiled in), there is exactly one
    tree [merged] that is [a] with the children of [b] put over it by key,
    one after the other, each replacing the value of the child [find]
    gives for its key or becoming a new last child; [a | b] is a new object
    owning that tree, every object of the heap keeps its contents, and
    [a |= b] leaves that tree in [a] and returns [a]. *)
Theorem PyPropertyTree__nb_or_merges (h : heap)
    (left_obj right_obj : PyPropertyTree) (a b : ptree) :
  deref h left_obj = Some a →
  deref h right_obj = Some b →
  Forall (λ kc, plain_key kc.1 = true) (children b) →
  ∃ merged,
    merges (children b) a merged
    ∧ (∀ merged', merges (children b) a merged' → merged' = merged)
    ∧ (∃ new h',
         PyPropertyTree__nb_or h (PyTree left_obj) (PyTree right_obj)
           = Some (Return (PyTree new), h')
         ∧ flags new = PTREE_FLAG_NONE
         ∧ h !! obj_root new = None
         ∧ deref h' new = Some merged
         ∧ ∀ o, is_Some (deref h o) → deref h' o = deref h o)
    ∧ PyPropertyTree__nb_inplace_or a (PyTree b) = (Return PySelf, merged).
Proof.
  intros Ha Hb Hplain.
  destruct (or_loop_plain _ a Hplain) as (merged & Hloop & Hmerged).
  exists merged. split_and!; [done | | |].
  - intros merged' Hmerged'. by eapply merges_unique.
  - unfold PyPropertyTree__nb_or. rewrite Ha, Hb.
    pose proof (new_ptree_fresh h a) as Hfresh.
    unfold new_ptree in *. simpl in Hfresh.
    rewrite ptree_copy_id, Hloop.
    eexists _, _. split_and!; [done | done | done | |].
    + unfold deref. simpl. by rewrite lookup_insert_eq.
    + intros o [n Hn]. unfold deref in *.
      destruct (h !! obj_root o) as [root|] eqn:Hroot; [|done].
      rewrite !lookup_insert_ne by congruence. by rewrite Hroot.
  - unfold PyPropertyTree__nb_inplace_or. by rewrite Hloop.
Qed.

End merge.

Lemma PyPropertyTree__nb_or_witness :
  deref heap_abb_bc object_abb = Some tree_abb
  ∧ deref heap_abb_bc object_bc = Some tree_bc
  ∧ ∃ merged,
      merged = Node "" [("a", leaf "1"); ("b", leaf "9"); ("b", leaf "3");
                        ("c", leaf "4")] [0; 1; 2; 3]%nat
      ∧ merges (children tree_bc) tree_abb merged
      ∧ (∃ new h',
           @PyPropertyTree__nb_or Reference.platform heap_abb_bc
               (PyTree object_abb) (PyTree object_bc)
             = Some (Return (PyTree new), h')
           ∧ deref h' new = Some merged
           ∧ deref h' object_abb = Some tree_abb
           ∧ deref h' object_bc = Some tree_bc)
      ∧ @PyPropertyTree__nb_inplace_or Reference.platform tree_abb
          (PyTree tree_bc)
        = (Return PySelf, merged).
Proof.
  split; [reflexivity|]. split; [reflexivity|].
  destruct (@PyPropertyTree__nb_or_merges Reference.platform
              heap_abb_bc object_abb object_bc tree_abb tree_bc
              eq_refl eq_refl)
    as (merged & Hmerged & _ & (new & h' & Hor & _ & _ & Hnew & Hkeep)
        & Hinplace).
  { repeat constructor. }
  exists merged. split_and!; [|exact Hmerged| |exact Hinplace].
  - by injection Hinplace as <-.
  - exists new, h'. split; [exact Hor|]. split; [exact Hnew|].
    split; (rewrite Hkeep; [reflexivity | by eexists]).
Defined.

(** C4 as the specification has it fails for a key with a separator:
    [a |= b] does not replace the child of [a] that has the key ["x.y"],
    as putting the children of [b] over [a] by key does; it takes the key
    as the path to the child [y] of the child [x], and creates both. *)
Lemma PyPropertyTree__nb_inplace_or_dotted_key :
  @PyPropertyTree__nb_inplace_or Reference.platform tree_dotted_old
      (PyTree tree_dotted_new)
    = (Return PySelf,
       Node "" [("x.y", leaf "old");
                ("x", Node "" [("y", leaf "new")] [0%nat])] [0; 1]%nat)
  ∧ merges (children tree_dotted_new) tree_dotted_old
      (Node "" [("x.y", leaf "new")] [0%nat])
  ∧ ¬ merges (children tree_dotted_new) tree_dotted_old
        (@PyPropertyTree__nb_inplace_or Reference.platform tree_dotted_old
           (PyTree tree_dotted_new)).2.
Proof.
  assert (merges (children tree_dotted_new) tree_dotted_old
            (Node "" [("x.y", leaf "new")] [0%nat])) as Hmerges.
  { econstructor; [|constructor].
    apply (puts_key_replace "x.y" (leaf "new") tree_dotted_old 0 (leaf "old"));
      [done|].
    by apply find_first_linked. }
  split_and!; [reflexivity | done |].
  intros Hcode. by pose proof (merges_unique _ _ _ _ Hmerges Hcode).
Qed.

(** ** The examples of the specification, run on the model *)

(** The tree [{a: 1, b: 2, b: 3}]: [count("b")] is 2, [erase("b")] returns 2
    and leaves the one child [a = 1]. *)
Example tree_abb_count_erase :
  PyPropertyTree_count tree_abb "b" = (Return 2, tree_abb)
  ∧ PyPropertyTree_erase tree_abb "b"
    = (Return 2, Node "" [("a", leaf "1")] [0%nat])
  ∧ PyPropertyTree_count (Node "" [("a", leaf "1")] [0%nat]) "b"
    = (Return 0, Node "" [("a", leaf "1")] [0%nat]).
Proof. split_and!; reflexivity. Qed.

(** Putting at ["a.b.c"] in an empty tree creates three nested levels, each
    with one child; [get("a.b.c")] then refers to the innermost node, which
    holds the text of the value. *)
Example put_creates_nested_path :
  let nested :=
    Node ""
      [("a", Node "" [("b", Node "" [("c", leaf "5")] [0%nat])] [0%nat])]
      [0%nat] in
  @PyPropertyTree_put Reference.platform (Node "" [] []) "a.b.c" (PyLong 5)
    = (Return [0; 0; 0]%nat, nested)
  ∧ PyPropertyTree_get nested "a.b.c" None
    = (Return (PyTree_NotOwned [0; 0; 0]%nat), nested)
  ∧ subtree_at [0; 0; 0]%nat nested = Some (leaf "5").
Proof. split_and!; reflexivity. Qed.

(** ** pop, popitem and insert *)

Section positions.
Implicit Types (key k : string) (cs : list (string * ptree)) (i : nat).

Lemma count_in_zero key cs :
  Ptree.count_in key cs = 0%nat ↔ first_in key cs = None.
Proof.
  induction cs as [|[k0 c0] cs IH]; simpl; [done|].
  destruct (String.eqb k0 key); [done|].
  rewrite IH. by destruct (first_in key cs).
Qed.

Lemma count_in_app key cs1 cs2 :
  Ptree.count_in key (cs1 ++ cs2)
  = (Ptree.count_in key cs1 + Ptree.count_in key cs2)%nat.
Proof.
  induction cs1 as [|[k0 c0] cs1 IH]; simpl; [done|].
  destruct (String.eqb k0 key); simpl; by rewrite IH.
Qed.

Lemma count_in_delete key cs i k c :
  cs !! i = Some (k, c) →
  (Ptree.count_in key (delete i cs) + (if String.eqb k key then 1 else 0))%nat
  = Ptree.count_in key cs.
Proof.
  revert i. induction cs as [|[k0 c0] cs IH]; intros [|i] Hl;
    simplify_eq/=.
  - destruct (String.eqb k key); lia.
  - specialize (IH i Hl). destruct (String.eqb k0 key); simpl; lia.
Qed.


End positions.

Lemma count_zero_find key (pt : ptree) :
  Ptree.count key pt = 0%nat ↔ Ptree.find key pt = None.
Proof.
  unfold Ptree.count. by rewrite count_in_zero, find_None_first_in.
Qed.


(** [pop(key)]: when no child has the key it raises [KeyError], or returns
    the default if one was passed, and the tree is as before.  Otherwise it
    unlinks exactly one child, which has the key (the one [find] gives),
    and returns a copy of it: [count(key)] drops by one, the count of every
    other key stays, and the children that are left keep their order. *)
Theorem PyPropertyTree_pop_one (self : ptree) (key : string)
    (py_default : option PyValue) :
  (Ptree.count key self = 0%nat ∧
   PyPropertyTree_pop self key py_default
   = (match py_default with
      | None => Raise PyExc_KeyError
      | Some d => Return (PyPopped_default d)
      end, self))
  ∨ (∃ i c,
       children self !! i = Some (key, c)
       ∧ first_linked key self i
       ∧ PyPropertyTree_pop self key py_default
         = (Return (PyTree_Owned c),
            Node (data self) (delete i (children self))
              (Ptree.unlink i (by_name self)))
       ∧ S (Ptree.count key (PyPropertyTree_pop self key py_default).2)
         = Ptree.count key self
       ∧ ∀ k, k ≠ key →
           Ptree.count k (PyPropertyTree_pop self key py_default).2
           = Ptree.count k self).
Proof.
  unfold PyPropertyTree_pop.
  destruct (Ptree.find key self) as [i|] eqn:Hf.
  - right. pose proof (find_lookup _ _ _ Hf) as [c Hc].
    apply find_first_linked in Hf. rewrite Hc.
    exists i, c. rewrite ptree_copy_id. unfold Ptree.count.
    split_and!; [done | done | done | |].
    + cbn [snd Ptree.erase_at children].
      pose proof (count_in_delete key _ _ _ _ Hc) as Hcount.
      rewrite String.eqb_refl in Hcount. lia.
    + intros k Hk. cbn [snd Ptree.erase_at children].
      pose proof (count_in_delete k _ _ _ _ Hc) as Hcount.
      apply not_eq_sym, String.eqb_neq in Hk. rewrite Hk in Hcount. lia.
  - left. split; [by apply count_zero_find|]. by destruct py_default.
Qed.

Section insert.
Context `{Platform}.

(** [popitem] with an index in range, on a tree whose size an [int]
    holds. *)
Lemma PyPropertyTree_popitem_in_range (self : ptree) (index : Z) :
  Z.of_nat (Ptree.size self) < 2 ^ 31 →
  - Z.of_nat (Ptree.size self) ≤ index < Z.of_nat (Ptree.size self) →
  ∃ (i : nat) k c,
    Z.of_nat i = (if index <? 0
                  then index + Z.of_nat (Ptree.size self) else index)
    ∧ children self !! i = Some (k, c)
    ∧ PyPropertyTree_popitem self (Some index)
      = (Return (k, c), Ptree.erase_at i self).
Proof.
  intros Hsize Hindex. unfold PyPropertyTree_popitem.
  cbv zeta.
  rewrite PyArg_Parse_i_fits by (unfold INT_MIN, INT_MAX; lia).
  set (size := Z.of_nat (Ptree.size self)) in *.
  assert ((if index <? 0 then int_cast (index + size) else index)
          = (if index <? 0 then index + size else index)) as ->.
  { destruct (Z.ltb_spec index 0); [|done].
    apply int_cast_fits. unfold INT_MIN, INT_MAX. lia. }
  set (index' := if index <? 0 then index + size else index).
  assert (0 ≤ index' < size) as Hrange.
  { unfold index'. destruct (Z.ltb_spec index 0); lia. }
  destruct (Z.ltb_spec index' 0); [lia|].
  destruct (Z.leb_spec size index'); [lia|]. simpl.
  destruct (lookup_lt_is_Some_2 (children self) (Z.to_nat index'))
    as [[k c] Hkc]; [unfold size, Ptree.size in *; lia|].
  rewrite Hkc, ptree_copy_id.
  exists (Z.to_nat index'), k, c. split_and!; [lia | done | done].
Qed.

(** The bounds of [insert] and [popitem].  The index is parsed into an
    [int]: both raise [OverflowError] exactly for an index that does not
    fit.  On a tree whose size an [int] holds, [insert] raises
    [IndexError], before it looks at the value, exactly for an index that
    fits and is outside of [-(size + 1), size], and [popitem] exactly for
    one outside of [-size, size - 1]; [popitem()] without an index raises
    exactly on a tree without children.  The tree is not changed by a call
    that raises. *)
Theorem PyPropertyTree_insert_popitem_bounds (self : ptree) (index : Z)
    (key : string) (value : PyValue) :
  let size := Z.of_nat (Ptree.size self) in
  (PyPropertyTree_insert self index key value
     = (Raise PyExc_OverflowError, self)
   ↔ ¬ (INT_MIN ≤ index ≤ INT_MAX))
  ∧ (PyPropertyTree_popitem self (Some index)
       = (Raise PyExc_OverflowError, self)
     ↔ ¬ (INT_MIN ≤ index ≤ INT_MAX))
  ∧ (size < 2 ^ 31 →
     (PyPropertyTree_insert self index key value
        = (Raise PyExc_IndexError, self)
      ↔ INT_MIN ≤ index < - (size + 1) ∨ size < index ≤ INT_MAX)
     ∧ (PyPropertyTree_popitem self (Some index)
          = (Raise PyExc_IndexError, self)
        ↔ INT_MIN ≤ index < - size ∨ size ≤ index ≤ INT_MAX)
     ∧ (PyPropertyTree_popitem self None = (Raise PyExc_IndexError, self)
        ↔ children self = [])).
Proof.
  intros size.
  assert (∀ index', INT_MIN ≤ index' ≤ INT_MAX →
            PyPropertyTree_insert self index' key value
            ≠ (Raise PyExc_OverflowError, self)) as Hinsert.
  { intros index' Hfits. unfold PyPropertyTree_insert.
    rewrite PyArg_Parse_i_fits by done. cbv zeta.
    destruct (_ || _); [done|]. by destruct (value_to_tree value). }
  assert (∀ index', INT_MIN ≤ index' ≤ INT_MAX →
            PyPropertyTree_popitem self (Some index')
            ≠ (Raise PyExc_OverflowError, self)) as Hpopitem.
  { intros index' Hfits. unfold PyPropertyTree_popitem. cbv zeta.
    rewrite PyArg_Parse_i_fits by done.
    destruct (_ || _); [done|]. by destruct (children self !! _) as [[]|]. }
  split_and!.
  - split.
    + intros Hraise Hfits. by apply (Hinsert index).
    + intros Hfits. unfold PyPropertyTree_insert.
      by rewrite PyArg_Parse_i_overflow.
  - split.
    + intros Hraise Hfits. by apply (Hpopitem index).
    + intros Hfits. unfold PyPropertyTree_popitem. cbv zeta.
      by rewrite PyArg_Parse_i_overflow.
  - intros Hsize. split_and!.
    + destruct (decide (INT_MIN ≤ index ≤ INT_MAX)) as [Hfits|Hfits].
      2:{ unfold PyPropertyTree_insert.
          rewrite PyArg_Parse_i_overflow by done. split; [done | intros; unfold INT_MIN, INT_MAX, size in *; lia]. }
      destruct (decide (- (size + 1) ≤ index ≤ size)) as [Hin|Hout].
      * destruct (PyPropertyTree_insert_in_range self index key value
                    Hsize Hin) as (i & _ & _ & ->).
        destruct (value_to_tree value); (split; [done | intros; unfold INT_MIN, INT_MAX, size in *; lia]).
      * split; [intros; unfold INT_MIN, INT_MAX, size in *; lia|]. intros _. unfold PyPropertyTree_insert.
        rewrite PyArg_Parse_i_fits by done. cbv zeta. fold size.
        assert ((if index <? 0 then int_cast (index + (size + 1)) else index)
                = (if index <? 0 then index + (size + 1) else index)) as ->.
        { destruct (Z.ltb_spec index 0); [|done].
          apply int_cast_fits. unfold INT_MIN, INT_MAX in *. lia. }
        destruct (Z.ltb_spec index 0).
        -- destruct (Z.ltb_spec (index + (size + 1)) 0); [done | lia].
        -- destruct (Z.ltb_spec index 0); [lia|].
           destruct (Z.ltb_spec size index); [done | lia].
    + destruct (decide (INT_MIN ≤ index ≤ INT_MAX)) as [Hfits|Hfits].
      2:{ unfold PyPropertyTree_popitem. cbv zeta.
          rewrite PyArg_Parse_i_overflow by done. split; [done | intros; unfold INT_MIN, INT_MAX, size in *; lia]. }
      destruct (decide (- size ≤ index < size)) as [Hin|Hout].
      * destruct (PyPropertyTree_popitem_in_range self index Hsize Hin)
          as (i & k & c & _ & _ & ->).
        split; [done | intros; unfold INT_MIN, INT_MAX, size in *; lia].
      * split; [intros; unfold INT_MIN, INT_MAX, size in *; lia|]. intros _. unfold PyPropertyTree_popitem. cbv zeta.
        rewrite PyArg_Parse_i_fits by done. fold size.
        assert ((if index <? 0 then int_cast (index + size) else index)
                = (if index <? 0 then index + size else index)) as ->.
        { destruct (Z.ltb_spec index 0); [|done].
          apply int_cast_fits. unfold INT_MIN, INT_MAX in *. lia. }
        destruct (Z.ltb_spec index 0).
        -- destruct (Z.ltb_spec (index + size) 0); [done | lia].
        -- destruct (Z.ltb_spec index 0); [lia|].
           destruct (Z.leb_spec size index); [done | lia].
    + unfold PyPropertyTree_popitem. cbv zeta. fold size.
      cbn [PyArg_Parse_i].
      destruct (children self) as [|kc cs] eqn:Hcs.
      * assert (size = 0) as -> by (unfold size, Ptree.size; by rewrite Hcs).
        done.
      * assert (0 < size) as Hpos
          by (unfold size, Ptree.size; rewrite Hcs; simpl; lia).
        rewrite (int_cast_fits (size - 1))
          by (unfold INT_MIN, INT_MAX; lia).
        destruct (Z.ltb_spec (size - 1) 0); [lia|].
        destruct (Z.ltb_spec (size - 1) 0); [lia|].
        destruct (Z.leb_spec size (size - 1)); [lia|]. simpl.
        destruct (lookup_lt_is_Some_2 (kc :: cs) (Z.to_nat (size - 1)))
          as [[k c] ->]; [unfold size, Ptree.size; rewrite Hcs; simpl; lia|].
        done.
Qed.


(** [insert] at the index -1 does not go before the last child, as it does
    in a Python list: like the index [len(self)], it appends (on a tree
    whose size an [int] holds). *)
Theorem PyPropertyTree_insert_at_end (self : ptree) (key : string)
    (value : PyValue) :
  Z.of_nat (Ptree.size self) < 2 ^ 31 →
  PyPropertyTree_insert self (-1) key value
  = PyPropertyTree_append self key value
  ∧ PyPropertyTree_insert self (Z.of_nat (Ptree.size self)) key value
    = PyPropertyTree_append self key value.
Proof.
  intros Hsize.
  assert (take (Ptree.size self) (children self) = children self) as Htake
    by (apply take_ge; unfold Ptree.size; lia).
  assert (drop (Ptree.size self) (children self) = []) as Hdrop
    by (apply drop_ge; unfold Ptree.size; lia).
  assert (∀ tree, insert_before (Ptree.size self) key tree self
                  = (Ptree.push_back key tree self).2) as Hend.
  { intros tree. unfold insert_before. by rewrite Htake, Hdrop. }
  split.
  - destruct (PyPropertyTree_insert_in_range self (-1) key value Hsize)
      as (i & Hi & _ & ->); [lia|].
    replace i with (Ptree.size self) by (simpl in Hi; lia).
    unfold PyPropertyTree_append.
    destruct (value_to_tree value); [|done]. by rewrite Hend.
  - destruct (PyPropertyTree_insert_in_range self
                (Z.of_nat (Ptree.size self)) key value Hsize)
      as (i & Hi & _ & ->); [lia|].
    replace i with (Ptree.size self)
      by (destruct (Z.ltb_spec (Z.of_nat (Ptree.size self)) 0); lia).
    unfold PyPropertyTree_append.
    destruct (value_to_tree value); [|done]. by rewrite Hend.
Qed.

End insert.

Lemma PyPropertyTree_insert_at_end_witness :
  Z.of_nat (Ptree.size tree_abb) < 2 ^ 31
  ∧ @PyPropertyTree_insert Reference.platform tree_abb (-1) "z" (PyLong 7)
    = (Return [3%nat],
       Node "" [("a", leaf "1"); ("b", leaf "2"); ("b", leaf "3");
                ("z", leaf "7")] [0; 1; 2; 3]%nat).
Proof.
  split; [done|].
  destruct (PyPropertyTree_insert_at_end (H := Reference.platform)
              tree_abb "z" (PyLong 7)) as [-> _]; [done|].
  reflexivity.
Defined.


(** ** extend *)

Section extend.
Context `{Platform}.

Lemma push_back_all_app (kts1 kts2 : list (string * ptree)) (pt : ptree) :
  Ptree.push_back_all (kts1 ++ kts2) pt
  = Ptree.push_back_all kts2 (Ptree.push_back_all kts1 pt).
Proof. unfold Ptree.push_back_all. by rewrite fold_left_app. Qed.

Lemma push_back_all_children (kts : list (string * ptree)) (pt : ptree) :
  data (Ptree.push_back_all kts pt) = data pt
  ∧ children (Ptree.push_back_all kts pt) = children pt ++ kts.
Proof.
  revert pt. induction kts as [|[k t] kts IH]; intros pt.
  - by rewrite app_nil_r.
  - change (Ptree.push_back_all ((k, t) :: kts) pt)
      with (Ptree.push_back_all kts (Ptree.push_back k t pt).2).
    destruct (IH (Ptree.push_back k t pt).2) as [-> ->]. simpl.
    by rewrite <-app_assoc.
Qed.

Lemma extend_loop_converted (items : list PyItem)
    (kts : list (string * ptree)) (tail : list PyItem) (self : ptree) :
  Forall2 (λ item kt, convert_item item = inr kt) items kts →
  extend_loop (items ++ tail) self
  = extend_loop tail (Ptree.push_back_all kts self).
Proof.
  intros Hitems. revert self.
  induction Hitems as [|item kt items kts Hitem _ IH]; intros self; [done|].
  destruct item as [key value| |]; [|done..]. simpl in *.
  destruct (value_to_tree value) as [tree|]; [|done].
  simplify_eq. by rewrite IH.
Qed.

(** [extend(items)] links the items behind the children that are there, in
    their order, a tree as a copy and a scalar as a leaf. *)
Theorem PyPropertyTree_extend_appends (self : ptree) (items : list PyItem)
    (kts : list (string * ptree)) :
  Forall2 (λ item kt, convert_item item = inr kt) items kts →
  ∃ self',
    PyPropertyTree_extend self items = (Return tt, self')
    ∧ data self' = data self
    ∧ children self' = children self ++ kts
    ∧ self' = Ptree.push_back_all kts self.
Proof.
  intros Hitems. exists (Ptree.push_back_all kts self).
  destruct (push_back_all_children kts self) as [Hdata Hchildren].
  split_and!; [|done..].
  unfold PyPropertyTree_extend.
  rewrite <-(app_nil_r items).
  by rewrite (extend_loop_converted _ _ _ _ Hitems).
Qed.

(** [extend] is not all or nothing.  At the first item that is no tuple
    it raises [SystemError], at the first tuple that is no pair of a string
    and a value [TypeError], and at the first pair whose value cannot be
    stored [ValueError]; in each case the items before that one stay
    linked, behind the children that were there, and the items after it are
    not looked at. *)
Theorem PyPropertyTree_extend_keeps_prefix (self : ptree)
    (items : list PyItem) (kts : list (string * ptree))
    (rest : list PyItem) :
  Forall2 (λ item kt, convert_item item = inr kt) items kts →
  ∃ self',
    data self' = data self
    ∧ children self' = children self ++ kts
    ∧ self' = Ptree.push_back_all kts self
    ∧ PyPropertyTree_extend self (items ++ PyItem_other :: rest)
      = (Raise PyExc_SystemError, self')
    ∧ PyPropertyTree_extend self (items ++ PyTuple_other :: rest)
      = (Raise PyExc_TypeError, self')
    ∧ ∀ key value,
        value_to_tree value = None →
        PyPropertyTree_extend self (items ++ PyTuple_KeyValue key value :: rest)
        = (Raise PyExc_ValueError, self').
Proof.
  intros Hitems. exists (Ptree.push_back_all kts self).
  destruct (push_back_all_children kts self) as [Hdata Hchildren].
  unfold PyPropertyTree_extend.
  split_and!; [done.. | | |].
  - by rewrite (extend_loop_converted _ _ _ _ Hitems).
  - by rewrite (extend_loop_converted _ _ _ _ Hitems).
  - intros key value Hvalue.
    rewrite (extend_loop_converted _ _ _ _ Hitems). simpl.
    by rewrite Hvalue.
Qed.

End extend.

Lemma PyPropertyTree_extend_appends_witness :
  PyPropertyTree_extend (H := Reference.platform) tree_abb
    [PyTuple_KeyValue "c" (PyLong 4); PyTuple_KeyValue "a" (PyTree tree_abb)]
  = (Return tt,
     Node ""
       [("a", leaf "1"); ("b", leaf "2"); ("b", leaf "3"); ("c", leaf "4");
        ("a", tree_abb)] [0; 1; 2; 3; 4]%nat).
Proof.
  destruct (PyPropertyTree_extend_appends (H := Reference.platform) tree_abb
              [PyTuple_KeyValue "c" (PyLong 4);
               PyTuple_KeyValue "a" (PyTree tree_abb)]
              [("c", leaf "4"); ("a", tree_abb)])
    as (self' & -> & _ & _ & ->).
  - repeat constructor.
  - reflexivity.
Defined.

Lemma PyPropertyTree_extend_keeps_prefix_witness :
  PyPropertyTree_extend (H := Reference.platform) tree_abb
    ([PyTuple_KeyValue "c" (PyLong 4)]
     ++ PyTuple_KeyValue "d" Py_NotImplemented
     :: [PyTuple_KeyValue "e" (PyLong 5)])
  = (Raise PyExc_ValueError,
     Node ""
       [("a", leaf "1"); ("b", leaf "2"); ("b", leaf "3"); ("c", leaf "4")]
       [0; 1; 2; 3]%nat)
  ∧ PyPropertyTree_extend (H := Reference.platform) tree_abb
      ([PyTuple_KeyValue "c" (PyLong 4)]
       ++ PyItem_other :: [PyTuple_KeyValue "e" (PyLong 5)])
    = (Raise PyExc_SystemError,
       Node ""
         [("a", leaf "1"); ("b", leaf "2"); ("b", leaf "3"); ("c", leaf "4")]
         [0; 1; 2; 3]%nat).
Proof.
  destruct (PyPropertyTree_extend_keeps_prefix (H := Reference.platform)
              tree_abb [PyTuple_KeyValue "c" (PyLong 4)] [("c", leaf "4")]
              [PyTuple_KeyValue "e" (PyLong 5)])
    as (self' & _ & _ & -> & Hother & _ & Hvalue).
  - repeat constructor.
  - split; [by apply Hvalue | exact Hother].
Defined.

(** ** Iteration *)

Section iteration.
Implicit Types (callable : option (string → ptree → PyCalled))
  (rest cs : list (string * ptree)) (pos : nat).






End iteration.



(** ** Paths: what was put is what is found *)

Section walk.
Implicit Types (key k : string) (cs : list (string * ptree))
  (ks : list string) (t pt : ptree) (r : node_ref).

Lemma fst_insert_same cs i k (c c' : ptree) :
  cs !! i = Some (k, c) → (<[i := (k, c')]> cs).*1 = cs.*1.
Proof.
  intros Hi. rewrite list_fmap_insert. simpl.
  apply list_insert_id. by rewrite list_lookup_fmap, Hi.
Qed.

Lemma fst_alter_snd cs i (g : ptree → ptree) :
  (alter (λ kc, (kc.1, g kc.2)) i cs).*1 = cs.*1.
Proof.
  apply list_eq. intros j. rewrite !list_lookup_fmap.
  destruct (decide (i = j)) as [->|Hij].
  - rewrite list_lookup_alter_eq. by destruct (cs !! j).
  - by rewrite list_lookup_alter_ne.
Qed.

Lemma put_fragment_find key value parent :
  Ptree.find key (PtreePath.put_fragment key value parent).2
  = Some (PtreePath.put_fragment key value parent).1.
Proof.
  unfold PtreePath.put_fragment.
  destruct (Ptree.find key parent) as [i|] eqn:Hf; simpl.
  - destruct (find_lookup _ _ _ Hf) as [c Hc].
    rewrite <-Hf. apply find_keys; [|done]. by eapply fst_insert_same.
  - by apply find_push_back.
Qed.

Lemma force_path_walk ks pt :
  PtreePath.walk_path ks (PtreePath.force_path ks pt).2
  = Some (PtreePath.force_path ks pt).1.
Proof.
  revert pt. induction ks as [|k ks IH]; intros pt; simpl; [done|].
  destruct (Ptree.find k pt) as [i|] eqn:Hf.
  - destruct (find_lookup _ _ _ Hf) as [c Hc]. rewrite Hc.
    specialize (IH c). destruct (PtreePath.force_path ks c) as [r c'].
    cbn [fst snd PtreePath.walk_path] in *.
    assert (Ptree.find k
              (Node (data pt) (<[i := (k, c')]> (children pt)) (by_name pt))
            = Some i) as ->.
    { rewrite <-Hf. apply find_keys; [|done]. by eapply fst_insert_same. }
    cbn [children].
    rewrite list_lookup_insert_eq by (by eapply lookup_lt_Some).
    by rewrite IH.
  - specialize (IH (Node "" [] [])).
    destruct (PtreePath.force_path ks (Node "" [] [])) as [r c'].
    cbn [fst snd PtreePath.walk_path] in *.
    pose proof (find_push_back k c' pt Hf) as Hfind.
    cbn [Ptree.push_back snd] in Hfind. rewrite Hfind. cbn [children].
    rewrite list_lookup_middle by done. by rewrite IH.
Qed.

Lemma walk_path_update_at ks t r (f : ptree → ptree) :
  PtreePath.walk_path ks t = Some r →
  PtreePath.walk_path ks (update_at r f t) = Some r.
Proof.
  revert t r. induction ks as [|k ks IH]; intros t r; simpl.
  { by intros [= <-]. }
  destruct (Ptree.find k t) as [i|] eqn:Hf; [|done].
  destruct (children t !! i) as [[k0 c]|] eqn:Hi; [|done].
  destruct (PtreePath.walk_path ks c) as [r'|] eqn:Hw; [|done].
  intros [= <-]. cbn [update_at].
  rewrite (find_keys k _ t) by (by try apply fst_alter_snd).
  rewrite Hf. cbn [children]. rewrite list_lookup_alter_eq, Hi. simpl.
  by rewrite (IH c r' Hw).
Qed.

Lemma walk_path_snoc ks key t r parent (f : ptree → ptree) (i : nat) :
  PtreePath.walk_path ks t = Some r →
  subtree_at r t = Some parent →
  Ptree.find key (f parent) = Some i →
  PtreePath.walk_path (ks ++ [key]) (update_at r f t) = Some (r ++ [i]).
Proof.
  revert t r. induction ks as [|k ks IH]; intros t r; simpl.
  - intros [= <-] [= <-] Hfind. simpl. rewrite Hfind.
    destruct (find_lookup _ _ _ Hfind) as [c ->]. done.
  - destruct (Ptree.find k t) as [j|] eqn:Hf; [|done].
    destruct (children t !! j) as [[k0 c]|] eqn:Hj; [|done].
    destruct (PtreePath.walk_path ks c) as [r'|] eqn:Hw; [|done].
    intros [= <-]. simpl. rewrite Hj. intros Hparent Hfind.
    rewrite (find_keys k _ t) by (by try apply fst_alter_snd).
    rewrite Hf. cbn [children]. rewrite list_lookup_alter_eq, Hj. simpl.
    by rewrite (IH c r' Hw Hparent Hfind).
Qed.

Lemma path_split_snoc (path : string) :
  path_split path
  = removelast (path_split path) ++ [List.last (path_split path) ""].
Proof. apply app_removelast_last, path_split_not_nil. Qed.

End walk.

Lemma count_in_same_keys key (cs cs' : list (string * ptree)) :
  cs.*1 = cs'.*1 → Ptree.count_in key cs = Ptree.count_in key cs'.
Proof.
  revert cs'. induction cs as [|[k c] cs IH]; intros [|[k' c'] cs'] Hkeys;
    simplify_eq/=; [done|].
  by rewrite (IH cs').
Qed.

(** What the last step of [put_child] does to the number of children with
    the key and to the number of children. *)
Lemma put_fragment_count key (value parent : ptree) :
  Ptree.count key (PtreePath.put_fragment key value parent).2
  = Nat.max 1 (Ptree.count key parent)
  ∧ Ptree.size (PtreePath.put_fragment key value parent).2
    = (if Ptree.count key parent is O then S (Ptree.size parent)
       else Ptree.size parent).
Proof.
  unfold PtreePath.put_fragment.
  destruct (Ptree.find key parent) as [i|] eqn:Hf.
  - destruct (find_lookup _ _ _ Hf) as [c Hc].
    assert (Ptree.count key parent ≠ 0%nat) as Hcount.
    { rewrite count_zero_find. congruence. }
    unfold Ptree.count, Ptree.size in *. cbn [snd children].
    rewrite (count_in_same_keys key _ (children parent))
      by (by eapply fst_insert_same).
    rewrite length_insert.
    destruct (Ptree.count_in key (children parent)); [done|].
    split; [lia | done].
  - apply count_zero_find in Hf.
    unfold Ptree.count, Ptree.size in *. cbn [snd Ptree.push_back children].
    rewrite count_in_app, length_app, Hf. simpl.
    rewrite String.eqb_refl. split; [done | lia].
Qed.

Section put_get.
Context `{Platform}.

Lemma put_child_walk path value pt r pt' :
  PtreePath.put_child path value pt = Return (r, pt') →
  PtreePath.walk_path (path_split path) pt' = Some r
  ∧ ∃ r0 i, r = r0 ++ [i]
            ∧ PtreePath.walk_path (removelast (path_split path)) pt'
              = Some r0.
Proof.
  unfold PtreePath.put_child, PtreePath.link_child.
  destruct (PtreePath.path_assert _); [|done].
  pose proof (force_path_walk (removelast (path_split path)) pt) as Hwalk.
  destruct (PtreePath.force_path _ pt) as [r0 pt1]. simpl in Hwalk.
  destruct (subtree_at r0 pt1) as [parent|] eqn:Hparent; [|done].
  pose proof (put_fragment_find (List.last (path_split path) "") value
                parent) as Hfind.
  destruct (PtreePath.put_fragment _ value parent) as [i parent'] eqn:Hput.
  intros [= <- <-]. split.
  - rewrite (path_split_snoc path) at 1.
    apply (walk_path_snoc _ _ _ _ parent); [done | done|].
    by rewrite Hput.
  - exists r0, i. split; [done|]. by apply walk_path_update_at.
Qed.

(** A value that [put] stored under a path whose last fragment is not
    empty is the one a lookup of the path reaches: [put] returns a
    reference to a node that holds the value, and [get(path)], with or
    without a default, and [self[path]] return that reference. *)
Theorem PyPropertyTree_put_get (self : ptree) (path : string)
    (value : PyValue) (tree : ptree) :
  value_to_tree value = Some tree →
  List.last (path_split path) "" ≠ "" →
  ∃ r self',
    PyPropertyTree_put self path value = (Return r, self')
    ∧ subtree_at r self' = Some tree
    ∧ (∀ py_default,
         PyPropertyTree_get self' path py_default
         = (Return (PyTree_NotOwned r), self'))
    ∧ PyPropertyTree_mp_subscript self' (PyUnicode path) = (Return r, self').
Proof.
  intros Hvalue Hlast.
  assert (valid_path path) as Hvalid.
  { unfold valid_path, PtreePath.path_assert.
    apply String.eqb_neq in Hlast. rewrite Hlast. by destruct NDEBUG. }
  destruct (put_child_stores path tree self Hvalid) as (r & self' & Hput & Hr).
  destruct (put_child_walk _ _ _ _ _ Hput) as [Hwalk _].
  assert (PtreePath.get_child path self' = Some r) as Hget.
  { unfold PtreePath.get_child, path_keys.
    apply String.eqb_neq in Hlast. by rewrite Hlast. }
  exists r, self'. unfold PyPropertyTree_put, PyPropertyTree_get,
    PyPropertyTree_mp_subscript.
  rewrite Hvalue, Hput, Hget. done.
Qed.


(** [setdefault] settles: under a path whose last fragment is not empty,
    once a call has returned, every further call for the path, whatever
    its default is, returns the same reference and does not change the
    tree. *)
Theorem PyPropertyTree_setdefault_settles (self : ptree) (path : string)
    (value : option PyValue) (r : node_ref) (self' : ptree) :
  List.last (path_split path) "" ≠ "" →
  PyPropertyTree_setdefault self path value = (Return r, self') →
  ∀ value', PyPropertyTree_setdefault self' path value' = (Return r, self').
Proof.
  intros Hlast. unfold PyPropertyTree_setdefault.
  destruct (PtreePath.get_child path self) as [r0|] eqn:Hget.
  - intros [= <- <-] value'. by rewrite Hget.
  - destruct (value_to_tree _) as [tree|]; [|done].
    destruct (PtreePath.put_child path tree self) as [[r1 self1]| |] eqn:Hput;
      [|done..].
    intros [= <- <-] value'.
    destruct (put_child_walk _ _ _ _ _ Hput) as [Hwalk _].
    unfold PtreePath.get_child, path_keys.
    apply String.eqb_neq in Hlast. by rewrite Hlast, Hwalk.
Qed.

(** Under a key that is a single fragment, [add] is [append], and [put]
    differs from it only where a child has the key already: [add] always
    makes [count(key)] one more, [put] makes it one when there was no such
    child and leaves it as it is otherwise. *)
Theorem PyPropertyTree_add_put_count (self : ptree) (key : string)
    (value : PyValue) (tree : ptree) :
  plain_key key = true →
  value_to_tree value = Some tree →
  PyPropertyTree_add self key value = PyPropertyTree_append self key value
  ∧ Ptree.count key (PyPropertyTree_add self key value).2
    = S (Ptree.count key self)
  ∧ Ptree.count key (PyPropertyTree_put self key value).2
    = Nat.max 1 (Ptree.count key self)
  ∧ Ptree.size (PyPropertyTree_put self key value).2
    = (if Ptree.count key self is O then S (Ptree.size self)
       else Ptree.size self).
Proof.
  intros Hplain Hvalue.
  pose proof Hplain as Hplain'. unfold plain_key in Hplain'.
  apply andb_true_iff in Hplain' as [Hsplit Hassert].
  apply negb_true_iff in Hsplit.
  assert (PyPropertyTree_add self key value
          = PyPropertyTree_append self key value) as Hadd.
  { unfold PyPropertyTree_add, PyPropertyTree_append. rewrite Hvalue.
    unfold PtreePath.add_child, PtreePath.link_child.
    rewrite (path_split_plain key Hsplit). simpl. rewrite Hassert.
    done. }
  split; [done|]. rewrite Hadd.
  unfold PyPropertyTree_append, PyPropertyTree_put. rewrite Hvalue.
  destruct (put_child_plain key tree self Hplain) as [r ->].
  destruct (put_fragment_count key tree self) as [Hcount Hsize].
  cbn [returning snd Ptree.push_back].
  split_and!; [|done..].
  unfold Ptree.count. cbn [children].
  rewrite count_in_app. simpl. rewrite String.eqb_refl. lia.
Qed.

End put_get.


Lemma PyPropertyTree_put_get_witness :
  ∃ r self',
    PyPropertyTree_put (H := Reference.platform) tree_abb "a.x.y" (PyBool true)
    = (Return r, self')
    ∧ subtree_at r self' = Some (leaf "true")
    ∧ (∀ py_default,
         PyPropertyTree_get self' "a.x.y" py_default
         = (Return (PyTree_NotOwned r), self'))
    ∧ PyPropertyTree_mp_subscript self' (PyUnicode "a.x.y")
      = (Return r, self').
Proof.
  apply (PyPropertyTree_put_get (H := Reference.platform)).
  - reflexivity.
  - discriminate.
Defined.


Lemma PyPropertyTree_setdefault_settles_witness :
  PyPropertyTree_setdefault (H := Reference.platform) (leaf "") "a.x"
    (Some (PyLong 7))
  = (Return [0; 0]%nat,
     Node "" [("a", Node "" [("x", leaf "7")] [0%nat])] [0%nat])
  ∧ ∀ value',
      PyPropertyTree_setdefault (H := Reference.platform)
        (Node "" [("a", Node "" [("x", leaf "7")] [0%nat])] [0%nat])
        "a.x" value'
      = (Return [0; 0]%nat,
         Node "" [("a", Node "" [("x", leaf "7")] [0%nat])] [0%nat]).
Proof.
  split; [reflexivity|].
  apply (PyPropertyTree_setdefault_settles (H := Reference.platform)
           (leaf "") "a.x" (Some (PyLong 7))).
  - discriminate.
  - reflexivity.
Defined.

Lemma PyPropertyTree_add_put_count_witness :
  PyPropertyTree_add (H := Reference.platform) tree_abb "b" (PyLong 7)
  = PyPropertyTree_append (H := Reference.platform) tree_abb "b" (PyLong 7)
  ∧ Ptree.count "b" (PyPropertyTree_add (H := Reference.platform) tree_abb "b" (PyLong 7)).2
    = S (Ptree.count "b" tree_abb)
  ∧ Ptree.count "b" (PyPropertyTree_put (H := Reference.platform) tree_abb "b" (PyLong 7)).2
    = Nat.max 1 (Ptree.count "b" tree_abb)
  ∧ Ptree.size (PyPropertyTree_put (H := Reference.platform) tree_abb "b" (PyLong 7)).2
    = (if Ptree.count "b" tree_abb is O then S (Ptree.size tree_abb)
       else Ptree.size tree_abb).
Proof.
  apply (PyPropertyTree_add_put_count (H := Reference.platform) tree_abb "b"
           (PyLong 7) (leaf "7")).
  - reflexivity.
  - reflexivity.
Defined.

(** ** What a merge leaves *)

Section merged.
Context `{Platform}.

Lemma puts_key_count key value t t' k :
  puts_key key value t t' →
  Ptree.count k t'
  = (if String.eqb key k then Nat.max 1 (Ptree.count k t)
     else Ptree.count k t).
Proof.
  unfold Ptree.count. destruct 1 as [i c Hi _|Hnone]; cbn [children].
  - rewrite (count_in_same_keys k _ (children t))
      by (by eapply fst_insert_same).
    destruct (String.eqb_spec key k) as [<-|]; [|done].
    destruct (Ptree.count_in key (children t)) eqn:Hcount; [|lia].
    apply count_in_zero in Hcount. rewrite first_in_None in Hcount.
    destruct (Hcount key c); [|done]. by eapply list_elem_of_lookup_2.
  - rewrite count_in_app. simpl.
    destruct (String.eqb_spec key k) as [<-|]; [|lia].
    assert (Ptree.count_in key (children t) = 0%nat) as ->; [|done].
    by apply count_in_zero, first_in_None.
Qed.

Lemma merges_count cs t t' k :
  merges cs t t' →
  Ptree.count k t'
  = (if Ptree.count_in k cs is O then Ptree.count k t
     else Nat.max 1 (Ptree.count k t)).
Proof.
  induction 1 as [a|k0 c cs a a' merged Hput _ IH]; [done|].
  rewrite IH, (puts_key_count _ _ _ _ k Hput). simpl.
  destruct (String.eqb k0 k), (Ptree.count_in k cs); lia.
Qed.

Lemma merges_data cs t t' : merges cs t t' → data t' = data t.
Proof.
  induction 1 as [a|k0 c cs a a' merged Hput _ IH]; [done|].
  rewrite IH. by destruct Hput.
Qed.


Lemma merges_keys cs t t' :
  merges cs t t' → ∃ extra, (children t').*1 = (children t).*1 ++ extra.
Proof.
  induction 1 as [a|k0 c cs a a' merged Hput _ [extra IH]].
  { exists []. by rewrite app_nil_r. }
  rewrite IH. destruct Hput as [i c0 Hi _|_]; cbn [children].
  - exists extra. by rewrite (fst_insert_same _ _ _ _ _ Hi).
  - exists (k0 :: extra). by rewrite fmap_app, <-app_assoc.
Qed.

(** [a |= b], counted: when no key of [b] holds the path separator (nor is
    empty, where assertions are compiled in), the merged tree has the data
    of [a], the children of [a] keep their places and their keys, new
    children come behind them, and [count(key)] is what it was in [a] for
    a key that [b] does not have and for one that [a] has, and 1 for a key
    that only [b] has, however often [b] has it. *)
Theorem PyPropertyTree__nb_inplace_or_counts (a b : ptree) :
  Forall (λ kc, plain_key kc.1 = true) (children b) →
  ∃ merged extra,
    PyPropertyTree__nb_inplace_or a (PyTree b) = (Return PySelf, merged)
    ∧ data merged = data a
    ∧ (children merged).*1 = (children a).*1 ++ extra
    ∧ ∀ key,
        Ptree.count key merged
        = (if Ptree.count key b is O then Ptree.count key a
           else Nat.max 1 (Ptree.count key a)).
Proof.
  intros Hplain.
  destruct (or_loop_plain _ a Hplain) as (merged & Hloop & Hmerged).
  destruct (merges_keys _ _ _ Hmerged) as [extra Hkeys].
  exists merged, extra.
  unfold PyPropertyTree__nb_inplace_or. rewrite Hloop.
  split_and!; [done | by eapply merges_data | done |].
  intros key. by apply merges_count.
Qed.

End merged.

Lemma PyPropertyTree__nb_inplace_or_counts_witness :
  ∃ merged,
    @PyPropertyTree__nb_inplace_or Reference.platform tree_abb
      (PyTree tree_bc)
    = (Return PySelf, merged)
    ∧ Ptree.count "b" merged = 2%nat
    ∧ Ptree.count "c" merged = 1%nat.
Proof.
  destruct (PyPropertyTree__nb_inplace_or_counts (H := Reference.platform)
              tree_abb tree_bc)
    as (merged & extra & Hmerged & _ & _ & Hcount).
  - repeat constructor.
  - exists merged. split; [exact Hmerged|].
    split; [exact (Hcount "b") | exact (Hcount "c")].
Defined.

(** ** __reduce__ *)

Section reduce.
Context `{Platform}.





End reduce.

(** [{a: 1, b: 2, b: 3}] taken through its reduce value loses the first
    child with the key [b]. *)
Example reduce_loses_repeated_key :
  @store_items Reference.platform
    ((λ kc, (kc.1, PyTree kc.2)) <$> children tree_abb) (leaf "")
  = (Return tt,
     Node "" [("a", leaf "1"); ("b", leaf "3")] [0; 1]%nat).
Proof. reflexivity. Qed.

(** ** Sorting *)

Section string_order.
Implicit Types x y z : string.

Lemma ltb_irrefl x : String.ltb x x = false.
Proof.
  unfold String.ltb.
  destruct (String.compare x x) eqn:Hc; [done| |done].
  pose proof (String.compare_antisym x x) as Ha. rewrite Hc in Ha. done.
Qed.

Lemma ltb_asym x y : String.ltb x y = true → String.ltb y x = false.
Proof.
  unfold String.ltb. rewrite (String.compare_antisym x y).
  by destruct (String.compare y x).
Qed.

Lemma ltb_trans x y z :
  String.ltb x y = true → String.ltb y z = true → String.ltb x z = true.
Proof.
  unfold String.ltb. intros Hxy Hyz.
  assert (String.compare x y = Lt) as Hxy'
    by (by destruct (String.compare x y)).
  assert (String.compare y z = Lt) as Hyz'
    by (by destruct (String.compare y z)).
  apply (OrderedTypeEx.String_as_OT.cmp_lt x y) in Hxy'.
  apply (OrderedTypeEx.String_as_OT.cmp_lt y z) in Hyz'.
  pose proof (OrderedTypeEx.String_as_OT.lt_trans _ _ _ Hxy' Hyz') as Hxz.
  apply (OrderedTypeEx.String_as_OT.cmp_lt x z) in Hxz.
  unfold OrderedTypeEx.String_as_OT.cmp in Hxz. by rewrite Hxz.
Qed.

Lemma ltb_total x y :
  String.ltb x y = false → String.ltb y x = false → x = y.
Proof.
  unfold String.ltb. rewrite (String.compare_antisym x y).
  destruct (String.compare y x) eqn:Hc; [|done..].
  intros _ _. symmetry. by apply String.compare_eq_iff.
Qed.

Lemma ltb_le_trans x y z :
  String.ltb x y = true → String.ltb z y = false → String.ltb x z = true.
Proof.
  intros Hxy Hzy. destruct (String.ltb y z) eqn:Hyz.
  - by eapply ltb_trans.
  - by rewrite <-(ltb_total _ _ Hyz Hzy).
Qed.

End string_order.

Section sorting.
Context {A : Type}.
Implicit Types (x y : string * A) (l acc : list (string * A)).

Lemma by_first_le_trans x y z :
  by_first_le x y → by_first_le y z → by_first_le x z.
Proof.
  unfold by_first_le. intros Hxy Hyz.
  destruct (String.ltb z.1 x.1) eqn:Hzx; [|done].
  by rewrite (ltb_le_trans _ _ _ Hzx Hxy) in Hyz.
Qed.

Lemma sort_insert_perm x l : sort_insert x l ≡ₚ x :: l.
Proof.
  induction l as [|y l IH]; simpl; [done|].
  destruct (String.ltb x.1 y.1); [done|].
  rewrite IH. apply Permutation_swap.
Qed.

Lemma sort_insert_sorted x l :
  StronglySorted by_first_le l → StronglySorted by_first_le (sort_insert x l).
Proof.
  induction 1 as [|y l Hl IH Hy]; simpl.
  { repeat constructor. }
  destruct (String.ltb x.1 y.1) eqn:Hxy.
  - constructor; [by constructor|].
    assert (by_first_le x y) as Hle by (by apply ltb_asym).
    constructor; [done|].
    eapply Forall_impl; [done|]. intros z. by apply by_first_le_trans.
  - constructor; [done|]. rewrite sort_insert_perm. by constructor.
Qed.

Lemma sort_insert_filter (key : string) x l :
  StronglySorted by_first_le l →
  filter (λ kc, kc.1 = key) (sort_insert x l)
  = filter (λ kc, kc.1 = key) l ++ filter (λ kc, kc.1 = key) [x].
Proof.
  induction 1 as [|y l Hl IH Hy]; simpl; [done|].
  destruct (String.ltb x.1 y.1) eqn:Hxy.
  - rewrite (filter_cons _ x (y :: l)), (filter_cons _ x []), filter_nil.
    destruct (decide (x.1 = key)) as [Hx|Hx]; [|by rewrite app_nil_r].
    assert (filter (λ kc, kc.1 = key) (y :: l) = []) as ->; [|done].
    apply filter_nil_Forall_not.
    assert (∀ z, by_first_le y z → z.1 ≠ key) as Hne.
    { intros z Hz Hzk. rewrite <-Hx in Hzk.
      pose proof (ltb_le_trans _ _ _ Hxy Hz) as Hlt.
      rewrite Hzk, ltb_irrefl in Hlt. done. }
    constructor.
    + apply Hne. apply ltb_irrefl.
    + eapply Forall_impl; [done|]. done.
  - rewrite (filter_cons _ y (sort_insert x l)), (filter_cons _ y l), IH.
    by destruct (decide (y.1 = key)).
Qed.

Lemma sort_insert_last x acc :
  Forall (λ y, by_first_le y x) acc → sort_insert x acc = acc ++ [x].
Proof.
  induction 1 as [|y acc Hy _ IH]; simpl; [done|].
  unfold by_first_le in Hy. by rewrite Hy, IH.
Qed.

Lemma sort_fold_perm l acc :
  fold_left (λ sorted x, sort_insert x sorted) l acc ≡ₚ acc ++ l.
Proof.
  revert acc. induction l as [|x l IH]; intros acc; simpl.
  { by rewrite app_nil_r. }
  rewrite IH, sort_insert_perm. simpl. apply Permutation_middle.
Qed.

Lemma sort_fold_sorted l acc :
  StronglySorted by_first_le acc →
  StronglySorted by_first_le
    (fold_left (λ sorted x, sort_insert x sorted) l acc).
Proof.
  revert acc. induction l as [|x l IH]; intros acc Hacc; simpl; [done|].
  by apply IH, sort_insert_sorted.
Qed.

Lemma sort_fold_filter (key : string) l acc :
  StronglySorted by_first_le acc →
  filter (λ kc, kc.1 = key)
    (fold_left (λ sorted x, sort_insert x sorted) l acc)
  = filter (λ kc, kc.1 = key) acc ++ filter (λ kc, kc.1 = key) l.
Proof.
  revert acc. induction l as [|x l IH]; intros acc Hacc; simpl.
  { by rewrite filter_nil, app_nil_r. }
  rewrite IH by (by apply sort_insert_sorted).
  rewrite sort_insert_filter by done.
  by rewrite <-app_assoc, <-filter_app.
Qed.

Lemma sort_fold_id l acc :
  StronglySorted by_first_le (acc ++ l) →
  fold_left (λ sorted x, sort_insert x sorted) l acc = acc ++ l.
Proof.
  revert acc. induction l as [|x l IH]; intros acc Hsorted; simpl.
  { by rewrite app_nil_r. }
  rewrite sort_insert_last.
  - rewrite IH; rewrite <-app_assoc; done.
  - apply Forall_forall. intros y Hy.
    eapply (StronglySorted_app_1_elem_of _ _ _ _ _ Hsorted); [done|].
    by left.
Qed.

Lemma sort_by_key_perm l : sort_by_key l ≡ₚ l.
Proof. apply (sort_fold_perm l []). Qed.

Lemma sort_by_key_sorted l : StronglySorted by_first_le (sort_by_key l).
Proof. apply sort_fold_sorted. constructor. Qed.

Lemma sort_by_key_filter (key : string) l :
  filter (λ kc, kc.1 = key) (sort_by_key l) = filter (λ kc, kc.1 = key) l.
Proof. apply (sort_fold_filter key l []). constructor. Qed.

Lemma sort_by_key_id l : StronglySorted by_first_le l → sort_by_key l = l.
Proof. intros Hl. by apply (sort_fold_id l []). Qed.

End sorting.

Lemma sort_insert_fmap {A B : Type} (g : A → B) (x : string * A)
    (acc : list (string * A)) :
  sort_insert (x.1, g x.2) ((λ y, (y.1, g y.2)) <$> acc)
  = (λ y, (y.1, g y.2)) <$> sort_insert x acc.
Proof.
  induction acc as [|y acc IH]; [done|].
  rewrite fmap_cons. cbn [sort_insert fst].
  destruct (String.ltb x.1 y.1); [done|].
  by rewrite fmap_cons, <-IH.
Qed.

Lemma sort_fold_fmap {A B : Type} (g : A → B) (l acc : list (string * A)) :
  fold_left (λ sorted x, sort_insert x sorted) ((λ y, (y.1, g y.2)) <$> l)
    ((λ y, (y.1, g y.2)) <$> acc)
  = (λ y, (y.1, g y.2)) <$> fold_left (λ sorted x, sort_insert x sorted) l acc.
Proof.
  revert acc. induction l as [|x l IH]; intros acc; [done|].
  rewrite fmap_cons. cbn [fold_left].
  by rewrite sort_insert_fmap, IH.
Qed.

Lemma sort_by_key_fmap {A B : Type} (g : A → B) (l : list (string * A)) :
  sort_by_key ((λ y, (y.1, g y.2)) <$> l)
  = (λ y, (y.1, g y.2)) <$> sort_by_key l.
Proof. apply (sort_fold_fmap g l []). Qed.

Lemma sorted_by_keys {A B : Type} (l1 : list (string * A))
    (l2 : list (string * B)) :
  l1.*1 = l2.*1 →
  StronglySorted by_first_le l1 → StronglySorted by_first_le l2.
Proof.
  intros Hkeys Hsorted. revert l2 Hkeys.
  induction Hsorted as [|x l1 _ IH Hx]; intros [|y l2] Hkeys;
    simplify_eq/=; constructor.
  - by apply IH.
  - apply (Forall_fmap fst (λ k, String.ltb k y.1 = false)).
    rewrite <-H0, <-H. by apply Forall_fmap.
Qed.

Lemma ordered_positions {A : Type} (cs : list (string * A)) :
  (imap (λ i (kc : string * A), (kc.1, i)) cs).*2 = seq 0 (length cs).
Proof.
  rewrite fmap_imap.
  rewrite <-(list_fmap_id (seq 0 (length cs))), <-(imap_seq_0 cs id).
  by apply imap_ext.
Qed.

Lemma index_of_seq (p n : nat) :
  (p < n)%nat → Ptree.index_of p (seq 0 n) = Some p.
Proof.
  intros Hp. unfold Ptree.index_of.
  assert (list_find (λ x, x = p) (seq 0 n) = Some (p, p)) as ->; [|done].
  apply list_find_Some. split_and!; [by apply lookup_seq | done |].
  intros j y [-> _]%lookup_seq. simpl. lia.
Qed.

Lemma index_of_lt (p : nat) (moved : list nat) (j : nat) :
  Ptree.index_of p moved = Some j → (j < length moved)%nat.
Proof.
  unfold Ptree.index_of.
  destruct (list_find _ moved) as [[j' x]|] eqn:Hfind; intros [= <-].
  apply list_find_Some in Hfind as [Hj _]. by eapply lookup_lt_Some.
Qed.

Lemma renumber_lt (moved by_name : list nat) :
  Forall (λ j, (j < length moved)%nat) (Ptree.renumber moved by_name).
Proof.
  apply Forall_forall. intros j Hj.
  apply list_elem_of_omap in Hj as (p & _ & Hp). by eapply index_of_lt.
Qed.

Lemma renumber_seq (n : nat) (by_name : list nat) :
  Forall (λ j, (j < n)%nat) by_name →
  Ptree.renumber (seq 0 n) by_name = by_name.
Proof.
  unfold Ptree.renumber.
  induction 1 as [|p by_name Hp _ IH]; [done|].
  cbn [omap list_omap]. by rewrite index_of_seq, IH.
Qed.

(** [sort()] rearranges the children and nothing else: the children after
    the call are the children before it in another order, no child stands
    behind a child with a greater key, children with one key keep their
    order among themselves (the sort is stable), and sorting again changes
    nothing. *)
Theorem PyPropertyTree_sort_stable (self : ptree) :
  ∃ cs' by_name',
    PyPropertyTree_sort self = (Return tt, Node (data self) cs' by_name')
    ∧ cs' ≡ₚ children self
    ∧ StronglySorted by_first_le cs'
    ∧ (∀ key, filter (λ kc, kc.1 = key) cs'
              = filter (λ kc, kc.1 = key) (children self))
    ∧ PyPropertyTree_sort (Node (data self) cs' by_name')
      = (Return tt, Node (data self) cs' by_name').
Proof.
  eexists (sort_by_key (children self)), _. split_and!.
  - done.
  - apply sort_by_key_perm.
  - apply sort_by_key_sorted.
  - intros key. apply sort_by_key_filter.
  - unfold PyPropertyTree_sort. cbn [data children by_name].
    rewrite (sort_by_key_id _ (sort_by_key_sorted _)).
    rewrite (sort_by_key_id (imap _ (sort_by_key (children self)))).
    2:{ apply (sorted_by_keys (sort_by_key (children self)));
          [|apply sort_by_key_sorted].
        rewrite fmap_imap. rewrite <-(imap_const fst (sort_by_key _)).
        by apply imap_ext. }
    do 2 f_equal.
    rewrite ordered_positions.
    rewrite (Permutation_length (sort_by_key_perm (children self))).
    apply renumber_seq.
    eapply Forall_impl; [apply renumber_lt|]. intros j Hj. simpl in Hj.
    rewrite length_fmap in Hj.
    rewrite (Permutation_length (sort_by_key_perm _)), length_imap in Hj.
    done.
Qed.

(** The tree [[b: 3, a: 2, b: 1]] in which the last child was linked
    first: [find("b")] is the last child before [sort()] and after it. *)
Example sort_keeps_find :
  let t := Node "" [("b", leaf "3"); ("a", leaf "2"); ("b", leaf "1")]
             [2; 1; 0]%nat in
  Ptree.find "b" t = Some 2%nat
  ∧ PyPropertyTree_sort t
    = (Return tt,
       Node "" [("a", leaf "2"); ("b", leaf "3"); ("b", leaf "1")]
         [2; 0; 1]%nat)
  ∧ Ptree.find "b" (PyPropertyTree_sort t).2 = Some 2%nat.
Proof. split_and!; reflexivity. Qed.

(** ** Iteration in key order *)

Section ordered.
Implicit Types (key : string) (cs : list (string * ptree)) (range : list nat).

Lemma run_assoc_iterator (container : ptree) range (fuel : nat) :
  (length range < fuel)%nat →
  Forall (λ i, is_Some (children container !! i)) range →
  run_iterator (PyPropertyTree_AssocIter__tp_iternext container) fuel
    {| assoc_range := range |}
  = Some ((λ i, (default "" (fst <$> children container !! i), [i]))
            <$> range, None).
Proof.
  intros Hfuel Hrange. revert fuel Hfuel.
  induction Hrange as [|i range [[k c] Hi] _ IH]; intros [|fuel] Hfuel;
    cbn [length] in Hfuel; try lia; [done|].
  cbn [run_iterator]. unfold PyPropertyTree_AssocIter__tp_iternext at 1.
  cbn [assoc_range]. rewrite Hi, IH by lia.
  rewrite fmap_cons, Hi. done.
Qed.

Lemma ordered_index_perm (pt : ptree) :
  ordered_index pt ≡ₚ seq 0 (Ptree.size pt).
Proof.
  unfold ordered_index.
  rewrite sort_by_key_perm, <-list_fmap_compose, <-linked_seq.
  by rewrite list_fmap_id.
Qed.



Lemma count_in_positions key (pre cs : list (string * ptree)) :
  length (filter (λ i, fst <$> (pre ++ cs) !! i = Some key)
            (seq (length pre) (length cs)))
  = Ptree.count_in key cs.
Proof.
  revert pre. induction cs as [|[k c] cs IH]; intros pre; [done|].
  cbn [length seq Ptree.count_in]. rewrite filter_cons.
  specialize (IH (pre ++ [(k, c)])).
  rewrite <-app_assoc, length_app in IH. simpl in IH.
  rewrite Nat.add_1_r in IH.
  rewrite list_lookup_middle by done. simpl.
  destruct (String.eqb_spec k key) as [->|Hk].
  - rewrite decide_True by done. simpl. by rewrite IH.
  - rewrite decide_False by congruence. done.
Qed.

End ordered.

(** *** The index by key under [sort()] and [erase(key)] *)

Lemma renumber_well_linked (n : nat) (moved by_name : list nat) :
  moved ≡ₚ seq 0 n → by_name ≡ₚ seq 0 n →
  Ptree.renumber moved by_name ≡ₚ seq 0 n.
Proof.
  intros Hmoved Hperm.
  assert (NoDup by_name) as Hnodup by (rewrite Hperm; apply NoDup_seq).
  assert (NoDup moved) as Hnodup' by (rewrite Hmoved; apply NoDup_seq).
  assert (length moved = n) as Hlen
    by (by rewrite Hmoved, length_seq).
  assert (∀ p, p ∈ by_name ↔ (p < n)%nat) as Hin.
  { intros p. rewrite Hperm, elem_of_seq. lia. }
  assert (∀ p, p ∈ moved ↔ (p < n)%nat) as Hin'.
  { intros p. rewrite Hmoved, elem_of_seq. lia. }
  assert (∀ p j, Ptree.index_of p moved = Some j ↔ moved !! j = Some p)
    as Hindex.
  { intros p j. unfold Ptree.index_of. split.
    - destruct (list_find _ moved) as [[j' x]|] eqn:Hfind; intros [= <-].
      by apply list_find_Some in Hfind as (? & -> & _).
    - intros Hj.
      destruct (list_find_elem_of (λ x, x = p) moved p) as [[j' x] Hfind];
        [by eapply list_elem_of_lookup_2 | done |].
      rewrite Hfind. simpl. f_equal.
      apply list_find_Some in Hfind as (Hj' & -> & _).
      by eapply NoDup_lookup. }
  apply NoDup_Permutation; [|apply NoDup_seq|].
  - unfold Ptree.renumber. clear Hperm Hin.
    induction Hnodup as [|p l Hp _ IH]; [constructor|].
    cbn [omap list_omap].
    destruct (Ptree.index_of p moved) as [j|] eqn:Hj; [|done].
    apply NoDup_cons. split; [|done].
    intros (q & Hq & Hqj)%list_elem_of_omap.
    apply Hindex in Hj, Hqj. by simplify_eq.
  - intros x. unfold Ptree.renumber.
    rewrite list_elem_of_omap, elem_of_seq. split.
    + intros (p & _ & Hp%index_of_lt). lia.
    + intros [_ Hx].
      destruct (lookup_lt_is_Some_2 moved x) as [p Hp]; [lia|].
      exists p. split; [|by apply Hindex].
      apply Hin, Hin'. by eapply list_elem_of_lookup_2.
Qed.

Lemma sort_well_linked pt :
  Ptree.well_linked pt → Ptree.well_linked (PyPropertyTree_sort pt).2.
Proof.
  unfold Ptree.well_linked, Ptree.size. simpl. intros Hperm.
  rewrite (Permutation_length (sort_by_key_perm (children pt))).
  apply renumber_well_linked; [|done].
  rewrite sort_by_key_perm. by rewrite ordered_positions.
Qed.

Lemma unlink_descending (n : nat) (erased by_name : list nat) :
  by_name ≡ₚ seq 0 n →
  StronglySorted lt erased → Forall (λ i, (i < n)%nat) erased →
  fold_left (λ by_name i, Ptree.unlink i by_name) (reverse erased) by_name
  ≡ₚ seq 0 (n - length erased).
Proof.
  revert n by_name.
  induction erased as [|i erased IH] using rev_ind; intros n by_name.
  { intros Hperm _ _. simpl. by rewrite Nat.sub_0_r. }
  intros Hperm Hsorted Hlt.
  apply Forall_app in Hlt as [Hlt [Hi _]%Forall_cons].
  rewrite reverse_snoc, length_app. cbn [fold_left length].
  destruct n as [|n]; [lia|].
  replace (S n - (length erased + 1))%nat with (n - length erased)%nat
    by lia.
  apply IH.
  - apply unlink_well_linked; [lia | done].
  - by eapply StronglySorted_app_1_l.
  - apply Forall_forall. intros j Hj.
    assert (j < i)%nat; [|lia].
    eapply (StronglySorted_app_1_elem_of _ _ _ _ _ Hsorted); [done|].
    by left.
Qed.

Lemma seq_sorted (a n : nat) : StronglySorted lt (seq a n).
Proof.
  revert a. induction n as [|n IH]; intros a; simpl; constructor; [done|].
  apply Forall_forall. intros x Hx%elem_of_seq. lia.
Qed.

Lemma filter_sorted {A : Type} (R : relation A) (P : A → Prop)
    `{∀ x, Decision (P x)} (l : list A) :
  StronglySorted R l → StronglySorted R (filter P l).
Proof.
  induction 1 as [|x l _ IH Hx]; [constructor|].
  rewrite filter_cons. destruct (decide (P x)); [|done].
  constructor; [done|]. apply Forall_forall.
  intros y [_ Hy]%list_elem_of_filter.
  rewrite Forall_forall in Hx. by apply Hx.
Qed.

Lemma erase_key_well_linked key pt :
  Ptree.well_linked pt → Ptree.well_linked (Ptree.erase_key key pt).2.
Proof.
  unfold Ptree.well_linked, Ptree.erase_key, Ptree.size.
  rewrite erase_in_spec. cbn [snd children by_name]. intros Hperm.
  assert (length (filter (λ kc : string * ptree, kc.1 ≠ key) (children pt))
          = (length (children pt)
             - length (filter (Ptree.has_key key pt)
                         (seq 0 (length (children pt)))))%nat) as ->.
  { assert (length (filter (Ptree.has_key key pt)
                       (seq 0 (length (children pt))))
            = Ptree.count_in key (children pt)) as ->
      by exact (count_in_positions key [] (children pt)).
    rewrite count_in_filter.
    pose proof (Permutation_length
                  (filter_app_complement (λ kc : string * ptree, kc.1 = key)
                     (children pt))) as Hlen.
    rewrite length_app in Hlen. lia. }
  apply unlink_descending; [done | |].
  - apply filter_sorted, seq_sorted.
  - apply Forall_forall. intros i [_ Hi%elem_of_seq]%list_elem_of_filter.
    lia.
Qed.


(** [search(key)] with a string yields exactly the children that have the
    key: as many as [count(key)] says, each of them once. *)
Theorem PyPropertyTree_search_key (self : ptree) (key : string)
    (extra : nat) :
  ∃ it yielded,
    PyPropertyTree_search self (PySearch_key key) = Return (inl it)
    ∧ run_iterator (PyPropertyTree_AssocIter__tp_iternext self)
        (S (Ptree.size self) + extra) it
      = Some (yielded, None)
    ∧ length yielded = Ptree.count key self
    ∧ NoDup yielded.*2
    ∧ Forall (λ y, ∃ i c, y = (key, [i])
                          ∧ children self !! i = Some (key, c)) yielded.
Proof.
  eexists _, _. split; [done|].
  assert (Forall (λ i, ∃ c, children self !! i = Some (key, c))
            (equal_range key self)) as Hrange.
  { apply Forall_forall. intros i Hi.
    apply list_elem_of_filter in Hi as [Hi _]. by apply has_key_lookup. }
  split_and!.
  - apply run_assoc_iterator.
    + unfold equal_range.
      pose proof (length_filter (Ptree.has_key key self)
                    (ordered_index self)) as Hlen.
      rewrite (Permutation_length (ordered_index_perm self)), length_seq
        in Hlen.
      lia.
    + eapply Forall_impl; [done|]. intros i [c ->]. done.
  - rewrite length_fmap. unfold equal_range.
    rewrite (Permutation_length
               (filter_Permutation _ _ _ (ordered_index_perm self))).
    apply (count_in_positions key [] (children self)).
  - rewrite <-list_fmap_compose. apply NoDup_fmap_2.
    + intros i j [= ->]. done.
    + apply NoDup_filter.
      rewrite (ordered_index_perm self). apply NoDup_seq.
  - apply Forall_fmap. eapply Forall_impl; [done|].
    intros i [c Hc]. simpl. exists i, c. by rewrite Hc.
Qed.

(** ** Subscripts *)

Lemma py_index_mod (index size : Z) :
  0 ≤ (if index <? 0 then index + size else index) < size →
  (if index <? 0 then index + size else index) = index mod size.
Proof.
  destruct (Z.ltb_spec index 0); intros Hrange.
  - apply (Z.mod_unique_pos index size (-1)); lia.
  - apply (Z.mod_unique_pos index size 0); lia.
Qed.

(** [self[index]] with an integer: an index from [-len(self)] up to
    [len(self) - 1] gives the child at that position, counted from the end
    when it is negative, any other index that fits an [int] raises
    [IndexError].  The index is cut to an [int] before it is looked at, so
    that [index + 2^32] names the same child as [index]. *)
Theorem PyPropertyTree_mp_subscript_index (self : ptree) (index : Z) :
  - 2 ^ 31 ≤ index < 2 ^ 31 →
  Z.of_nat (Ptree.size self) < 2 ^ 31 →
  (- Z.of_nat (Ptree.size self) ≤ index < Z.of_nat (Ptree.size self) →
   is_Some (children self
              !! Z.to_nat (index mod Z.of_nat (Ptree.size self)))
   ∧ PyPropertyTree_mp_subscript self (PyLong index)
     = (Return [Z.to_nat (index mod Z.of_nat (Ptree.size self))], self))
  ∧ (index < - Z.of_nat (Ptree.size self)
     ∨ Z.of_nat (Ptree.size self) ≤ index →
     PyPropertyTree_mp_subscript self (PyLong index)
     = (Raise PyExc_IndexError, self))
  ∧ PyPropertyTree_mp_subscript self (PyLong (index + 2 ^ 32))
    = PyPropertyTree_mp_subscript self (PyLong index).
Proof.
  intros Hint Hsize. unfold PyPropertyTree_mp_subscript.
  cbn [PyIndex_Check]. cbv zeta.
  assert (int_cast (index + 2 ^ 32) = int_cast index) as ->.
  { unfold int_cast.
    replace (index + 2 ^ 32 + 2 ^ 31) with (index + 2 ^ 31 + 1 * 2 ^ 32)
      by lia.
    by rewrite Z_mod_plus_full. }
  rewrite (int_cast_small index Hint).
  set (size := Z.of_nat (Ptree.size self)) in *.
  assert ((if index <? 0 then int_cast (index + size) else index)
          = (if index <? 0 then index + size else index)) as ->.
  { destruct (Z.ltb_spec index 0); [|done]. apply int_cast_small. lia. }
  pose proof (py_index_mod index size) as Hmod.
  set (index' := if index <? 0 then index + size else index) in *.
  assert (0 ≤ index' < size ↔ - size ≤ index < size) as Hrange.
  { unfold index'. destruct (Z.ltb_spec index 0); lia. }
  split_and!; [| |done].
  - intros Hin. apply Hrange in Hin. rewrite <-(Hmod Hin).
    destruct (Z.leb_spec 0 index'); [|lia].
    destruct (Z.ltb_spec index' size); [|lia]. simpl. split; [|done].
    apply lookup_lt_is_Some_2. unfold size, Ptree.size in *. lia.
  - intros Hout.
    destruct (Z.leb_spec 0 index'); [|done].
    destruct (Z.ltb_spec index' size); [lia|done].
Qed.

Lemma PyPropertyTree_mp_subscript_index_witness :
  (- Z.of_nat (Ptree.size tree_abb) ≤ -1 < Z.of_nat (Ptree.size tree_abb) →
   is_Some (children tree_abb
              !! Z.to_nat (-1 mod Z.of_nat (Ptree.size tree_abb)))
   ∧ PyPropertyTree_mp_subscript tree_abb (PyLong (-1))
     = (Return [Z.to_nat (-1 mod Z.of_nat (Ptree.size tree_abb))], tree_abb))
  ∧ (-1 < - Z.of_nat (Ptree.size tree_abb)
     ∨ Z.of_nat (Ptree.size tree_abb) ≤ -1 →
     PyPropertyTree_mp_subscript tree_abb (PyLong (-1))
     = (Raise PyExc_IndexError, tree_abb))
  ∧ PyPropertyTree_mp_subscript tree_abb (PyLong (-1 + 2 ^ 32))
    = PyPropertyTree_mp_subscript tree_abb (PyLong (-1)).
Proof.
  apply (PyPropertyTree_mp_subscript_index tree_abb (-1)).
  - vm_compute. split; [discriminate | reflexivity].
  - vm_compute. reflexivity.
Defined.

Section ass_subscript.
Context `{Platform}.

(** Assigning and deleting by index go through the key of the child at the
    index: for an index that fits an [int], on a tree whose size an [int]
    holds, [self[index] = value] is [self[key] = value] for the key of the
    child at the index, counted from the end when it is negative, which is
    read as a path, and [del self[index]] unlinks the first child in
    storage order that has that key, the child at the index only when no
    child before it shares its key.  The index is cut to an [int] before
    it is looked at, so that [index + 2^32] does what [index] does. *)
Theorem PyPropertyTree_mp_ass_subscript_index (self : ptree) (index : Z)
    (key : string) :
  - 2 ^ 31 ≤ index < 2 ^ 31 →
  Z.of_nat (Ptree.size self) < 2 ^ 31 →
  key_at_index self index = Some key →
  (- Z.of_nat (Ptree.size self) ≤ index < Z.of_nat (Ptree.size self)
   ∧ ∃ c, children self
            !! Z.to_nat (index mod Z.of_nat (Ptree.size self))
          = Some (key, c))
  ∧ (∀ value,
       PyPropertyTree_mp_ass_subscript self (PyLong index) value
       = PyPropertyTree_mp_ass_subscript self (PyUnicode key) value)
  ∧ (∀ value,
       PyPropertyTree_mp_ass_subscript self (PyLong (index + 2 ^ 32)) value
       = PyPropertyTree_mp_ass_subscript self (PyLong index) value)
  ∧ ∃ (j : nat) c,
      Z.of_nat j ≤ index mod Z.of_nat (Ptree.size self)
      ∧ children self !! j = Some (key, c)
      ∧ (∀ j' k' c', (j' < j)%nat →
           children self !! j' = Some (k', c') → k' ≠ key)
      ∧ PyPropertyTree_mp_ass_subscript self (PyLong index) None
        = (Return tt,
           Node (data self) (delete j (children self))
             (Ptree.unlink j (by_name self))).
Proof.
  intros Hint Hsize Hkey.
  assert (key_at_index self (index + 2 ^ 32) = key_at_index self index)
    as Hwrap.
  { unfold key_at_index. cbv zeta.
    assert (int_cast (index + 2 ^ 32) = int_cast index) as ->; [|done].
    unfold int_cast.
    replace (index + 2 ^ 32 + 2 ^ 31) with (index + 2 ^ 31 + 1 * 2 ^ 32)
      by lia.
    by rewrite Z_mod_plus_full. }
  assert (∀ value,
            PyPropertyTree_mp_ass_subscript self (PyLong index) value
            = PyPropertyTree_mp_ass_subscript self (PyUnicode key) value)
    as Hsame.
  { intros value. unfold PyPropertyTree_mp_ass_subscript.
    cbn [PyIndex_Check]. by rewrite Hkey. }
  assert (∀ value,
            PyPropertyTree_mp_ass_subscript self (PyLong (index + 2 ^ 32))
              value
            = PyPropertyTree_mp_ass_subscript self (PyLong index) value)
    as Hsame'.
  { intros value. unfold PyPropertyTree_mp_ass_subscript.
    cbn [PyIndex_Check]. by rewrite Hwrap. }
  assert (- Z.of_nat (Ptree.size self) ≤ index < Z.of_nat (Ptree.size self)
          ∧ ∃ c, children self
                   !! Z.to_nat (index mod Z.of_nat (Ptree.size self))
                 = Some (key, c)) as [Hrange [c0 Hi]].
  { clear Hwrap Hsame Hsame'.
    unfold key_at_index in Hkey. cbv zeta in Hkey.
    rewrite (int_cast_small index Hint) in Hkey.
    set (size := Z.of_nat (Ptree.size self)) in *.
    assert ((if index <? 0 then int_cast (index + size) else index)
            = (if index <? 0 then index + size else index)) as Hcast.
    { destruct (Z.ltb_spec index 0); [|done]. apply int_cast_small. lia. }
    rewrite Hcast in Hkey. clear Hcast.
    pose proof (py_index_mod index size) as Hmod.
    set (index' := if index <? 0 then index + size else index) in *.
    destruct (Z.leb_spec 0 index'); [|done].
    destruct (Z.ltb_spec index' size); [|done].
    simpl in Hkey. rewrite <-Hmod by lia.
    destruct (children self !! Z.to_nat index') as [[k c0]|] eqn:Hi;
      simplify_eq/=.
    split; [|by eauto].
    unfold index' in *. destruct (Z.ltb_spec index 0); lia. }
  split; [by eauto|]. split; [done|]. split; [done|].
  rewrite (Hsame None).
  unfold PyPropertyTree_mp_ass_subscript. cbn [PyIndex_Check].
  rewrite remove_scan_find.
  destruct (first_in key (children self)) as [j|] eqn:Hfind.
  - apply first_in_Some in Hfind as [[c Hc] Hmin].
    exists j, c. split_and!; [|done..].
    set (i := Z.to_nat (index mod Z.of_nat (Ptree.size self))) in *.
    assert (0 ≤ index mod Z.of_nat (Ptree.size self))
      by (apply Z.mod_pos_bound; lia).
    destruct (decide (i < j)%nat) as [Hlt|]; [|lia].
    by destruct (Hmin _ _ _ Hlt Hi).
  - rewrite first_in_None in Hfind.
    destruct (Hfind key c0); [|done]. by eapply list_elem_of_lookup_2.
Qed.

End ass_subscript.

Lemma PyPropertyTree_mp_ass_subscript_index_witness :
  key_at_index tree_abb (-1) = Some "b"
  ∧ PyPropertyTree_mp_ass_subscript (H := Reference.platform) tree_abb
      (PyLong (-1)) None
    = (Return tt, Node "" [("a", leaf "1"); ("b", leaf "3")] [0; 1]%nat)
  ∧ PyPropertyTree_mp_ass_subscript (H := Reference.platform) tree_abb
      (PyLong (-1 + 2 ^ 32)) (Some (PyLong 7))
    = PyPropertyTree_mp_ass_subscript (H := Reference.platform) tree_abb
        (PyUnicode "b") (Some (PyLong 7)).
Proof.
  split; [reflexivity|].
  destruct (PyPropertyTree_mp_ass_subscript_index (H := Reference.platform)
              tree_abb (-1) "b")
    as (_ & Hsame & Hwrap & j & c & _ & _ & _ & Hdel).
  - vm_compute. split; [discriminate | reflexivity].
  - reflexivity.
  - reflexivity.
  - split; [reflexivity|]. by rewrite Hwrap, Hsame.
Defined.

(** ** Presence of a key *)



(** ** Concatenation, construction, reversal *)

Section concat.
Context `{Platform}.


(** The constructor makes of one argument the node that an assignment of
    the argument stores, a copy of a tree or a leaf for a scalar, and of
    keyword arguments a tree with one child for each, in their order.  An
    argument that cannot be stored raises [TypeError] as a positional and
    [ValueError] as a keyword argument; positional and keyword arguments
    together, or more than one positional argument, raise [TypeError]. *)
Theorem PyPropertyTree__tp_init_stores :
  (∀ value tree, value_to_tree value = Some tree →
     PyPropertyTree__tp_init [value] None = Return tree)
  ∧ (∀ value, value_to_tree value = None →
       PyPropertyTree__tp_init [value] None = Raise PyExc_TypeError)
  ∧ (∀ kw kts,
       Forall2 (λ kv kt, kt.1 = kv.1 ∧ value_to_tree kv.2 = Some kt.2)
         kw kts →
       ∃ obj,
         PyPropertyTree__tp_init [] (Some kw) = Return obj
         ∧ data obj = "" ∧ children obj = kts
         ∧ obj = Ptree.push_back_all kts (Node "" [] []))
  ∧ (∀ kw kts key value rest,
       Forall2 (λ kv kt, kt.1 = kv.1 ∧ value_to_tree kv.2 = Some kt.2)
         kw kts →
       value_to_tree value = None →
       PyPropertyTree__tp_init [] (Some (kw ++ (key, value) :: rest))
       = Raise PyExc_ValueError)
  ∧ (∀ value args kw,
       PyPropertyTree__tp_init (value :: args) (Some kw)
       = Raise PyExc_TypeError)
  ∧ (∀ value1 value2 args,
       PyPropertyTree__tp_init (value1 :: value2 :: args) None
       = Raise PyExc_TypeError).
Proof.
  assert (∀ kw kts,
            Forall2 (λ kv kt, kt.1 = kv.1 ∧ value_to_tree kv.2 = Some kt.2)
              kw kts →
            Forall2 (λ item kt, convert_item item = inr kt)
              (uncurry PyTuple_KeyValue <$> kw) kts) as Hconvert.
  { intros kw kts Hkw. apply Forall2_fmap_l.
    eapply Forall2_impl; [done|].
    intros [k v] [k' t] [Hk Hv]. simpl in *. by rewrite Hv, Hk. }
  split_and!.
  - intros value tree Hvalue. unfold PyPropertyTree__tp_init.
    destruct value; simpl in *;
      try (by destruct (py_value_to_string _); simplify_eq/=);
      simplify_eq/=; try done.
    by rewrite ptree_copy_id.
  - intros value Hvalue. unfold PyPropertyTree__tp_init.
    destruct value; simpl in *;
      try (by destruct (py_value_to_string _); simplify_eq/=);
      simplify_eq/=; done.
  - intros kw kts Hkw. unfold PyPropertyTree__tp_init.
    rewrite <-(app_nil_r (_ <$> kw)).
    rewrite (extend_loop_converted _ _ _ _ (Hconvert _ _ Hkw)).
    eexists. split; [done|].
    by destruct (push_back_all_children kts (Node "" [] [])) as [-> ->].
  - intros kw kts key value rest Hkw Hvalue.
    unfold PyPropertyTree__tp_init. rewrite fmap_app, fmap_cons.
    rewrite (extend_loop_converted _ _ _ _ (Hconvert _ _ Hkw)).
    simpl. by rewrite Hvalue.
  - intros value args kw. done.
  - intros value1 value2 args. done.
Qed.

End concat.

(** [reverse()] turns the order of the children round and changes nothing
    else: the child at position [i] is the one that was at position
    [len(self) - 1 - i], the count of every key is as before, and reversing
    twice gives the tree back. *)
Theorem PyPropertyTree_reverse_involutive (self : ptree) :
  ∃ cs' by_name',
    PyPropertyTree_reverse self = (Return tt, Node (data self) cs' by_name')
    ∧ PyPropertyTree_reverse (Node (data self) cs' by_name')
      = (Return tt, self)
    ∧ (∀ i, (i < Ptree.size self)%nat →
         cs' !! i = children self !! (Ptree.size self - S i)%nat)
    ∧ ∀ key, Ptree.count_in key cs' = Ptree.count key self.
Proof.
  eexists (reverse (children self)), _. split_and!.
  - done.
  - unfold PyPropertyTree_reverse, Ptree.size. cbn [data children by_name].
    rewrite reverse_involutive, length_reverse.
    destruct self as [d cs bn]. cbn [data children by_name]. do 2 f_equal.
    unfold Ptree.mirror. rewrite <-list_fmap_compose.
    rewrite <-(list_fmap_id bn) at 2. apply list_fmap_ext.
    intros _ p _. simpl.
    destruct (Nat.ltb_spec p (length cs)) as [Hp|Hp].
    + assert ((length cs - 1 - p <? length cs)%nat = true) as ->
        by (apply Nat.ltb_lt; lia).
      lia.
    + by apply Nat.ltb_ge in Hp as ->.
  - intros i Hi. by apply reverse_lookup.
  - intros key. unfold Ptree.count. rewrite !count_in_filter.
    apply Permutation_length, filter_Permutation, reverse_Permutation.
Qed.

(** ** Keys that hold the separator *)

Section dotted.
Context `{Platform}.

Lemma count_in_keys (key : string) (cs : list (string * ptree)) :
  Ptree.count_in key cs = length (filter (λ k, k = key) cs.*1).
Proof.
  induction cs as [|[k c] cs IH]; simpl; [done|].
  rewrite filter_cons.
  destruct (String.eqb_spec k key) as [->|Hk].
  - rewrite decide_True by done. simpl. by rewrite IH.
  - by rewrite decide_False.
Qed.

Lemma put_child_top_keys path tree self r self' :
  PtreePath.put_child path tree self = Return (r, self') →
  ∃ extra, (children self').*1 = (children self).*1 ++ extra
           ∧ (extra = [] ∨ extra = [hd "" (path_split path)]).
Proof.
  unfold PtreePath.put_child, PtreePath.link_child.
  destruct (PtreePath.path_assert _); [|done].
  pose proof (path_split_snoc path) as Hsnoc.
  set (fragment := List.last (path_split path) "") in *.
  assert (∀ k1 rest, removelast (path_split path) = k1 :: rest →
            hd "" (path_split path) = k1) as Hhd
    by (by intros k1 rest Hrl; rewrite Hsnoc, Hrl).
  assert (removelast (path_split path) = [] →
            hd "" (path_split path) = fragment) as Hhd'
    by (by intros Hrl; rewrite Hsnoc, Hrl).
  clear Hsnoc.
  destruct (removelast (path_split path)) as [|k1 rest].
  - cbn [PtreePath.force_path subtree_at update_at].
    rewrite Hhd' by done.
    unfold PtreePath.put_fragment.
    destruct (Ptree.find fragment self) as [i|] eqn:Hfind.
    + intros [= <- <-]. exists []. simpl.
      destruct (find_lookup _ _ _ Hfind) as [c Hc].
      rewrite (fst_insert_same _ _ _ _ _ Hc), app_nil_r. by split; [|left].
    + intros [= <- <-]. eexists [_]. simpl.
      rewrite fmap_app. by split; [|right].
  - rewrite (Hhd k1 rest) by done. cbn [PtreePath.force_path].
    destruct (Ptree.find k1 self) as [i|] eqn:Hfind.
    + destruct (find_lookup _ _ _ Hfind) as [c Hc]. rewrite Hc.
      destruct (PtreePath.force_path rest c) as [r' c'].
      destruct (subtree_at _ _) as [parent|]; [|done].
      destruct (PtreePath.put_fragment _ tree parent) as [j parent'].
      intros [= <- <-]. exists []. cbn [update_at children data].
      rewrite fst_alter_snd, (fst_insert_same _ _ _ _ _ Hc), app_nil_r.
      by split; [|left].
    + destruct (PtreePath.force_path rest (Node "" [] [])) as [r' c'].
      destruct (subtree_at _ _) as [parent|]; [|done].
      destruct (PtreePath.put_fragment _ tree parent) as [j parent'].
      intros [= <- <-]. exists [k1]. cbn [update_at children data].
      rewrite fst_alter_snd, fmap_app. by split; [|right].
Qed.

(** Item assignment reads its key as a path, item deletion reads it as a
    key: for a key that holds the separator, [self[key] = value] links no
    child under that key among the children of [self], so that, unless
    such a child was there before, [del self[key]] right after the
    assignment raises [KeyError]. *)
Theorem PyPropertyTree_mp_ass_subscript_dotted (self : ptree) (path : string)
    (value : PyValue) (tree : ptree) :
  value_to_tree value = Some tree →
  valid_path path →
  existsb (Ascii.eqb separator) (list_ascii_of_string path) = true →
  ∃ self',
    PyPropertyTree_mp_ass_subscript self (PyUnicode path) (Some value)
    = (Return tt, self')
    ∧ Ptree.count path self' = Ptree.count path self
    ∧ (Ptree.count path self = 0%nat →
       PyPropertyTree_mp_ass_subscript self' (PyUnicode path) None
       = (Raise PyExc_KeyError, self')).
Proof.
  intros Hvalue Hvalid Hdotted.
  destruct (put_child_stores path tree self Hvalid) as (r & self' & Hput & _).
  exists self'.
  assert (Ptree.count path self' = Ptree.count path self) as Hcount.
  { destruct (put_child_top_keys _ _ _ _ _ Hput) as (extra & Hkeys & Hextra).
    unfold Ptree.count. rewrite !count_in_keys, Hkeys, filter_app, length_app.
    destruct Hextra as [->| ->]; [simpl; lia|].
    rewrite filter_cons, decide_False; [simpl; lia|].
    intros Hhd. destruct (concat_path_split path) as [_ Hfragments].
    pose proof (path_split_not_nil path) as Hne.
    destruct (path_split path) as [|k ks]; [done|].
    inversion_clear Hfragments as [|?? Hk _]. simpl in Hhd. subst k.
    unfold is_fragment in Hk. by rewrite Hk in Hdotted. }
  unfold PyPropertyTree_mp_ass_subscript. cbn [PyIndex_Check].
  rewrite Hvalue, Hput. split_and!; [done..|].
  intros Habsent. rewrite remove_scan_find.
  rewrite <-Hcount in Habsent. apply count_in_zero in Habsent.
  unfold Ptree.count in *. by rewrite Habsent.
Qed.

End dotted.

Lemma PyPropertyTree_mp_ass_subscript_dotted_witness :
  ∃ self',
    PyPropertyTree_mp_ass_subscript (H := Reference.platform) tree_abb
      (PyUnicode "a.x") (Some (PyLong 7))
    = (Return tt, self')
    ∧ Ptree.count "a.x" self' = Ptree.count "a.x" tree_abb
    ∧ (Ptree.count "a.x" tree_abb = 0%nat →
       PyPropertyTree_mp_ass_subscript (H := Reference.platform) self'
         (PyUnicode "a.x") None
       = (Raise PyExc_KeyError, self')).
Proof.
  apply (PyPropertyTree_mp_ass_subscript_dotted (H := Reference.platform)
           tree_abb "a.x" (PyLong 7) (leaf "7")).
  - reflexivity.
  - reflexivity.
  - reflexivity.
Defined.
